(** * web-crawler: the two Scrapy spiders and the crawls they drive

    [src/spiders/count_spider.py] (census mode) and
    [src/spiders/fast_spider.py] (content mode) are embedded as state
    transformers over the spider object's fields.  A [parse] callback is a
    Python generator: it is embedded as a resumable computation whose
    suspension points are exactly the [yield]s of the source.  The Scrapy
    engine, the downloader and [urllib.parse] are the environment: the engine
    is a small labelled transition system that delivers responses, reports
    failures and resumes generators in any order.  The HTTP handlers of
    [src/api.py], which start content crawls and report on them, are
    embedded as functions over the task registry.

    [count_spider.py] uses the name [time] without importing it.  The two
    statements that do so, in [__init__] and in [spider_closed], raise
    [NameError]; they are embedded as they are, so the census facts below
    are about the methods of a spider object in any state, not about a
    crawl started through the class. *)

From Stdlib Require Import String Ascii ZArith List Sorted DecimalString DecimalNat.
From stdpp Require Import gmap strings list.

Local Open Scope string_scope.
Local Open Scope list_scope.
Local Open Scope stdpp_scope.
Local Open Scope nat_scope.

(** ** Python values shared by both spiders *)

(** [str(n)] for a non-negative [int]. *)
Definition str_nat (n : nat) : string :=
  NilEmpty.string_of_uint (Nat.to_uint n).

(** [needle in hay] on Python strings: substring containment. *)
Fixpoint str_in (needle hay : string) : bool :=
  String.prefix needle hay ||
  match hay with
  | EmptyString => false
  | String _ hay' => str_in needle hay'
  end.

(** [str(z)] for an [int]. *)
Definition str_Z (z : Z) : string :=
  NilEmpty.string_of_int (Z.to_int z).

(** The newline character. *)
Definition nl : string := String (ascii_of_nat 10) "".

(** [s * n] for a string [s]. *)
Fixpoint str_repeat (s : string) (n : nat) : string :=
  match n with
  | 0 => ""
  | S n' => s +:+ str_repeat s n'
  end.

(** The functions of [urllib.parse] the spiders call.  They belong to the
    Python standard library, so the development is parametric in them; they
    are taken to return a string on every argument. *)
Class UrlLib := {
  netloc : string -> string;            (* urlparse(u).netloc *)
  url_path : string -> string;          (* urlparse(u).path *)
  urljoin : string -> string -> string  (* urljoin(base, href) *)
}.

(** A Python [dict]: keys are unique and iteration follows insertion order.
    Assigning to a present key keeps its position. *)
Module PyDict.
Section Dict.
Context {K V : Type} `{EqDecision K}.

Definition dict := list (K * V).

Fixpoint dict_get (k : K) (d : dict) : option V :=
  match d with
  | [] => None
  | (k', v) :: d' => if decide (k = k') then Some v else dict_get k d'
  end.

Fixpoint dict_set (k : K) (v : V) (d : dict) : dict :=
  match d with
  | [] => [(k, v)]
  | (k', v') :: d' =>
      if decide (k = k') then (k, v) :: d' else (k', v') :: dict_set k v d'
  end.

Definition dict_keys (d : dict) : list K := d.*1.
Definition dict_values (d : dict) : list V := d.*2.
End Dict.
Arguments dict : clear implicits.

(** [d[k] += 1] on a [Counter] or a [defaultdict(int)]: a missing key reads
    as 0. *)
Definition dict_incr {K} `{EqDecision K} (k : K) (d : dict K nat) : dict K nat :=
  dict_set k (default 0 (dict_get k d) + 1) d.

(** [d[k]] on a [defaultdict(int)], for reading. *)
Definition dict_get0 {K} `{EqDecision K} (k : K) (d : dict K nat) : nat :=
  default 0 (dict_get k d).
End PyDict.
Import PyDict.

(** [sorted(l, key=key)]: ascending and stable. *)
Section Sorted.
Context {A : Type} (key : A -> nat).

Fixpoint insert_asc (x : A) (l : list A) : list A :=
  match l with
  | [] => [x]
  | y :: l' => if key x <=? key y then x :: l else y :: insert_asc x l'
  end.

Definition sorted_by (l : list A) : list A := foldr insert_asc [] l.
End Sorted.

(** What one [next()] on a callback's generator gives the engine: a yielded
    request together with the suspended generator, exhaustion, or a demand
    to close the spider (a [CloseSpider] exception in census mode, a call of
    [engine.close_spider] followed by [return] in content mode). *)
Inductive outcome (Q G : Type) :=
| Yielded (q : Q) (g : G)
| Exhausted
| CloseSpider (reason : string).
Arguments Yielded {Q G} q g.
Arguments Exhausted {Q G}.
Arguments CloseSpider {Q G} reason.

(** ** The Scrapy engine, as far as a spider can observe it

    The engine keeps the requests it was given and has not answered yet
    ([pending], whether scheduled or in flight) and the generators returned
    by callbacks that it is still consuming ([running]).  Nothing fixes the
    order in which requests are answered or generators advanced, so every
    order is a run.  A request is answered by a response (its callback is
    called, which creates a generator), fails (its errback is called) or,
    once the engine is closing, is discarded without notice.  The first
    demand to close fixes the close reason; a crawl that runs dry without
    one closes with reason ['finished']. *)
Module Engine.
Section Engine.
Context {S Q R G : Type}.
(** Calling the request's callback on a response. *)
Context (callback : Q -> R -> G).
(** [next()] on a generator. *)
Context (resume : G -> S -> S * outcome Q G).
(** Calling the request's errback, if it has one, on a failure. *)
Context (errback : Q -> string -> S -> S).

Record crawl := {
  spider : S;
  pending : list Q;
  running : list G;
  close_reason : option string;
  (** history: the requests yielded by callbacks so far, oldest first *)
  yielded : list Q
}.

Inductive event :=
| Response (i : nat) (r : R)
| Failure (i : nat) (failure : string)
| Discard (i : nat)
| Resume (j : nat).

Definition start (s : S) (start_requests : list Q) : crawl :=
  {| spider := s; pending := start_requests; running := [];
     close_reason := None; yielded := [] |}.

Definition exec (e : event) (c : crawl) : option crawl :=
  match e with
  | Response i r =>
      q ← pending c !! i;
      Some {| spider := spider c;
              pending := delete i (pending c);
              running := running c ++ [callback q r];
              close_reason := close_reason c;
              yielded := yielded c |}
  | Failure i failure =>
      q ← pending c !! i;
      Some {| spider := errback q failure (spider c);
              pending := delete i (pending c);
              running := running c;
              close_reason := close_reason c;
              yielded := yielded c |}
  | Discard i =>
      _ ← close_reason c;
      q ← pending c !! i;
      Some {| spider := spider c;
              pending := delete i (pending c);
              running := running c;
              close_reason := close_reason c;
              yielded := yielded c |}
  | Resume j =>
      g ← running c !! j;
      match resume g (spider c) with
      | (s', Yielded q g') =>
          Some {| spider := s';
                  pending := pending c ++ [q];
                  running := <[j := g']> (running c);
                  close_reason := close_reason c;
                  yielded := yielded c ++ [q] |}
      | (s', Exhausted) =>
          Some {| spider := s';
                  pending := pending c;
                  running := delete j (running c);
                  close_reason := close_reason c;
                  yielded := yielded c |}
      | (s', CloseSpider reason) =>
          Some {| spider := s';
                  pending := pending c;
                  running := delete j (running c);
                  close_reason := Some (default reason (close_reason c));
                  yielded := yielded c |}
      end
  end.

(** A schedule is a list of events; it is a run when every event applies. *)
Fixpoint run (es : list event) (c : crawl) : option crawl :=
  match es with
  | [] => Some c
  | e :: es' => c' ← exec e c; run es' c'
  end.

(** Nothing left to answer and nothing left to consume: the spider is
    closed now. *)
Definition idle (c : crawl) : bool :=
  bool_decide (pending c = []) && bool_decide (running c = []).

(** The [reason] the engine passes to the spider's close handlers. *)
Definition reason (c : crawl) : string :=
  default "finished" (close_reason c).
End Engine.
Arguments crawl : clear implicits.
Arguments event : clear implicits.
End Engine.

(** ** Census mode: [spiders/count_spider.py] *)
Module CountSpider.

(** [CountSpider.MAX_PAGES] *)
Definition MAX_PAGES : nat := 1000.

(** The fields of a [CountSpider] object that its methods read.
    [start_time] is never assigned (line 35 raises, see [init]) and
    [close_callback] is read only in the part of [spider_closed] that is
    never reached; the [logger.info] stream is left out; [error_log]
    collects the [logger.error] lines. *)
Record state := {
  start_urls : list string;
  allowed_domain : string;
  url_counter : dict string nat;
  found_urls : gset string;
  url_index : dict string nat;
  url_levels : dict string nat;
  level_counts : dict nat nat;
  current_index : nat;
  max_level_found : nat;
  finished : bool;
  stopped_reason : option string;
  error_log : list string
}.

(** What the downloader hands to [parse]: [response.url] and the result of
    [response.css('a::attr(href)').getall()], which raises on a response
    whose body is not text. *)
Record response := {
  resp_url : string;
  resp_hrefs : list string + string
}.

(** [scrapy.Request(url, callback=lambda r, level=next_level: ...,
    errback=self.errback)]; the request Scrapy makes from [start_urls] has
    the default level 0 and no errback. *)
Record request := {
  req_url : string;
  req_level : nat;
  req_errback : bool
}.

(** A suspended [parse] generator: not yet started, or stopped at the
    [yield] of line 107 with the rest of the [for] loop to run. *)
Inductive generator :=
| Fresh (r : response) (current_level : nat)
| AtYield (r : response) (next_level : nat) (rest : list string).

(** One element of ['ordered_urls']. *)
Record url_info := {
  info_index : nat;
  info_url : string;
  info_level : nat
}.

(** An exception that escapes a method. *)
Inductive exception :=
| NameError (name : string).

(** How a call of [spider_closed] ends. *)
Inductive closed :=
| AlreadyClosed
| Raised (e : exception).

Section Spider.
Context {U : UrlLib}.

(** [__init__]: lines 26-34 assign the fields up to [current_index]; line
    35 then evaluates [time.time()].  The module imports [scrapy],
    [urlparse] and [urljoin], [Counter] and [defaultdict], [signals] and
    [CloseSpider], and binds the name [time] nowhere, so line 35 raises
    [NameError] and no object is returned; lines 36-43 are never reached. *)
Definition init (url : string) : state + exception :=
  inr (NameError "time").

(** The bookkeeping block of lines 64-73, repeated at lines 90-99. *)
Definition record_url (url : string) (level : nat) (s : state) : state :=
  {| start_urls := start_urls s;
     allowed_domain := allowed_domain s;
     url_counter := dict_incr (url_path url) (url_counter s);
     found_urls := found_urls s ∪ {[ url ]};
     url_index := dict_set url (current_index s) (url_index s);
     url_levels := dict_set url level (url_levels s);
     level_counts := dict_incr level (level_counts s);
     current_index := current_index s + 1;
     max_level_found := max (max_level_found s) level;
     finished := finished s;
     stopped_reason := stopped_reason s;
     error_log := error_log s |}.

Definition set_stopped_reason (m : string) (s : state) : state :=
  {| start_urls := start_urls s;
     allowed_domain := allowed_domain s;
     url_counter := url_counter s;
     found_urls := found_urls s;
     url_index := url_index s;
     url_levels := url_levels s;
     level_counts := level_counts s;
     current_index := current_index s;
     max_level_found := max_level_found s;
     finished := finished s;
     stopped_reason := Some m;
     error_log := error_log s |}.

Definition log_error (m : string) (s : state) : state :=
  {| start_urls := start_urls s;
     allowed_domain := allowed_domain s;
     url_counter := url_counter s;
     found_urls := found_urls s;
     url_index := url_index s;
     url_levels := url_levels s;
     level_counts := level_counts s;
     current_index := current_index s;
     max_level_found := max_level_found s;
     finished := finished s;
     stopped_reason := stopped_reason s;
     error_log := error_log s ++ [m] |}.

Definition set_finished (s : state) : state :=
  {| start_urls := start_urls s;
     allowed_domain := allowed_domain s;
     url_counter := url_counter s;
     found_urls := found_urls s;
     url_index := url_index s;
     url_levels := url_levels s;
     level_counts := level_counts s;
     current_index := current_index s;
     max_level_found := max_level_found s;
     finished := true;
     stopped_reason := stopped_reason s;
     error_log := error_log s |}.

(** f'Reached maximum limit of {self.MAX_PAGES} pages' *)
Definition limit_message : string :=
  "Reached maximum limit of " +:+ str_nat MAX_PAGES +:+ " pages".

(** Truth value of [self.stopped_reason]: [None] and [''] are false. *)
Definition truthy (o : option string) : bool :=
  match o with
  | None => false
  | Some m => negb (String.eqb m "")
  end.

(** The [for href in ...] loop of lines 83-112, run from the current
    position up to the next [yield] or to the end of the list. *)
Fixpoint parse_loop (r : response) (next_level : nat) (hrefs : list string)
    (s : state) : state * outcome request generator :=
  match hrefs with
  | [] => (s, Exhausted)
  | href :: rest =>
      let url := urljoin (resp_url r) href in
      if bool_decide (netloc url = allowed_domain s)
         && bool_decide (url ∉ found_urls s)
         && bool_decide (size (found_urls s) < MAX_PAGES)
      then
        let s' := record_url url next_level s in
        if bool_decide (size (found_urls s') < MAX_PAGES)
        then (s', Yielded {| req_url := url; req_level := next_level;
                             req_errback := true |}
                          (AtYield r next_level rest))
        else parse_loop r next_level rest s'
      else parse_loop r next_level rest s
  end.

(** [parse(response, current_level)] from its first line to its first
    [yield]. *)
Definition parse (r : response) (current_level : nat) (s : state)
    : state * outcome request generator :=
  if bool_decide (MAX_PAGES <= size (found_urls s)) then
    if negb (truthy (stopped_reason s))
    then (set_stopped_reason limit_message s, CloseSpider limit_message)
    else (s, Exhausted)
  else
    let current_url := resp_url r in
    let s1 := if bool_decide (current_url ∉ found_urls s)
              then record_url current_url current_level s else s in
    if bool_decide (size (found_urls s1) < MAX_PAGES) then
      match resp_hrefs r with
      | inl hrefs => parse_loop r (current_level + 1) hrefs s1
      | inr e =>
          (log_error ("Error parsing " +:+ resp_url r +:+ ": " +:+ e) s1,
           Exhausted)
      end
    else (s1, Exhausted).

(** [next()] on a [parse] generator. *)
Definition resume (g : generator) (s : state) : state * outcome request generator :=
  match g with
  | Fresh r current_level => parse r current_level s
  | AtYield r next_level rest => parse_loop r next_level rest s
  end.

(** [errback] *)
Definition errback (failure : string) (s : state) : state :=
  log_error ("Request failed: " +:+ failure) s.

(** The list that lines 138-142 and 155-162 build from [url_index] and
    [url_levels]: the entries sorted by index.  The lines belong to the part
    of [spider_closed] that is never reached; the list is a function of the
    fields all the same. *)
Definition ordered (s : state) : list url_info :=
  (fun '(idx, url, level) =>
     {| info_index := idx; info_url := url; info_level := level |})
  <$> sorted_by (fun x => x.1.1)
        ((fun '(url, idx) => (idx, url, dict_get0 url (url_levels s)))
         <$> url_index s).

(** [spider_closed(spider, reason)], the handler of the engine's
    [spider_closed] signal.  With the flag unset it sets [finished] (line
    125) and then evaluates [time.time()] on line 126, which raises
    [NameError] as in [__init__]: lines 128-189, which would build and
    publish the statistics and call the callback, are never reached. *)
Definition spider_closed (reason : string) (s : state) : state * closed :=
  if negb (finished s) then (set_finished s, Raised (NameError "time"))
  else (s, AlreadyClosed).

(** *** A census crawl *)

(** The request's callback, [lambda r, level=next_level: self.parse(r,
    level)] or plain [self.parse]: calling it only creates the generator. *)
Definition callback (q : request) (r : response) : generator :=
  Fresh r (req_level q).

Definition call_errback (q : request) (failure : string) (s : state) : state :=
  if req_errback q then errback failure s else s.

(** The request Scrapy builds from [start_urls]. *)
Definition start_request (url : string) : request :=
  {| req_url := url; req_level := 0; req_errback := false |}.

(** The crawl of a spider object: Scrapy schedules its start request. *)
Definition crawl_of (s : state) : Engine.crawl state request generator :=
  Engine.start s (start_request <$> start_urls s).

(** Starting a census for [url]: Scrapy builds the spider from the class
    ([from_crawler] calls [__init__]) and, if that returns, schedules the
    start request. *)
Definition crawl (url : string)
    : Engine.crawl state request generator + exception :=
  match init url with
  | inl s => inl (crawl_of s)
  | inr e => inr e
  end.

Definition run := Engine.run callback resume call_errback.
End Spider.
End CountSpider.

(** ** Content mode: [spiders/fast_spider.py] *)
Module FastSpider.

(** What the selectors find on a text response, after [extract_text]:
    the title and meta description (['' ] when absent), the headings in
    document order with their tag names, the paragraph texts, and for each
    anchor its [href] attribute and its text. *)
Record page := {
  page_title : string;
  page_meta_description : string;
  page_headings : list (string * string);
  page_paragraphs : list string;
  page_anchors : list (option string * string)
}.

(** The dict built by [extract_content] (['text_content'] stays empty and
    is never read). *)
Record content := {
  url : string;
  crawl_time : string;
  title : string;
  meta_description : string;
  headings : dict string (list string);
  paragraphs : list string;
  links : list (string * string)   (* text, href *)
}.

(** A response: [response.url], and the page the selectors see or the
    exception they raise. *)
Record response := {
  resp_url : string;
  resp_page : page + string
}.

(** What the environment does while one callback runs: the clock, and
    whether opening the page file and appending to the index succeed or
    raise. *)
Record delivery := {
  resp : response;
  now : string;
  save_error : option string;
  index_error : option string
}.

(** The three lines [parse] appends to [index.txt] for a page. *)
Record index_entry := {
  entry_number : nat;
  entry_title : string;
  entry_url : string;
  entry_file : string
}.

(** What has been written to [index.txt]. *)
Inductive index_item :=
| Header (started start_url : string) (limit : Z)
| Entry (e : index_entry)
| Footer (finished_at : string) (total : nat) (reason : string).

(** The fields of a [FastSpider] object together with the files of its
    output directory: the page files by name, the index and the error log.
    [print] and [logging.info] output is left out. *)
Record state := {
  start_urls : list string;
  allowed_domain : string;
  page_limit : Z;
  pages_crawled : nat;
  visited_urls : gset string;
  task_id : string;
  output_dir : string;
  page_files : gmap string content;
  index_file : list index_item;
  error_file : list string
}.

(** [scrapy.Request(url, callback=self.parse, errback=self.errback)]; the
    request Scrapy makes from [start_urls] has no errback. *)
Record request := {
  req_url : string;
  req_errback : bool
}.

(** A suspended [parse] generator: not yet started, or stopped at the
    [yield] of line 177 with the rest of [content['links']] to visit. *)
Inductive generator :=
| Fresh (d : delivery)
| AtYield (rest : list (string * string)).

Section Spider.
Context {U : UrlLib}.

(** [__init__] with [setup_logging] *)
Definition init (url : string) (limit : Z) (task : string) (started : string)
    : state :=
  {| start_urls := [url];
     allowed_domain := netloc url;
     page_limit := limit;
     pages_crawled := 0;
     visited_urls := ∅;
     task_id := task;
     output_dir := "crawled_pages_" +:+ task;
     page_files := ∅;
     index_file := [Header started url limit];
     error_file := [] |}.

Definition log_error (m : string) (s : state) : state :=
  {| start_urls := start_urls s;
     allowed_domain := allowed_domain s;
     page_limit := page_limit s;
     pages_crawled := pages_crawled s;
     visited_urls := visited_urls s;
     task_id := task_id s;
     output_dir := output_dir s;
     page_files := page_files s;
     index_file := index_file s;
     error_file := error_file s ++ [m] |}.

Definition write_page (filename : string) (c : content) (s : state) : state :=
  {| start_urls := start_urls s;
     allowed_domain := allowed_domain s;
     page_limit := page_limit s;
     pages_crawled := pages_crawled s;
     visited_urls := visited_urls s;
     task_id := task_id s;
     output_dir := output_dir s;
     page_files := <[filename := c]> (page_files s);
     index_file := index_file s;
     error_file := error_file s |}.

Definition append_index (item : index_item) (s : state) : state :=
  {| start_urls := start_urls s;
     allowed_domain := allowed_domain s;
     page_limit := page_limit s;
     pages_crawled := pages_crawled s;
     visited_urls := visited_urls s;
     task_id := task_id s;
     output_dir := output_dir s;
     page_files := page_files s;
     index_file := index_file s ++ [item];
     error_file := error_file s |}.

(** Lines 166-167: [visited_urls.add(response.url); pages_crawled += 1]. *)
Definition mark_crawled (u : string) (s : state) : state :=
  {| start_urls := start_urls s;
     allowed_domain := allowed_domain s;
     page_limit := page_limit s;
     pages_crawled := pages_crawled s + 1;
     visited_urls := visited_urls s ∪ {[ u ]};
     task_id := task_id s;
     output_dir := output_dir s;
     page_files := page_files s;
     index_file := index_file s;
     error_file := error_file s |}.

(** Lines 79-84: headings grouped by tag, tags in order of first
    occurrence. *)
Definition group_headings (hs : list (string * string))
    : dict string (list string) :=
  foldl (fun d '(tag, text) =>
           dict_set tag (default [] (dict_get tag d) ++ [text]) d)
        [] hs.

Definition nonempty (t : string) : bool := negb (String.eqb t "").

(** Lines 90-97: anchors with both an [href] and a text, the [href]
    resolved against the page's URL. *)
Definition extract_links (base : string) (anchors : list (option string * string))
    : list (string * string) :=
  omap (fun '(href, text) =>
          match href with
          | Some h => if nonempty h && nonempty text
                      then Some (text, urljoin base h) else None
          | None => None
          end) anchors.

(** [extract_content(response)]: the content dict, or [None] after
    logging the exception. *)
Definition extract_content (d : delivery) (s : state) : state * option content :=
  match resp_page (resp d) with
  | inl p =>
      (s, Some {| url := resp_url (resp d);
                  crawl_time := now d;
                  title := page_title p;
                  meta_description := page_meta_description p;
                  headings := group_headings (page_headings p);
                  paragraphs := filter (fun t => nonempty t) (page_paragraphs p);
                  links := extract_links (resp_url (resp d)) (page_anchors p) |})
  | inr e =>
      (log_error ("Content extraction error on " +:+ resp_url (resp d)
                  +:+ ": " +:+ e) s, None)
  end.

(** [save_content(content, filename)]: the file is opened for writing, or
    the exception is logged. *)
Definition save_content (d : delivery) (c : content) (filename : string)
    (s : state) : state :=
  match save_error d with
  | None => write_page filename c s
  | Some e => log_error ("Error saving content to " +:+ filename +:+ ": " +:+ e) s
  end.

(** The [for link in content['links']] loop of lines 173-182, from the
    current position up to the next [yield] or to the end. *)
Fixpoint parse_loop (ls : list (string * string)) (s : state)
    : state * outcome request generator :=
  match ls with
  | [] => (s, Exhausted)
  | (_, href) :: rest =>
      if bool_decide (href ∉ visited_urls s)
         && str_in (allowed_domain s) (netloc href)
      then (s, Yielded {| req_url := href; req_errback := true |}
                       (AtYield rest))
      else parse_loop rest s
  end.

(** f"page_{n}.txt" *)
Definition page_name (n : nat) : string :=
  "page_" +:+ str_nat n +:+ ".txt".

(** [parse(response)] from its first line to its first [yield]. *)
Definition parse (d : delivery) (s : state) : state * outcome request generator :=
  if (page_limit s <=? Z.of_nat (pages_crawled s))%Z then
    (s, CloseSpider "Reached page limit")
  else if bool_decide (resp_url (resp d) ∈ visited_urls s) then
    (s, Exhausted)
  else
    match extract_content d s with
    | (s1, None) => (s1, Exhausted)
    | (s1, Some c) =>
        let filename := page_name (pages_crawled s1 + 1) in
        let s2 := save_content d c filename s1 in
        match index_error d with
        | Some e =>
            (log_error ("Error processing " +:+ resp_url (resp d)
                        +:+ ": " +:+ e) s2, Exhausted)
        | None =>
            let s3 := append_index
                        (Entry {| entry_number := pages_crawled s2 + 1;
                                  entry_title := title c;
                                  entry_url := resp_url (resp d);
                                  entry_file := filename |}) s2 in
            let s4 := mark_crawled (resp_url (resp d)) s3 in
            if (Z.of_nat (pages_crawled s4) <? page_limit s4)%Z
            then parse_loop (links c) s4
            else (s4, Exhausted)
        end
    end.

(** [next()] on a [parse] generator. *)
Definition resume (g : generator) (s : state) : state * outcome request generator :=
  match g with
  | Fresh d => parse d s
  | AtYield rest => parse_loop rest s
  end.

(** [errback] *)
Definition errback (failure : string) (s : state) : state :=
  log_error ("Request failed: " +:+ failure) s.

(** [closed(reason)]: the closing lines of the index (a failing write is
    only reported through [logging.error]). *)
Definition closed (finished_at : string) (append_error : option string)
    (reason : string) (s : state) : state :=
  match append_error with
  | None => append_index (Footer finished_at (pages_crawled s) reason) s
  | Some _ => s
  end.

(** *** The text of the files

    [page_files] and [index_file] hold what was written as values; these
    functions give the characters that [save_content], [setup_logging],
    [parse] and [closed] write for them. *)

Definition concat_map {A} (f : A -> string) (l : list A) : string :=
  foldr (fun x acc => f x +:+ acc) "" l.

Definition item_line (t : string) : string := "  - " +:+ t +:+ nl.

Definition render_section (name body : string) : string :=
  name +:+ ":" +:+ nl +:+ body +:+ nl +:+ str_repeat "-" 80 +:+ nl +:+ nl.

Definition render_content (c : content) : string :=
  "URL: " +:+ url c +:+ nl +:+
  "Crawled at: " +:+ crawl_time c +:+ nl +:+
  str_repeat "=" 80 +:+ nl +:+ nl +:+
  render_section "TITLE" (title c +:+ nl) +:+
  render_section "META DESCRIPTION" (meta_description c +:+ nl) +:+
  render_section "HEADINGS"
    (concat_map (fun '(key, value) =>
                   nl +:+ key +:+ ":" +:+ nl +:+ concat_map item_line value)
                (headings c)) +:+
  render_section "CONTENT" (concat_map item_line (paragraphs c)) +:+
  render_section "LINKS"
    (concat_map (fun '(text, href) =>
                   "  - " +:+ text +:+ ": " +:+ href +:+ nl) (links c)).

Definition render_index_item (i : index_item) : string :=
  match i with
  | Header started start_url limit =>
      "Crawl started at: " +:+ started +:+ nl +:+
      "Start URL: " +:+ start_url +:+ nl +:+
      "Page limit: " +:+ str_Z limit +:+ nl +:+ nl +:+
      "Index of crawled pages:" +:+ nl +:+
      str_repeat "=" 80 +:+ nl +:+ nl
  | Entry e =>
      str_nat (entry_number e) +:+ ". " +:+ entry_title e +:+ nl +:+
      "   URL: " +:+ entry_url e +:+ nl +:+
      "   File: " +:+ entry_file e +:+ nl +:+ nl
  | Footer finished_at total reason =>
      nl +:+ "Crawl finished at: " +:+ finished_at +:+ nl +:+
      "Total pages crawled: " +:+ str_nat total +:+ nl +:+
      "Reason: " +:+ reason +:+ nl
  end.

Definition render_index (s : state) : string :=
  concat_map render_index_item (index_file s).

(** *** A content crawl *)

(** The request's callback, [self.parse]: calling it only creates the
    generator. *)
Definition callback (q : request) (d : delivery) : generator := Fresh d.

Definition call_errback (q : request) (failure : string) (s : state) : state :=
  if req_errback q then errback failure s else s.

(** The request Scrapy builds from [start_urls]. *)
Definition start_request (url : string) : request :=
  {| req_url := url; req_errback := false |}.

Definition crawl (url : string) (limit : Z) (task started : string)
    : Engine.crawl state request generator :=
  Engine.start (init url limit task started) [start_request url].

Definition run := Engine.run callback resume call_errback.

(** The engine closing the spider: [closed] is called with the engine's
    reason. *)
Definition close (finished_at : string) (append_error : option string)
    (c : Engine.crawl state request generator) : state :=
  closed finished_at append_error (Engine.reason c) (Engine.spider c).

(** The entries of the index, without its header and footer. *)
Definition index_entries (s : state) : list index_entry :=
  omap (fun i => match i with Entry e => Some e | _ => None end)
       (index_file s).

(** No file operation raises while this callback runs. *)
Definition disk_ok (d : delivery) : Prop :=
  save_error d = None /\ index_error d = None.

Definition event_disk_ok (e : Engine.event delivery) : Prop :=
  match e with
  | Engine.Response _ d => disk_ok d
  | _ => True
  end.
End Spider.
End FastSpider.

(** ** A reading of [urllib.parse] for the worked crawls

    The theorems below hold for every [UrlLib].  The worked crawls need one
    to compute with; this one follows [urlsplit] on URLs of the shape
    [scheme://host/path?query#fragment] and resolves a reference that
    carries its own scheme to itself, which is what [urljoin] does.  Other
    references are not used in the worked crawls and are resolved against
    the root of the base. *)
Module SimpleUrl.
Definition is_delim (c : ascii) : bool :=
  (Ascii.eqb c "/" || Ascii.eqb c "?" || Ascii.eqb c "#")%char.

Definition ends_path (c : ascii) : bool :=
  (Ascii.eqb c "?" || Ascii.eqb c "#")%char.

Fixpoint take_until (stop : ascii -> bool) (s : string) : string :=
  match s with
  | EmptyString => ""
  | String c s' => if stop c then "" else String c (take_until stop s')
  end.

Fixpoint drop_until (stop : ascii -> bool) (s : string) : string :=
  match s with
  | EmptyString => ""
  | String c s' => if stop c then s else drop_until stop s'
  end.

(** The text after [scheme:], or the whole text without a colon. *)
Definition after_scheme (u : string) : string :=
  match drop_until (fun c => Ascii.eqb c ":"%char) u with
  | String _ rest => rest
  | EmptyString => u
  end.

Definition after_slashes (u : string) : option string :=
  match after_scheme u with
  | String "/" (String "/" rest) => Some rest
  | _ => None
  end.

Definition netloc (u : string) : string :=
  match after_slashes u with
  | Some rest => take_until is_delim rest
  | None => ""
  end.

Definition url_path (u : string) : string :=
  match after_slashes u with
  | Some rest => take_until ends_path (drop_until is_delim rest)
  | None => take_until ends_path (after_scheme u)
  end.

Definition origin (u : string) : string :=
  take_until (fun c => Ascii.eqb c ":"%char) u +:+ "://" +:+ netloc u.

Definition urljoin (base href : string) : string :=
  if str_in "://" href then href
  else if String.prefix "/" href then origin base +:+ href
  else origin base +:+ "/" +:+ href.

Definition lib : UrlLib :=
  Build_UrlLib netloc url_path urljoin.
End SimpleUrl.

(** ** Worked crawls *)
Module Worked.
Import CountSpider.

Definition home : string := "https://example.com".

(** A site of one page without links. *)
Definition lonely_page : response :=
  {| resp_url := home; resp_hrefs := inl [] |}.

Definition lonely_schedule : list (Engine.event response) :=
  [Engine.Response 0 lonely_page; Engine.Resume 0].

(** A page with two links of its own site, one of them twice, and one
    link that leaves the site. *)
Definition front_page : response :=
  {| resp_url := home;
     resp_hrefs := inl ["/a"; "https://example.com/b"; "https://other.org/";
                        "/a"] |}.

Definition page_b : response :=
  {| resp_url := "https://example.com/b";
     resp_hrefs := inl ["https://example.com"; "/c"] |}.

(** The front page is answered; its generator yields /a and /b; /a fails;
    /b is answered and its generator, run before the front page's is
    finished, yields /c, which fails too. *)
Definition small_schedule : list (Engine.event response) :=
  [Engine.Response 0 front_page; Engine.Resume 0; Engine.Resume 0;
   Engine.Failure 0 "timeout"; Engine.Response 0 page_b; Engine.Resume 1;
   Engine.Resume 0; Engine.Resume 0; Engine.Failure 0 "HTTP 404"].

(** A spider object for [home] that has found nothing yet, and its
    crawl. *)
Definition blank : state :=
  {| start_urls := [home];
     allowed_domain := "example.com";
     url_counter := [];
     found_urls := ∅;
     url_index := [];
     url_levels := [];
     level_counts := [];
     current_index := 1;
     max_level_found := 0;
     finished := false;
     stopped_reason := None;
     error_log := [] |}.

Definition blank_crawl : Engine.crawl state request generator :=
  {| Engine.spider := blank;
     Engine.pending := [{| req_url := home; req_level := 0;
                           req_errback := false |}];
     Engine.running := [];
     Engine.close_reason := None;
     Engine.yielded := [] |}.

(** A spider object in the middle of a crawl of that site: the front page
    and its first link are recorded, the request for the link is pending
    and the generator of the front page waits at its [yield]. *)
Definition request_a : request :=
  {| req_url := "https://example.com/a"; req_level := 1;
     req_errback := true |}.

Definition midway : state :=
  {| start_urls := [home];
     allowed_domain := "example.com";
     url_counter := [("", 1); ("/a", 1)];
     found_urls := {[ home; "https://example.com/a" ]};
     url_index := [(home, 1); ("https://example.com/a", 2)];
     url_levels := [(home, 0); ("https://example.com/a", 1)];
     level_counts := [(0, 1); (1, 1)];
     current_index := 3;
     max_level_found := 1;
     finished := false;
     stopped_reason := None;
     error_log := [] |}.

Definition midway_crawl : Engine.crawl state request generator :=
  {| Engine.spider := midway;
     Engine.pending := [request_a];
     Engine.running := [AtYield front_page 1
                          ["https://example.com/b"; "https://other.org/"; "/a"]];
     Engine.close_reason := None;
     Engine.yielded := [request_a] |}.

(** The rest of the small crawl from there. *)
Definition midway_schedule : list (Engine.event response) :=
  [Engine.Resume 0; Engine.Failure 0 "timeout"; Engine.Response 0 page_b;
   Engine.Resume 1; Engine.Resume 0; Engine.Resume 0;
   Engine.Failure 0 "HTTP 404"].

(** A spider object that has reached the cap: its 1000 found URLs are
    http://t.co/0 .. http://t.co/999, the first at level 0 and the others
    at level 1, indexed in this order.  A response to a request it made
    before has just been handed to [parse]. *)
Definition hub_link (i : nat) : string := "http://t.co/" +:+ str_nat i.

Definition hub_page : response :=
  {| resp_url := hub_link 999; resp_hrefs := inl [hub_link 1000] |}.

Definition full : state :=
  {| start_urls := ["http://t.co/0"];
     allowed_domain := "t.co";
     url_counter := (fun i => ("/" +:+ str_nat i, 1)) <$> seq 0 1000;
     found_urls := list_to_set (hub_link <$> seq 0 1000);
     url_index := (fun i => (hub_link i, S i)) <$> seq 0 1000;
     url_levels := (fun i => (hub_link i, Nat.min i 1)) <$> seq 0 1000;
     level_counts := [(0, 1); (1, 999)];
     current_index := 1001;
     max_level_found := 1;
     finished := false;
     stopped_reason := None;
     error_log := [] |}.

Definition full_crawl : Engine.crawl state request generator :=
  {| Engine.spider := full;
     Engine.pending := [{| req_url := hub_link 998; req_level := 1;
                           req_errback := true |}];
     Engine.running := [Fresh hub_page 1];
     Engine.close_reason := None;
     Engine.yielded := [] |}.
End Worked.

Module WorkedContent.
Import FastSpider.

Definition home : string := "https://example.com".

Definition plain_page : page :=
  {| page_title := "Example Domain";
     page_meta_description := "";
     page_headings := [("h1", "Example Domain")];
     page_paragraphs := ["This domain is for use in examples."; ""];
     page_anchors := [(Some "https://example.com/more", "More information");
                      (Some "https://example.com/more", "");
                      (None, "nowhere")] |}.

Definition deliver (u : string) (p : page + string) : delivery :=
  {| resp := {| resp_url := u; resp_page := p |};
     now := "2024-01-01 00:00:00";
     save_error := None;
     index_error := None |}.

(** The start page is answered and its generator run to the end. *)
Definition first_page_schedule : list (Engine.event delivery) :=
  [Engine.Response 0 (deliver home (inl plain_page)); Engine.Resume 0;
   Engine.Resume 0].

(** With a limit of one page the generator yields nothing. *)
Definition only_page_schedule : list (Engine.event delivery) :=
  [Engine.Response 0 (deliver home (inl plain_page)); Engine.Resume 0].

(** The start page, then the page it links to, which links back. *)
Definition more_page : page :=
  {| page_title := "More";
     page_meta_description := "more";
     page_headings := [];
     page_paragraphs := [];
     page_anchors := [(Some "https://example.com", "Home")] |}.

Definition two_pages_schedule : list (Engine.event delivery) :=
  [Engine.Response 0 (deliver home (inl plain_page)); Engine.Resume 0;
   Engine.Resume 0;
   Engine.Response 0 (deliver "https://example.com/more" (inl more_page));
   Engine.Resume 0].

(** A response the selectors cannot read. *)
Definition unreadable_schedule : list (Engine.event delivery) :=
  [Engine.Response 0 (deliver home (inr "Response content isn't text"));
   Engine.Resume 0].

(** A page with a link to a host that merely contains the allowed one. *)
Definition lookalike_page : page :=
  {| page_title := "Partners";
     page_meta_description := "";
     page_headings := [];
     page_paragraphs := [];
     page_anchors := [(Some "https://notexample.com/", "A partner")] |}.

Definition lookalike_schedule : list (Engine.event delivery) :=
  [Engine.Response 0 (deliver home (inl lookalike_page)); Engine.Resume 0].
End WorkedContent.

(** ** Invariants

    The properties of the spiders and of their crawls that the proofs carry
    from one event to the next. *)
Section CensusInvariants.
Context {U : UrlLib}.
Import CountSpider.

Implicit Types (c : Engine.crawl state request generator).

(** The index of a [CountSpider] is consistent: at most [MAX_PAGES] URLs
    are found, they are the keys of [url_index], and their indices are
    1, 2, ... in the order of recording, [current_index] being the next
    one. *)
Record spider_inv (s : state) : Prop := {
  inv_bound : size (found_urls s) <= MAX_PAGES;
  inv_index : dict_values (url_index s) = seq 1 (length (url_index s));
  inv_next : current_index s = S (length (url_index s));
  inv_nodup : NoDup (dict_keys (url_index s));
  inv_found : found_urls s = list_to_set (dict_keys (url_index s))
}.

(** The stop reason is unset, or it is the limit message and the cap is
    reached. *)
Definition stop_inv (s : state) : Prop :=
  stopped_reason s = None \/
  (stopped_reason s = Some limit_message /\ MAX_PAGES <= size (found_urls s)).

(** How one resumption relates the spider before and after it, in any
    state. *)
Record resumed (s s' : state) (o : outcome request generator) : Prop := {
  res_found : found_urls s ⊆ found_urls s';
  res_domain : allowed_domain s' = allowed_domain s;
  res_bound : size (found_urls s) <= MAX_PAGES ->
              size (found_urls s') <= MAX_PAGES;
  res_outcome :
    match o with
    | Yielded q g =>
        stopped_reason s' = stopped_reason s /\
        netloc (req_url q) = allowed_domain s /\
        req_errback q = true /\
        exists s0, found_urls s ⊆ found_urls s0 /\
                   (req_url q ∉ found_urls s0) /\
                   s' = record_url (req_url q) (req_level q) s0
    | Exhausted => stopped_reason s' = stopped_reason s
    | CloseSpider reason =>
        reason = limit_message /\ truthy (stopped_reason s) = false /\
        stopped_reason s' = Some limit_message /\
        found_urls s' = found_urls s /\
        MAX_PAGES <= size (found_urls s)
    end
}.

(** The requests yielded so far are for pairwise distinct URLs, all of
    them found. *)
Definition requests_inv c : Prop :=
  NoDup (req_url <$> Engine.yielded c) /\
  forall q, q ∈ Engine.yielded c -> req_url q ∈ found_urls (Engine.spider c).

(** The engine's close reason is the spider's stop reason. *)
Definition reason_inv c : Prop :=
  Engine.close_reason c = stopped_reason (Engine.spider c) /\
  stop_inv (Engine.spider c).
End CensusInvariants.

Section ContentInvariants.
Context {U : UrlLib}.
Import FastSpider.

Implicit Types (c : Engine.crawl state request generator).

(** What holds of a [FastSpider] between any two resumptions: the page
    counter is within the limit (or still 0 under a negative one), the
    index lists pages 1..N under the file names page_1.txt..page_N.txt
    for N the page counter, and the indexed URLs are pairwise distinct
    and are the visited ones. *)
Record content_spider_inv (s : state) : Prop := {
  ok_bound : (Z.of_nat (pages_crawled s) <= Z.max 0 (page_limit s))%Z;
  ok_entries : (fun e => (entry_number e, entry_file e)) <$> index_entries s
               = (fun i => (i, page_name i)) <$> seq 1 (pages_crawled s);
  ok_nodup : NoDup (entry_url <$> index_entries s);
  ok_visited : visited_urls s = list_to_set (entry_url <$> index_entries s)
}.

(** The page files are exactly page_1.txt..page_N.txt, and each indexed
    page has its file, written for its URL. *)
Definition files_ok (s : state) : Prop :=
  dom (page_files s) = list_to_set (page_name <$> seq 1 (pages_crawled s)) /\
  forall e, e ∈ index_entries s ->
    exists p, page_files s !! entry_file e = Some p /\ url p = entry_url e.

(** No file operation raises while this generator runs. *)
Definition generator_disk_ok (g : generator) : Prop :=
  match g with
  | Fresh d => disk_ok d
  | AtYield _ => True
  end.

(** How one resumption relates the spider before and after it. *)
Record content_resumed (s s' : state) (o : outcome request generator)
    : Prop := {
  cr_inv : content_spider_inv s';
  cr_limit : page_limit s' = page_limit s;
  cr_domain : allowed_domain s' = allowed_domain s;
  cr_pages : pages_crawled s <= pages_crawled s';
  cr_outcome :
    match o with
    | Yielded q g =>
        str_in (allowed_domain s) (netloc (req_url q)) = true /\
        req_errback q = true
    | Exhausted => True
    | CloseSpider reason =>
        reason = "Reached page limit" /\ s' = s /\
        (page_limit s <= Z.of_nat (pages_crawled s))%Z
    end
}.

(** What holds of a content crawl after every event. *)
Record content_crawl_inv (url : string) (limit : Z) c : Prop := {
  cc_spider : content_spider_inv (Engine.spider c);
  cc_limit : page_limit (Engine.spider c) = limit;
  cc_domain : allowed_domain (Engine.spider c) = netloc url;
  cc_reason : Engine.close_reason c = None \/
              (Engine.close_reason c = Some "Reached page limit" /\
               (limit <= Z.of_nat (pages_crawled (Engine.spider c)))%Z);
  cc_yielded : forall q, q ∈ Engine.yielded c ->
                 str_in (netloc url) (netloc (req_url q)) = true
}.

(** What holds in addition as long as no file operation has raised. *)
Definition content_files_inv c : Prop :=
  files_ok (Engine.spider c) /\ Forall generator_disk_ok (Engine.running c).
End ContentInvariants.

(** ** Further invariants of the census *)
Section CensusBookkeeping.
Context {U : UrlLib}.
Import CountSpider.

Implicit Types (c : Engine.crawl state request generator).

(** The number of recorded URLs whose level is [L]. *)
Definition urls_at_level (s : state) (L : nat) : nat :=
  length (filter (fun u => dict_get0 u (url_levels s) = L)
                 (dict_keys (url_index s))).

(** The number of recorded URLs whose path is [p]. *)
Definition urls_at_path (s : state) (p : string) : nat :=
  length (filter (fun u => url_path u = p) (dict_keys (url_index s))).

(** The path counter is consistent with the index: each path is counted
    once, with the number of recorded URLs of that path, and the counts add
    up to the number of found URLs. *)
Record path_inv (s : state) : Prop := {
  bk_paths : sum_list (dict_values (url_counter s)) = size (found_urls s);
  bk_path_keys : NoDup (dict_keys (url_counter s));
  bk_path_counts : forall p, dict_get0 p (url_counter s) = urls_at_path s p
}.

(** The level counter is consistent with [max_level_found]: the levels
    counted are 0, 1, ..., [max_level_found] in this order, each with a
    positive count, and no recorded URL has a higher level. *)
Record book_inv (s : state) : Prop := {
  bk_keys : dict_keys (level_counts s) = seq 0 (S (max_level_found s));
  bk_positive : Forall (fun n => 0 < n) (dict_values (level_counts s));
  bk_levels : forall u, u ∈ dict_keys (url_index s) ->
                        dict_get0 u (url_levels s) <= max_level_found s
}.

(** The count of each level is the number of recorded URLs of that level
    plus [base]. *)
Definition counted (base : nat -> nat) (s : state) : Prop :=
  forall L, dict_get0 L (level_counts s) = urls_at_level s L + base L.

(** The level a generator works at has been counted, or is the next one
    when the generator has not recorded a link yet. *)
Definition generator_level (g : generator) : nat :=
  match g with
  | Fresh _ current_level => current_level
  | AtYield _ next_level _ => next_level
  end.

(** What one resumption does to the level counter. *)
Definition book_resumed (s s' : state) (o : outcome request generator) : Prop :=
  book_inv s' /\ max_level_found s <= max_level_found s' /\
  match o with
  | Yielded q g =>
      req_level q <= max_level_found s' /\
      generator_level g <= max_level_found s'
  | _ => True
  end.

(** The levels in a census crawl: those of the spider's counter, and no
    pending request or running generator is for a level beyond the ones
    counted. *)
Record levels_inv c : Prop := {
  lv_book : book_inv (Engine.spider c);
  lv_pending : Forall (fun q => req_level q <= max_level_found (Engine.spider c))
                      (Engine.pending c);
  lv_running : Forall (fun g => generator_level g
                                <= max_level_found (Engine.spider c))
                      (Engine.running c)
}.

(** The census as far as it can no longer change for the URLs found: the
    found URLs stay found, the new ones are indexed after them, and the
    level of a found URL stays what it is. *)
Definition census_kept (s s' : state) : Prop :=
  (found_urls s ⊆ found_urls s') /\
  (url_index s `prefix_of` url_index s') /\
  forall u, u ∈ found_urls s ->
    dict_get0 u (url_levels s') = dict_get0 u (url_levels s).

(** Nothing of the census differs: only the error log and [stopped_reason]
    may. *)
Definition census_frozen (s s' : state) : Prop :=
  found_urls s' = found_urls s /\ url_index s' = url_index s /\
  url_levels s' = url_levels s /\ level_counts s' = level_counts s /\
  url_counter s' = url_counter s /\ max_level_found s' = max_level_found s /\
  current_index s' = current_index s.
End CensusBookkeeping.

(** ** Further invariants of a content crawl *)
Section ContentBookkeeping.
Context {U : UrlLib}.
Import FastSpider.

Implicit Types (c : Engine.crawl state request generator).

(** What the spider never takes back: the index and the error log grow at
    their end, the counter and the visited set only grow, no page file
    disappears, and the settings stay. *)
Definition content_grown (s s' : state) : Prop :=
  (index_file s `prefix_of` index_file s') /\
  (error_file s `prefix_of` error_file s') /\
  pages_crawled s <= pages_crawled s' /\
  (visited_urls s ⊆ visited_urls s') /\
  (dom (page_files s) ⊆ dom (page_files s')) /\
  page_limit s' = page_limit s /\
  allowed_domain s' = allowed_domain s /\
  output_dir s' = output_dir s.

(** Nothing of the output differs but the error log. *)
Definition content_frozen (s s' : state) : Prop :=
  page_files s' = page_files s /\ index_file s' = index_file s /\
  pages_crawled s' = pages_crawled s /\ visited_urls s' = visited_urls s /\
  page_limit s' = page_limit s.

(** A generator that has not run yet. *)
Definition is_fresh (g : generator) : Prop :=
  match g with
  | Fresh _ => True
  | AtYield _ => False
  end.

(** The page files have names among page_1.txt .. page_(N+1).txt, for N
    the page counter. *)
Definition files_named (s : state) : Prop :=
  dom (page_files s) ⊆ list_to_set (page_name <$> seq 1 (S (pages_crawled s))).

(** The index is its header followed by the entries. *)
Definition index_layout (started url : string) (limit : Z) (s : state) : Prop :=
  index_file s = Header started url limit :: (Entry <$> index_entries s).

(** The responses a schedule delivers. *)
Definition deliveries (es : list (Engine.event delivery)) : list delivery :=
  omap (fun e => match e with
                 | Engine.Response _ d => Some d
                 | _ => None
                 end) es.

(** [href] is the resolved target of an anchor that has a text and a
    target, on a page among [ds] whose content can be extracted. *)
Definition anchored (ds : list delivery) (text href : string) : Prop :=
  exists d p h,
    d ∈ ds /\ resp_page (resp d) = inl p /\
    (Some h, text) ∈ page_anchors p /\ h <> "" /\ text <> "" /\
    href = urljoin (resp_url (resp d)) h.

(** The links a generator has read or will read come from such anchors. *)
Definition generator_anchored (ds : list delivery) (g : generator) : Prop :=
  match g with
  | Fresh d => d ∈ ds
  | AtYield rest => Forall (fun l => anchored ds l.1 l.2) rest
  end.
(** Whether this event enters [parse] on a new response while the page
    counter has reached the limit. *)
Definition enters_at_limit (e : Engine.event delivery) c : bool :=
  match e with
  | Engine.Resume j =>
      match Engine.running c !! j with
      | Some (Fresh _) =>
          (page_limit (Engine.spider c)
           <=? Z.of_nat (pages_crawled (Engine.spider c)))%Z
      | _ => false
      end
  | _ => false
  end.

(** Whether some event of the schedule does. *)
Fixpoint hits_limit (es : list (Engine.event delivery)) c : bool :=
  match es with
  | [] => false
  | e :: es' =>
      enters_at_limit e c
      || match Engine.exec callback resume call_errback e c with
         | Some c' => hits_limit es' c'
         | None => false
         end
  end.
End ContentBookkeeping.

(** ** More worked content crawls *)
Module WorkedLimit.
Import FastSpider WorkedContent.

(** A start page with two links, and the two pages they lead to. *)
Definition fork_page : page :=
  {| page_title := "Fork";
     page_meta_description := "";
     page_headings := [];
     page_paragraphs := [];
     page_anchors := [(Some "/a", "A"); (Some "/b", "B")] |}.

Definition leaf_page (t : string) : page :=
  {| page_title := t;
     page_meta_description := "";
     page_headings := [];
     page_paragraphs := [];
     page_anchors := [] |}.

(** The start page is answered and its generator run to the end; both
    linked pages are answered, and the generator of the first is run. *)
Definition fork_schedule : list (Engine.event delivery) :=
  [Engine.Response 0 (deliver home (inl fork_page)); Engine.Resume 0;
   Engine.Resume 0; Engine.Resume 0;
   Engine.Response 0 (deliver "https://example.com/a" (inl (leaf_page "A")));
   Engine.Response 0 (deliver "https://example.com/b" (inl (leaf_page "B")));
   Engine.Resume 0].

(** The start page delivered while the disk refuses the page file, or the
    index. *)
Definition unsaved : delivery :=
  {| resp := {| resp_url := home; resp_page := inl plain_page |};
     now := "2024-01-01 00:00:00";
     save_error := Some "No space left on device";
     index_error := None |}.

Definition unindexed : delivery :=
  {| resp := {| resp_url := home; resp_page := inl plain_page |};
     now := "2024-01-01 00:00:00";
     save_error := None;
     index_error := Some "No space left on device" |}.
End WorkedLimit.

(** ** The content API: [api.py] *)
Module Api.

Definition BUCKET_NAME : string := "ai-demo-421403-knowledge-base-agents".
Definition BUCKET_FOLDER : string := "test".

(** [str(b)] for a [bool]. *)
Definition str_bool (b : bool) : string := if b then "True" else "False".

(** [path.endswith('/')] *)
Fixpoint ends_with_sep (path : string) : bool :=
  match path with
  | EmptyString => false
  | String c EmptyString => Ascii.eqb c "/"%char
  | String _ rest => ends_with_sep rest
  end.

(** [os.path.join(a, b)] of [posixpath]. *)
Definition path_join (a b : string) : string :=
  if String.prefix "/" b then b
  else if String.eqb a "" || ends_with_sep a then a +:+ b
  else a +:+ "/" +:+ b.

(** The body of a [CrawlRequest]. *)
Record crawl_request := {
  cr_url : string;
  cr_page_limit : Z;
  cr_obey_robots : bool;
  cr_directory : string
}.

(** A [CrawlResponse]. *)
Record crawl_response := {
  resp_task_id : string;
  resp_status : string;
  resp_output_directory : option string;
  resp_gcs_path : option string;
  resp_message : string
}.

(** One value of [crawl_tasks] (['configuration'] repeats four of the
    other keys and is left out); the last three keys are absent until
    [handle_crawl] sets them. *)
Record task := {
  status : string;
  start_time : string;
  task_url : string;
  task_page_limit : Z;
  task_obey_robots : bool;
  directory : string;
  end_time : option string;
  gcs_path : option string;
  error : option string
}.

(** An [HTTPException]. *)
Record http_error := {
  status_code : nat;
  detail : string
}.

(** The loop of lines 95-108 over the files that [os.walk] finds, given by
    their paths relative to [local_directory]; [upload_error] tells for
    which of them [upload_from_filename] raises.  The result is
    [uploaded_files]. *)
Fixpoint upload_files (base_path : string) (files : list string)
    (upload_error : string -> option string) : list string :=
  match files with
  | [] => []
  | f :: rest =>
      match upload_error f with
      | None => (base_path +:+ "/" +:+ f) :: upload_files base_path rest upload_error
      | Some _ => upload_files base_path rest upload_error
      end
  end.

(** [upload_to_gcs(local_directory, task_id)]: the path it returns, or the
    message of the exception it raises. *)
Definition upload_to_gcs (files : list string)
    (upload_error : string -> option string) (task_id : string)
    : string + string :=
  let base_path := BUCKET_FOLDER +:+ "/" +:+ task_id in
  match upload_files base_path files upload_error with
  | [] => inr ("Error uploading to GCS: " +:+ "No files were uploaded successfully")
  | _ :: _ => inl ("gs://" +:+ BUCKET_NAME +:+ "/" +:+ base_path)
  end.

(** What the environment does while [handle_crawl] runs: whether
    [run_spider] raises, whether creating the output directory or moving
    the crawled files into it raises, the files the output directory then
    holds, the uploads that fail, and the clock at the end. *)
Record crawl_env := {
  spider_error : option string;
  move_error : option string;
  moved_files : list string;
  upload_error : string -> option string;
  finished_at : string
}.

(** Lines 156-173: the exception that ends the [try] block, or the path
    that [upload_to_gcs] returns. *)
Definition crawl_and_upload (task_id : string) (env : crawl_env) : string + string :=
  match spider_error env with
  | Some e => inr e
  | None =>
      match move_error env with
      | Some e => inr e
      | None => upload_to_gcs (moved_files env) (upload_error env) task_id
      end
  end.

Definition set_status (st : string) (t : task) : task :=
  {| status := st; start_time := start_time t; task_url := task_url t;
     task_page_limit := task_page_limit t;
     task_obey_robots := task_obey_robots t; directory := directory t;
     end_time := end_time t; gcs_path := gcs_path t; error := error t |}.

(** Lines 175-177. *)
Definition set_completed (now path : string) (t : task) : task :=
  {| status := "completed"; start_time := start_time t; task_url := task_url t;
     task_page_limit := task_page_limit t;
     task_obey_robots := task_obey_robots t; directory := directory t;
     end_time := Some now; gcs_path := Some path; error := error t |}.

(** Lines 183-184. *)
Definition set_failed (error_msg : string) (t : task) : task :=
  {| status := "failed"; start_time := start_time t; task_url := task_url t;
     task_page_limit := task_page_limit t;
     task_obey_robots := task_obey_robots t; directory := directory t;
     end_time := end_time t; gcs_path := gcs_path t; error := Some error_msg |}.

(** [handle_crawl]: what it does to [crawl_tasks].  For a task that is not
    registered line 155 raises [KeyError], and so does the handler of line
    183: the registry stays as it is. *)
Definition handle_crawl (task_id : string) (env : crawl_env)
    (crawl_tasks : gmap string task) : gmap string task :=
  match crawl_tasks !! task_id with
  | None => crawl_tasks
  | Some t =>
      let t1 := set_status "running" t in
      match crawl_and_upload task_id env with
      | inl path => <[task_id := set_completed (finished_at env) path t1]> crawl_tasks
      | inr e =>
          <[task_id := set_failed ("Task " +:+ task_id +:+ " failed: " +:+ e) t1]>
            crawl_tasks
      end
  end.

(** [start_crawl]: [stamp] is [datetime.now().strftime('%Y%m%d_%H%M%S')]
    and [now] is [datetime.now().isoformat()].  The task it schedules is
    [handle_crawl] with the id it returns. *)
Definition start_crawl (stamp now : string) (r : crawl_request)
    (crawl_tasks : gmap string task) : gmap string task * crawl_response :=
  let task_id := "task_" +:+ stamp in
  (<[task_id := {| status := "starting"; start_time := now;
                   task_url := cr_url r; task_page_limit := cr_page_limit r;
                   task_obey_robots := cr_obey_robots r;
                   directory := cr_directory r;
                   end_time := None; gcs_path := None; error := None |}]>
     crawl_tasks,
   {| resp_task_id := task_id;
      resp_status := "started";
      resp_output_directory := Some (path_join (cr_directory r) task_id);
      resp_gcs_path := None;
      resp_message :=
        "Crawl task has been started with configuration: " +:+
        "page_limit=" +:+ str_Z (cr_page_limit r) +:+ ", " +:+
        "obey_robots=" +:+ str_bool (cr_obey_robots r) +:+ ", " +:+
        "directory=" +:+ cr_directory r |}).

(** [get_task_status]; [exists_] is [os.path.exists]. *)
Definition get_task_status (exists_ : string -> bool) (task_id : string)
    (crawl_tasks : gmap string task) : crawl_response + http_error :=
  match crawl_tasks !! task_id with
  | None => inr {| status_code := 404; detail := "Task not found" |}
  | Some t =>
      let output_dir := path_join (directory t) task_id in
      inl {| resp_task_id := task_id;
             resp_status := status t;
             resp_output_directory :=
               if exists_ output_dir then Some output_dir else None;
             resp_gcs_path := gcs_path t;
             resp_message :=
               "Task is " +:+ status t +:+
               match error t with
               | Some e => if String.eqb e "" then "" else ": " +:+ e
               | None => ""
               end |}
  end.
End Api.

(** ** A worked task *)
Module WorkedApi.
Import Api.

Definition request : crawl_request :=
  {| cr_url := "https://example.com/"; cr_page_limit := 2;
     cr_obey_robots := true; cr_directory := "crawled_data" |}.

(** The registry after the request is accepted. *)
Definition registered : gmap string task :=
  (start_crawl "20240101_090000" "2024-01-01T09:00:00" request ∅).1.

(** The crawl and the move succeed; of the three files the index cannot
    be uploaded. *)
Definition uploads : crawl_env :=
  {| spider_error := None;
     move_error := None;
     moved_files := ["index.txt"; "errors.log"; "page_1.txt"];
     upload_error := fun f => if String.eqb f "index.txt"
                              then Some "503 Service Unavailable" else None;
     finished_at := "2024-01-01T09:00:05" |}.
End WorkedApi.

(** * Facts *)

(** ** Python values *)

Lemma str_nat_inj (a b : nat) : str_nat a = str_nat b -> a = b.
Proof.
  unfold str_nat. intros E.
  assert (Nat.to_uint a = Nat.to_uint b) as E'.
  { apply (f_equal NilEmpty.uint_of_string) in E.
    rewrite !NilEmpty.usu in E. congruence. }
  apply (f_equal Nat.of_uint) in E'.
  by rewrite !DecimalNat.Unsigned.of_to in E'.
Qed.

Lemma str_append_length (a b : string) :
  String.length (a +:+ b) = String.length a + String.length b.
Proof. induction a as [|c a IH]; simpl; [done | by rewrite IH]. Qed.

Lemma str_append_cancel_r (a b s : string) : a +:+ s = b +:+ s -> a = b.
Proof.
  intros E.
  assert (String.length a = String.length b) as L.
  { apply (f_equal String.length) in E. rewrite !str_append_length in E. lia. }
  revert b E L. induction a as [|c a IH]; intros [|c' b] E L; simpl in *;
    try done.
  injection E as -> E. f_equal. apply IH; [done | lia].
Qed.

Lemma str_prefix_refl (s : string) : String.prefix s s = true.
Proof.
  induction s as [|c s IH]; simpl; [done |].
  destruct (ascii_dec c c); [done | congruence].
Qed.

Lemma str_in_refl (s : string) : str_in s s = true.
Proof.
  destruct s as [|c s]; [done |].
  change (String.prefix (String c s) (String c s) || str_in (String c s) s = true).
  by rewrite str_prefix_refl.
Qed.

(** ** Dicts *)
Section DictFacts.
Context {K V : Type} `{EqDecision K}.
Implicit Types (d : dict K V) (k : K) (v : V).

Lemma dict_get_None k d : dict_get k d = None <-> k ∉ dict_keys d.
Proof.
  unfold dict_keys. induction d as [|[k' v'] d IH]; simpl.
  - split; [intros _; apply not_elem_of_nil | done].
  - case_decide as E; subst.
    + split; [done | intros Hn; exfalso; apply Hn; left].
    + rewrite IH, not_elem_of_cons. split; [done | by intros [_ ?]].
Qed.

(** Assigning to an absent key appends the item. *)
Lemma dict_set_fresh k v d : k ∉ dict_keys d -> dict_set k v d = d ++ [(k, v)].
Proof.
  unfold dict_keys. induction d as [|[k' v'] d IH]; simpl; [done |].
  intros [? ?]%not_elem_of_cons. case_decide; [done |]. by rewrite IH.
Qed.
End DictFacts.

Lemma dict_set_sum {K} `{EqDecision K} (k : K) (n : nat) (d : dict K nat) :
  sum_list (dict_values (dict_set k n d)) + default 0 (dict_get k d)
  = sum_list (dict_values d) + n.
Proof.
  unfold dict_values. induction d as [|[k' m] d IH]; csimpl; [lia |].
  case_decide; csimpl; lia.
Qed.

(** [d[k] += 1] adds one to the total of a counter. *)
Lemma dict_incr_sum {K} `{EqDecision K} (k : K) (d : dict K nat) :
  sum_list (dict_values (dict_incr k d)) = S (sum_list (dict_values d)).
Proof. unfold dict_incr. pose proof (dict_set_sum k (default 0 (dict_get k d) + 1) d). lia. Qed.

(** ** Sorting *)

(** A list whose keys already count up is left as it is by [sorted]. *)
Lemma sorted_by_seq {A} (key : A -> nat) (l : list A) (a : nat) :
  key <$> l = seq a (length l) -> sorted_by key l = l.
Proof.
  revert a. induction l as [|x l IH]; intros a E; [done |].
  simpl in E. injection E as Ex El.
  unfold sorted_by in *. simpl. rewrite (IH (S a) El).
  destruct l as [|y l]; [done |]. simpl in *.
  injection El as Ey _. rewrite Ex, Ey.
  by rewrite (proj2 (Nat.leb_le a (S a))) by lia.
Qed.

(** ** The engine *)
Section EngineFacts.
Context {S Q R G : Type}.
Context (callback : Q -> R -> G).
Context (resume : G -> S -> S * outcome Q G).
Context (errback : Q -> string -> S -> S).

Abbreviation exec := (Engine.exec callback resume errback).
Abbreviation run := (Engine.run callback resume errback).

(** A property kept by every event of some kind holds along every run
    made of events of that kind. *)
Lemma run_invariant_on (ok : Engine.event R -> Prop)
    (P : Engine.crawl S Q G -> Prop) :
  (forall e c c', ok e -> P c -> exec e c = Some c' -> P c') ->
  forall es c c', Forall ok es -> P c -> run es c = Some c' -> P c'.
Proof.
  intros step es. induction es as [|e es IH]; intros c c' Hok HP Hrun;
    simpl in *.
  - by injection Hrun as <-.
  - destruct (exec e c) as [c1|] eqn:E; simpl in Hrun; [|done].
    apply Forall_cons in Hok as [He Hes].
    eapply IH; [done | | done]. by eapply step.
Qed.

(** A property kept by every event holds along every run. *)
Lemma run_invariant (P : Engine.crawl S Q G -> Prop) :
  (forall e c c', P c -> exec e c = Some c' -> P c') ->
  forall es c c', P c -> run es c = Some c' -> P c'.
Proof.
  intros step es c c'. apply (run_invariant_on (fun _ => True)).
  - intros e c1 c2 _. apply step.
  - by apply Forall_true.
Qed.

Lemma run_app es1 es2 c :
  run (es1 ++ es2) c = c' ← run es1 c; run es2 c'.
Proof.
  revert c. induction es1 as [|e es1 IH]; intros c; simpl; [done |].
  destruct (exec e c); simpl; [apply IH | done].
Qed.

Lemma run_nil c : run [] c = Some c.
Proof. reflexivity. Qed.

Lemma run_cons e es c c' : exec e c = Some c' -> run (e :: es) c = run es c'.
Proof. intros E. simpl. by rewrite E. Qed.

Lemma run_app_Some es1 es2 c c' :
  run es1 c = Some c' -> run (es1 ++ es2) c = run es2 c'.
Proof. intros E. by rewrite run_app, E. Qed.
End EngineFacts.

(** ** Census mode *)
Section CensusFacts.
Context {U : UrlLib}.
Import CountSpider.

Lemma limit_message_text :
  limit_message = "Reached maximum limit of 1000 pages".
Proof. reflexivity. Qed.

Lemma size_found_index (s : state) :
  spider_inv s -> size (found_urls s) = length (url_index s).
Proof.
  intros I. rewrite (inv_found s I).
  rewrite size_list_to_set by apply (inv_nodup s I).
  unfold dict_keys. by rewrite length_fmap.
Qed.

Lemma size_found_record (u : string) (level : nat) (s : state) :
  u ∉ found_urls s ->
  size (found_urls (record_url u level s)) = S (size (found_urls s)).
Proof.
  intros Hnew. cbn [found_urls record_url].
  rewrite size_union by (by apply disjoint_singleton_r).
  rewrite size_singleton. lia.
Qed.

Lemma record_url_inv (url : string) (level : nat) (s : state) :
  spider_inv s -> url ∉ found_urls s -> size (found_urls s) < MAX_PAGES ->
  spider_inv (record_url url level s).
Proof.
  intros I Hnew Hlt.
  assert (url ∉ dict_keys (url_index s)) as Hkey.
  { rewrite (inv_found s I) in Hnew. by rewrite elem_of_list_to_set in Hnew. }
  split.
  - rewrite size_found_record by done. lia.
  - cbn [url_index record_url].
    rewrite dict_set_fresh by done. unfold dict_values.
    rewrite fmap_app, length_app. simpl.
    rewrite seq_app. simpl. f_equal.
    + apply (inv_index s I).
    + by rewrite (inv_next s I).
  - cbn [url_index current_index record_url].
    rewrite dict_set_fresh by done. rewrite length_app. simpl.
    rewrite (inv_next s I). lia.
  - cbn [url_index record_url].
    rewrite dict_set_fresh by done. unfold dict_keys.
    rewrite fmap_app. simpl. apply NoDup_app. split_and!.
    + apply (inv_nodup s I).
    + intros x Hx ->%list_elem_of_singleton. by apply Hkey.
    + apply NoDup_singleton.
  - cbn [url_index found_urls record_url].
    rewrite dict_set_fresh by done. unfold dict_keys.
    rewrite fmap_app, list_to_set_app_L. simpl.
    rewrite (inv_found s I). unfold dict_keys. by rewrite (right_id_L ∅ (∪)).
Qed.

Lemma log_error_inv (m : string) (s : state) :
  spider_inv s -> spider_inv (log_error m s).
Proof. intros I. split; apply I. Qed.

Lemma set_stopped_inv (m : string) (s : state) :
  spider_inv s -> spider_inv (set_stopped_reason m s).
Proof. intros I. split; apply I. Qed.

(** The link loop never asks to close the spider. *)
Lemma parse_loop_no_close (r : response) (next_level : nat)
    (hrefs : list string) (s s' : state) (reason : string) :
  parse_loop r next_level hrefs s <> (s', CloseSpider reason).
Proof.
  revert s. induction hrefs as [|href rest IH]; intros s; cbn [parse_loop];
    [done |].
  destruct (_ && _); [| apply IH]. case_bool_decide; [done | apply IH].
Qed.

Lemma parse_loop_resumed (r : response) (next_level : nat)
    (hrefs : list string) (s s' : state) (o : outcome request generator) :
  parse_loop r next_level hrefs s = (s', o) -> resumed s s' o.
Proof.
  destruct o as [q g | | reason];
    [| | intros E; by apply parse_loop_no_close in E].
  - revert s. induction hrefs as [|href rest IH]; intros s E; simpl in E;
      [done |].
    set (url := urljoin (resp_url r) href) in *.
    destruct (bool_decide (netloc url = allowed_domain s)
              && bool_decide (url ∉ found_urls s)
              && bool_decide (size (found_urls s) < MAX_PAGES)) eqn:Hc;
      [| by apply IH].
    apply andb_prop in Hc as [[Hd Hn]%andb_prop Hl].
    apply bool_decide_eq_true in Hd, Hn, Hl.
    pose proof (size_found_record url next_level s Hn) as Hsize.
    case_bool_decide.
    + injection E as <- <- <-. split; cbn [req_url req_level req_errback].
      * apply union_subseteq_l.
      * done.
      * intros _. lia.
      * split_and!; try done. exists s. by split_and!.
    + destruct (IH _ E) as [F D B O]. split.
      * etrans; [apply union_subseteq_l | exact F].
      * by rewrite D.
      * intros _. apply B. lia.
      * destruct O as (St & Hd' & He & s0 & F0 & Hnew & ->).
        split_and!; try done. exists s0. split_and!; try done.
        etrans; [apply union_subseteq_l | exact F0].
  - revert s. induction hrefs as [|href rest IH]; intros s E; simpl in E.
    { injection E as <-. by split. }
    set (url := urljoin (resp_url r) href) in *.
    destruct (bool_decide (netloc url = allowed_domain s)
              && bool_decide (url ∉ found_urls s)
              && bool_decide (size (found_urls s) < MAX_PAGES)) eqn:Hc;
      [| by apply IH].
    apply andb_prop in Hc as [[Hd Hn]%andb_prop Hl].
    apply bool_decide_eq_true in Hd, Hn, Hl.
    pose proof (size_found_record url next_level s Hn) as Hsize.
    case_bool_decide; [done |].
    destruct (IH _ E) as [F D B O]. split.
    + etrans; [apply union_subseteq_l | exact F].
    + by rewrite D.
    + intros _. apply B. lia.
    + exact O.
Qed.

Lemma resume_resumed (g : generator) (s s' : state)
    (o : outcome request generator) :
  resume g s = (s', o) -> resumed s s' o.
Proof.
  intros E. destruct g as [r level | r next_level rest]; cbn [resume] in E;
    [| by eapply parse_loop_resumed].
  unfold parse in E. case_bool_decide as Hfull.
  - destruct (truthy (stopped_reason s)) eqn:Ht; cbn [negb] in E;
      injection E as <- <-; by split.
  - remember (if bool_decide (resp_url r ∉ found_urls s)
              then record_url (resp_url r) level s else s) as s1 eqn:Es1.
    assert (found_urls s ⊆ found_urls s1 /\
            allowed_domain s1 = allowed_domain s /\
            stopped_reason s1 = stopped_reason s /\
            size (found_urls s1) <= MAX_PAGES) as (F1 & D1 & S1 & B1).
    { rewrite Es1. clear E Es1. case_bool_decide as Hn; [| split_and!; [done .. | lia]].
      split_and!; try done; [apply union_subseteq_l |].
      rewrite size_found_record by done. lia. }
    clear Es1. case_bool_decide.
    + destruct (resp_hrefs r) as [hrefs | e].
      * destruct (parse_loop_resumed _ _ _ _ _ _ E) as [F D B O]. split.
        -- by etrans.
        -- congruence.
        -- intros _. by apply B.
        -- destruct o as [q g | | reason]; cbn in *.
           ++ destruct O as (? & ? & ? & s0 & ? & ? & ?).
              split_and!; try congruence. exists s0. split_and!; try done.
              by etrans.
           ++ congruence.
           ++ by apply parse_loop_no_close in E.
      * injection E as <- <-. by split.
    + injection E as <- <-. by split.
Qed.

(** A property of the spider that recording, logging and setting the stop
    reason keep is kept by every resumption. *)
Lemma resume_preserves (P : state -> Prop) :
  (forall u level s, spider_inv s -> P s -> u ∉ found_urls s ->
                     size (found_urls s) < MAX_PAGES ->
                     P (record_url u level s)) ->
  (forall m s, P s -> P (log_error m s)) ->
  (forall m s, P s -> P (set_stopped_reason m s)) ->
  forall g s s' o, spider_inv s -> P s -> resume g s = (s', o) ->
                   spider_inv s' /\ P s'.
Proof.
  intros Hrec Hlog Hstop.
  assert (forall r next_level hrefs s s' o,
            spider_inv s -> P s -> parse_loop r next_level hrefs s = (s', o) ->
            spider_inv s' /\ P s') as Hloop.
  { intros r next_level hrefs. induction hrefs as [|href rest IH];
      intros s s' o I HP E; simpl in E.
    { by injection E as <- _. }
    set (url := urljoin (resp_url r) href) in *.
    destruct (bool_decide (netloc url = allowed_domain s)
              && bool_decide (url ∉ found_urls s)
              && bool_decide (size (found_urls s) < MAX_PAGES)) eqn:Hc;
      [| by eapply IH].
    apply andb_prop in Hc as [[Hd Hn]%andb_prop Hl].
    apply bool_decide_eq_true in Hd, Hn, Hl.
    pose proof (record_url_inv url next_level s I Hn Hl) as I'.
    pose proof (Hrec url next_level s I HP Hn Hl) as P'.
    case_bool_decide; [by injection E as <- _ | by eapply IH]. }
  intros g s s' o I HP E.
  destruct g as [r level | r next_level rest]; cbn [resume] in E;
    [| by eapply Hloop].
  unfold parse in E. case_bool_decide as Hfull.
  - destruct (negb (truthy (stopped_reason s))); injection E as <- _;
      [| done]. split; [by apply set_stopped_inv | by apply Hstop].
  - remember (if bool_decide (resp_url r ∉ found_urls s)
              then record_url (resp_url r) level s else s) as s1 eqn:Es1.
    assert (spider_inv s1 /\ P s1) as [I1 P1].
    { rewrite Es1. clear E Es1. case_bool_decide as Hn; [| done].
      split; [apply record_url_inv | apply Hrec]; try done; lia. }
    clear Es1. case_bool_decide.
    + destruct (resp_hrefs r) as [hrefs | e]; [by eapply Hloop |].
      injection E as <- _. split; [by apply log_error_inv | by apply Hlog].
    + by injection E as <- _.
Qed.
End CensusFacts.

Section CensusCrawlFacts.
Context {U : UrlLib}.
Import CountSpider.

Implicit Types (c : Engine.crawl state request generator).

Lemma census_run_cons e es c c' :
  Engine.exec callback resume call_errback e c = Some c' ->
  run (e :: es) c = run es c'.
Proof. apply run_cons. Qed.

(** What an event does to the spider: an errback logs, a resumption
    resumes, the other events leave it alone. *)
Lemma exec_spider e c c' :
  Engine.exec callback resume call_errback e c = Some c' ->
  Engine.spider c' = Engine.spider c \/
  (exists m, Engine.spider c' = log_error m (Engine.spider c)) \/
  (exists g o, resume g (Engine.spider c) = (Engine.spider c', o)).
Proof.
  intros E. destruct e as [i r | i f | i | j]; simpl in E.
  - destruct (Engine.pending c !! i); simplify_eq/=. by left.
  - destruct (Engine.pending c !! i) as [q|]; simplify_eq/=.
    unfold call_errback, errback. destruct (req_errback q); [| by left].
    right. left. by eexists.
  - destruct (Engine.close_reason c); [| done].
    destruct (Engine.pending c !! i); simplify_eq/=. by left.
  - destruct (Engine.running c !! j) as [g|]; simplify_eq/=.
    destruct (resume g (Engine.spider c)) as [s' o] eqn:Er.
    right. right. exists g, o. by destruct o; simplify_eq/=.
Qed.

Lemma run_preserves (P : state -> Prop) :
  (forall u level s, spider_inv s -> P s -> u ∉ found_urls s ->
                     size (found_urls s) < MAX_PAGES ->
                     P (record_url u level s)) ->
  (forall m s, P s -> P (log_error m s)) ->
  (forall m s, P s -> P (set_stopped_reason m s)) ->
  forall es c c', spider_inv (Engine.spider c) -> P (Engine.spider c) ->
                  run es c = Some c' ->
                  spider_inv (Engine.spider c') /\ P (Engine.spider c').
Proof.
  intros Hrec Hlog Hstop es c c' I HP E.
  apply (run_invariant callback resume call_errback
           (fun c => spider_inv (Engine.spider c) /\ P (Engine.spider c)))
    with (es := es) (c := c); [| done | exact E].
  intros e c1 c2 [I1 P1] E1.
  destruct (exec_spider e c1 c2 E1) as [-> | [[m ->] | (g & o & Er)]];
    [done | split; [by apply log_error_inv | by apply Hlog] |].
  by apply (resume_preserves P Hrec Hlog Hstop g (Engine.spider c1) (Engine.spider c2) o).
Qed.

Lemma run_spider_inv es c c' :
  spider_inv (Engine.spider c) -> run es c = Some c' ->
  spider_inv (Engine.spider c').
Proof.
  intros I E.
  by destruct (run_preserves (fun _ => True) ltac:(done) ltac:(done)
                 ltac:(done) es c c' I Logic.I E).
Qed.

Lemma run_bound es c c' :
  size (found_urls (Engine.spider c)) <= MAX_PAGES -> run es c = Some c' ->
  size (found_urls (Engine.spider c')) <= MAX_PAGES.
Proof.
  apply (run_invariant callback resume call_errback
           (fun c => size (found_urls (Engine.spider c)) <= MAX_PAGES)).
  intros e c1 c2 B E1.
  destruct (exec_spider e c1 c2 E1) as [-> | [[m ->] | (g & o & Er)]];
    [done | done |].
  by apply (res_bound _ _ _ (resume_resumed _ _ _ _ Er)).
Qed.

Lemma exec_requests_inv e c c' :
  requests_inv c ->
  Engine.exec callback resume call_errback e c = Some c' ->
  requests_inv c'.
Proof.
  intros [N Y] E. destruct e as [i r | i f | i | j]; simpl in E.
  - destruct (Engine.pending c !! i); by simplify_eq/=.
  - destruct (Engine.pending c !! i) as [q|]; simplify_eq/=.
    unfold call_errback. by destruct (req_errback q).
  - destruct (Engine.close_reason c); [| done].
    destruct (Engine.pending c !! i); by simplify_eq/=.
  - destruct (Engine.running c !! j) as [g|]; simplify_eq/=.
    destruct (resume g (Engine.spider c)) as [s' o] eqn:Er.
    destruct (resume_resumed _ _ _ _ Er) as [F _ _ O].
    destruct o as [q g' | | reason]; simplify_eq/=.
    + destruct O as (_ & _ & _ & s0 & F0 & Hnew & ->). split; simpl.
      * rewrite fmap_app. simpl.
        apply NoDup_app. split_and!; [done | | apply NoDup_singleton].
        intros x (q' & -> & Hq')%list_elem_of_fmap Hx%list_elem_of_singleton.
        apply Hnew, F0. rewrite <- Hx. by apply Y.
      * intros q' [Hq' | ->%list_elem_of_singleton]%elem_of_app.
        -- apply elem_of_union. left. by apply F0, Y.
        -- apply elem_of_union. right. by apply elem_of_singleton.
    + split; [done |]. intros q' Hq'. by apply F, Y.
    + split; [done |]. intros q' Hq'. by apply F, Y.
Qed.

Lemma truthy_limit_message : truthy (Some limit_message) = true.
Proof. reflexivity. Qed.

Lemma exec_reason_inv e c c' :
  reason_inv c ->
  Engine.exec callback resume call_errback e c = Some c' ->
  reason_inv c'.
Proof.
  intros [R S] E. destruct e as [i r | i f | i | j]; simpl in E.
  - destruct (Engine.pending c !! i); by simplify_eq/=.
  - destruct (Engine.pending c !! i) as [q|]; simplify_eq/=.
    unfold call_errback. by destruct (req_errback q).
  - destruct (Engine.close_reason c); [| done].
    destruct (Engine.pending c !! i); by simplify_eq/=.
  - destruct (Engine.running c !! j) as [g|]; simplify_eq/=.
    destruct (resume g (Engine.spider c)) as [s' o] eqn:Er.
    destruct (resume_resumed _ _ _ _ Er) as [F _ _ O].
    assert (stopped_reason s' = stopped_reason (Engine.spider c) ->
            stop_inv s') as Hkeep.
    { intros Hs. destruct S as [S | [S Hfull]]; [left; congruence |].
      right. split; [congruence |].
      etrans; [exact Hfull | by apply subseteq_size]. }
    destruct o as [q g' | | reason]; simplify_eq/=.
    + destruct O as (Hs & _). split; [simpl; congruence | by apply Hkeep].
    + split; [simpl; congruence | by apply Hkeep].
    + destruct O as (-> & Ht & Hs & Hf & Hfull).
      assert (stopped_reason (Engine.spider c) = None) as Hnone.
      { destruct S as [? | [S _]]; [done |].
        rewrite S, truthy_limit_message in Ht. done. }
      split; simpl.
      * rewrite R, Hnone. simpl. congruence.
      * right. split; [done | by rewrite Hf].
Qed.

(** Entering [parse] on a new response with the cap reached. *)
Lemma exec_resume_at_cap c (j : nat) (r : response) (level : nat) :
  Engine.running c !! j = Some (Fresh r level) ->
  MAX_PAGES <= size (found_urls (Engine.spider c)) ->
  stopped_reason (Engine.spider c) = None ->
  Engine.exec callback resume call_errback (Engine.Resume j) c
  = Some {| Engine.spider := set_stopped_reason limit_message (Engine.spider c);
            Engine.pending := Engine.pending c;
            Engine.running := delete j (Engine.running c);
            Engine.close_reason :=
              Some (default limit_message (Engine.close_reason c));
            Engine.yielded := Engine.yielded c |}.
Proof.
  intros Hg Hfull Hs. cbn [Engine.exec]. rewrite Hg. cbn [mbind option_bind resume].
  unfold parse. rewrite bool_decide_eq_true_2 by done. by rewrite Hs.
Qed.
End CensusCrawlFacts.

(** ** Census mode: the claims *)
Section CensusClaims.
Context {U : UrlLib}.
Import CountSpider.

Implicit Types (c : Engine.crawl state request generator).

Lemma ordered_indices (s : state) :
  spider_inv s ->
  info_index <$> ordered s = seq 1 (size (found_urls s)) /\
  info_url <$> ordered s = dict_keys (url_index s).
Proof.
  intros I. unfold ordered.
  set (l := (fun '(url, idx) => (idx, url, dict_get0 url (url_levels s)))
            <$> url_index s).
  assert ((fun x : nat * string * nat => x.1.1) <$> l = dict_values (url_index s)) as K.
  { subst l. unfold dict_values. rewrite <- list_fmap_compose.
    apply list_fmap_ext. by intros _ [u i] _. }
  assert (length l = length (url_index s)) as L by (subst l; apply length_fmap).
  rewrite (sorted_by_seq _ l 1) by (rewrite K, L; apply (inv_index s I)).
  rewrite <- !list_fmap_compose. split.
  - rewrite (size_found_index s I), <- (inv_index s I), <- K.
    apply list_fmap_ext. by intros _ [[i u] n] _.
  - subst l. unfold dict_keys. rewrite <- list_fmap_compose.
    apply list_fmap_ext. by intros _ [u i] _.
Qed.

Lemma seq_strictly_sorted (a n : nat) : StronglySorted lt (seq a n).
Proof.
  revert a. induction n as [|n IH]; intros a; simpl; constructor; [apply IH |].
  apply Forall_forall. intros x Hx%elem_of_seq. lia.
Qed.

(** C2, what the code does.  No census is started through the class:
    [__init__] raises [NameError] for every URL, so Scrapy has no spider to
    run.  And a spider object that is still open, in whatever state, sets
    its flag in [spider_closed] and raises the same error: no level
    statistics, and no percentages, are ever built or published. *)
Theorem census_publishes_nothing (url reason : string) (s : state) :
  crawl url = inr (NameError "time") /\
  (finished s = false ->
   spider_closed reason s = (set_finished s, Raised (NameError "time"))) /\
  (finished s = true -> spider_closed reason s = (s, AlreadyClosed)).
Proof.
  split_and!; [done | |]; intros F; unfold spider_closed; by rewrite F.
Qed.

(** C7. The methods of the census spider keep the cap: when at most 1000
    URLs are found, at most 1000 are found after every event of every run,
    whatever the site answers and in whatever order the engine works. *)
Theorem census_found_urls_bounded c0 es c :
  size (found_urls (Engine.spider c0)) <= 1000 ->
  run es c0 = Some c ->
  size (found_urls (Engine.spider c)) <= 1000.
Proof. apply run_bound. Qed.

(** C8. The methods keep the index consistent: after every run from a
    spider whose index is consistent, the found URLs are the keys of
    [url_index], each once, with the indices 1..N in the order of
    recording, N being the number of found URLs; so in the list that lines
    138-162 build from the index every found URL occurs exactly once, the
    list is sorted by index and the indices are exactly 1..N. *)
Theorem census_ordered_urls c0 es c :
  spider_inv (Engine.spider c0) ->
  run es c0 = Some c ->
  dict_values (url_index (Engine.spider c))
  = seq 1 (size (found_urls (Engine.spider c))) /\
  NoDup (dict_keys (url_index (Engine.spider c))) /\
  (forall u, u ∈ found_urls (Engine.spider c) <->
             u ∈ dict_keys (url_index (Engine.spider c))) /\
  info_index <$> ordered (Engine.spider c)
  = seq 1 (size (found_urls (Engine.spider c))) /\
  StronglySorted lt (info_index <$> ordered (Engine.spider c)) /\
  NoDup (info_url <$> ordered (Engine.spider c)) /\
  (forall u, u ∈ found_urls (Engine.spider c) <->
             u ∈ info_url <$> ordered (Engine.spider c)).
Proof.
  intros I0 E. pose proof (run_spider_inv _ _ _ I0 E) as I.
  destruct (ordered_indices _ I) as [Hi Hu].
  assert (forall u, u ∈ found_urls (Engine.spider c) <->
                    u ∈ dict_keys (url_index (Engine.spider c))) as Hk.
  { intros u. rewrite (inv_found _ I) at 1. apply elem_of_list_to_set. }
  rewrite Hi, Hu. split_and!; try done.
  - rewrite (size_found_index _ I). apply (inv_index _ I).
  - apply (inv_nodup _ I).
  - apply seq_strictly_sorted.
  - apply (inv_nodup _ I).
Qed.

(** C10. No URL is requested twice by the spider: when the URLs of the
    requests yielded so far are pairwise distinct and all found, they are
    so after every run; and whenever a generator yields a request, its URL
    was not found before that resumption and the last thing the spider did
    was to record it. *)
Theorem census_requests_once c0 es c :
  NoDup (req_url <$> Engine.yielded c0) ->
  (forall q, q ∈ Engine.yielded c0 ->
             req_url q ∈ found_urls (Engine.spider c0)) ->
  run es c0 = Some c ->
  NoDup (req_url <$> Engine.yielded c) /\
  (forall q, q ∈ Engine.yielded c -> req_url q ∈ found_urls (Engine.spider c)) /\
  (forall g s' q g',
      resume g (Engine.spider c) = (s', Yielded q g') ->
      (req_url q ∉ found_urls (Engine.spider c)) /\
      exists s0, (req_url q ∉ found_urls s0) /\
                 s' = record_url (req_url q) (req_level q) s0 /\
                 req_url q ∈ found_urls s').
Proof.
  intros N0 Y0 E.
  assert (requests_inv c) as [N Y].
  { apply (run_invariant callback resume call_errback requests_inv)
      with (es := es) (c := c0); [| done | exact E].
    intros e c1 c2. apply exec_requests_inv. }
  split_and!; [done | done |].
  intros g s' q g' Er.
  destruct (resume_resumed _ _ _ _ Er) as [_ _ _ O].
  simpl in O. destruct O as (_ & _ & _ & s0 & F0 & Hnew & ->).
  split; [intros Hin; by apply Hnew, F0 |].
  exists s0. split_and!; [done | done |].
  cbn [found_urls record_url]. apply elem_of_union. right.
  by apply elem_of_singleton.
Qed.

(** C1, as the code has it.  From a spider without a stop reason, in a
    crawl the engine has not been asked to close: whenever [parse] is
    entered on a new response with 1000 URLs found, the stop reason
    becomes the limit message and the engine's close reason is that
    message; as long as fewer than 1000 URLs are found there is no stop
    reason and the engine's reason is its own, ['finished'].  Neither is
    ever the sentence of the claim, which the source has in a log line
    only. *)
Theorem census_reason c0 es c :
  stopped_reason (Engine.spider c0) = None ->
  Engine.close_reason c0 = None ->
  run es c0 = Some c ->
  (forall j r level,
      Engine.running c !! j = Some (Fresh r level) ->
      1000 <= size (found_urls (Engine.spider c)) ->
      exists c',
        Engine.exec callback resume call_errback (Engine.Resume j) c = Some c' /\
        stopped_reason (Engine.spider c')
        = Some "Reached maximum limit of 1000 pages" /\
        Engine.reason c' = "Reached maximum limit of 1000 pages") /\
  (size (found_urls (Engine.spider c)) < 1000 ->
   stopped_reason (Engine.spider c) = None /\ Engine.reason c = "finished") /\
  (Engine.reason c = "Reached maximum limit of 1000 pages" \/
   Engine.reason c = "finished") /\
  Engine.reason c <> "Completed scanning all available pages".
Proof.
  intros S0 R0 E.
  assert (reason_inv c) as [R S].
  { apply (run_invariant callback resume call_errback reason_inv)
      with (es := es) (c := c0); [| | exact E].
    - intros e c1 c2. apply exec_reason_inv.
    - split; [congruence | by left]. }
  assert (Engine.reason c = "Reached maximum limit of 1000 pages" \/
          Engine.reason c = "finished") as Hr.
  { unfold Engine.reason. rewrite R.
    destruct S as [-> | [-> _]]; [by right | by left]. }
  split_and!; [| | done |].
  - intros j r level Hg Hfull.
    assert (exists c1, Engine.exec callback resume call_errback
                         (Engine.Resume j) c = Some c1) as [c1 E1].
    { cbn [Engine.exec]. rewrite Hg. cbn [mbind option_bind].
      destruct (resume (Fresh r level) (Engine.spider c)) as [s1 [q g | | rs]];
        by eexists. }
    exists c1. split; [done |].
    destruct (exec_reason_inv _ _ _ (conj R S) E1) as [R1 S1].
    destruct S as [Hnone | [Hs _]].
    + rewrite (exec_resume_at_cap c j r level Hg Hfull Hnone) in E1.
      injection E1 as <-. cbn [Engine.spider Engine.close_reason].
      unfold Engine.reason. cbn [Engine.close_reason].
      rewrite R, Hnone. done.
    + cbn [Engine.exec] in E1. rewrite Hg in E1.
      cbn [mbind option_bind resume] in E1. unfold parse in E1.
      rewrite bool_decide_eq_true_2 in E1 by done.
      rewrite Hs, truthy_limit_message in E1. cbn [negb] in E1.
      injection E1 as <-. cbn [Engine.spider Engine.close_reason].
      unfold Engine.reason. cbn [Engine.close_reason]. by rewrite R, Hs.
  - intros Hlt. destruct S as [Hnone | [_ Hfull]]; [| unfold MAX_PAGES in *; lia].
    split; [done |]. unfold Engine.reason. by rewrite R, Hnone.
  - by destruct Hr as [-> | ->].
Qed.

End CensusClaims.

(** ** Census mode: worked crawls *)
Section CensusWorked.
Import CountSpider Worked.
Existing Instance SimpleUrl.lib.

Lemma midway_inv : spider_inv midway.
Proof.
  split; [vm_compute; lia | reflexivity | reflexivity | | reflexivity].
  apply (bool_decide_unpack _). vm_compute. exact I.
Qed.

Lemma hub_link_inj (i j : nat) : hub_link i = hub_link j -> i = j.
Proof. unfold hub_link. intros E. apply str_nat_inj. by simplify_eq/=. Qed.

Lemma full_size : size (found_urls full) = 1000.
Proof.
  unfold full. cbn [found_urls]. rewrite size_list_to_set.
  - by rewrite length_fmap, length_seq.
  - apply NoDup_fmap_2; [| apply NoDup_seq]. intros i j. apply hub_link_inj.
Qed.

Lemma census_found_urls_bounded_witness :
  exists c, run midway_schedule midway_crawl = Some c /\
            size (found_urls (Engine.spider c)) <= 1000.
Proof.
  eexists. split; [vm_compute; reflexivity |].
  apply (census_found_urls_bounded midway_crawl midway_schedule);
    [vm_compute; lia | vm_compute; reflexivity].
Defined.
End CensusWorked.

Section CensusWorkedMore.
Import CountSpider Worked.
Existing Instance SimpleUrl.lib.

Lemma census_ordered_urls_witness :
  exists c,
    run midway_schedule midway_crawl = Some c /\
    dict_values (url_index (Engine.spider c))
    = seq 1 (size (found_urls (Engine.spider c))) /\
    NoDup (dict_keys (url_index (Engine.spider c))) /\
    (forall u, u ∈ found_urls (Engine.spider c) <->
               u ∈ dict_keys (url_index (Engine.spider c))) /\
    info_index <$> ordered (Engine.spider c)
    = seq 1 (size (found_urls (Engine.spider c))) /\
    StronglySorted lt (info_index <$> ordered (Engine.spider c)) /\
    NoDup (info_url <$> ordered (Engine.spider c)) /\
    (forall u, u ∈ found_urls (Engine.spider c) <->
               u ∈ info_url <$> ordered (Engine.spider c)).
Proof.
  eexists. split; [vm_compute; reflexivity |].
  apply (census_ordered_urls midway_crawl midway_schedule);
    [apply midway_inv | vm_compute; reflexivity].
Defined.

Lemma midway_yielded :
  NoDup (req_url <$> Engine.yielded midway_crawl) /\
  forall q, q ∈ Engine.yielded midway_crawl ->
            req_url q ∈ found_urls (Engine.spider midway_crawl).
Proof.
  split; [apply NoDup_singleton |].
  intros q ->%list_elem_of_singleton.
  apply (bool_decide_unpack _). vm_compute. exact I.
Qed.

Lemma census_requests_once_witness :
  exists c, run midway_schedule midway_crawl = Some c /\
            NoDup (req_url <$> Engine.yielded c) /\
            (forall q, q ∈ Engine.yielded c ->
                       req_url q ∈ found_urls (Engine.spider c)).
Proof.
  eexists. split; [vm_compute; reflexivity |].
  destruct midway_yielded as [N Y].
  split; apply (census_requests_once midway_crawl midway_schedule);
    try done; vm_compute; reflexivity.
Defined.

(** The spider that has reached the cap: a request it made fails, then
    [parse] is entered on the response it holds. *)
Lemma census_reason_witness :
  exists c c',
    run [Engine.Failure 0 "timeout"] full_crawl = Some c /\
    1000 <= size (found_urls (Engine.spider c)) /\
    Engine.exec callback resume call_errback (Engine.Resume 0) c = Some c' /\
    stopped_reason (Engine.spider c')
    = Some "Reached maximum limit of 1000 pages" /\
    Engine.reason c' = "Reached maximum limit of 1000 pages".
Proof.
  eexists.
  assert (1000 <= size (found_urls (Engine.spider
            ({| Engine.spider := log_error "Request failed: timeout" full;
                Engine.pending := [];
                Engine.running := [Fresh hub_page 1];
                Engine.close_reason := None;
                Engine.yielded := [] |}
             : Engine.crawl state request generator)))) as Hfull.
  { cbn [Engine.spider found_urls log_error]. by rewrite full_size. }
  destruct (census_reason full_crawl [Engine.Failure 0 "timeout"] _
              eq_refl eq_refl eq_refl) as (Hcap & _).
  destruct (Hcap 0 hub_page 1 eq_refl Hfull) as (c' & E' & Hs & Hr).
  exists c'. split_and!; [reflexivity | exact Hfull | exact E' | exact Hs | exact Hr].
Defined.


(** C1, as stated, fails.  Started through the class, a census of the
    small site raises [NameError] before anything is fetched.  And for a
    spider object that has found nothing yet the crawl of that site runs
    dry with 4 URLs found, far below the cap, and the engine closes it with
    reason ['finished'], not with the sentence of the claim; the handler
    then raises, so no result carries any reason. *)
Lemma census_reason_counterexample :
  crawl home = inr (NameError "time") /\
  exists c,
    run small_schedule blank_crawl = Some c /\
    Engine.idle c = true /\
    size (found_urls (Engine.spider c)) = 4 /\
    Engine.reason c = "finished" /\
    Engine.reason c <> "Completed scanning all available pages" /\
    (spider_closed (Engine.reason c) (Engine.spider c)).2
    = Raised (NameError "time").
Proof.
  split; [reflexivity |].
  eexists. split; [vm_compute; reflexivity |].
  split_and!; [reflexivity | reflexivity | reflexivity | discriminate |
               reflexivity].
Qed.

End CensusWorkedMore.

(** ** Content mode *)
Section ContentFacts.
Context {U : UrlLib}.
Import FastSpider.

Lemma page_name_inj (a b : nat) : page_name a = page_name b -> a = b.
Proof.
  unfold page_name. intros E. apply str_nat_inj.
  apply (str_append_cancel_r _ _ ".txt"). by simplify_eq/=.
Qed.

Lemma content_init_inv (url : string) (limit : Z) (task started : string) :
  content_spider_inv (init url limit task started).
Proof.
  split; unfold index_entries; simpl; try done; [lia | constructor].
Qed.

Lemma content_log_error_inv (m : string) (s : state) :
  content_spider_inv s -> content_spider_inv (log_error m s).
Proof. intros I. split; apply I. Qed.

Lemma content_parse_loop (ls : list (string * string)) (s s' : state)
    (o : outcome request generator) :
  parse_loop ls s = (s', o) ->
  s' = s /\
  match o with
  | Yielded q g =>
      str_in (allowed_domain s) (netloc (req_url q)) = true /\
      req_errback q = true /\ (req_url q ∉ visited_urls s) /\
      generator_disk_ok g
  | Exhausted => True
  | CloseSpider _ => False
  end.
Proof.
  induction ls as [|[text href] rest IH]; simpl; intros E.
  - by injection E as <- <-.
  - destruct (bool_decide (href ∉ visited_urls s)) eqn:Hv; simpl in E;
      [| by apply IH].
    destruct (str_in (allowed_domain s) (netloc href)) eqn:Hd;
      [| by apply IH].
    injection E as <- <-. simpl. by apply bool_decide_eq_true in Hv.
Qed.

(** A page that gets as far as the index: its entry is appended, its URL
    joins the visited set and the counter goes up by one. *)
Lemma content_indexed_inv (s : state) (u t : string) :
  content_spider_inv s -> u ∉ visited_urls s ->
  (Z.of_nat (pages_crawled s) < page_limit s)%Z ->
  content_spider_inv
    (mark_crawled u
       (append_index
          (Entry {| entry_number := pages_crawled s + 1; entry_title := t;
                    entry_url := u;
                    entry_file := page_name (pages_crawled s + 1) |}) s)).
Proof.
  intros I Hnew Hlt.
  assert (forall e, index_entries (append_index (Entry e) s)
                    = index_entries s ++ [e]) as Happ.
  { intros e. unfold index_entries. simpl. by rewrite omap_app. }
  set (e := {| entry_number := pages_crawled s + 1; entry_title := t;
               entry_url := u;
               entry_file := page_name (pages_crawled s + 1) |}).
  change (index_entries (mark_crawled u (append_index (Entry e) s)))
    with (index_entries (append_index (Entry e) s)) in *.
  split; change (index_entries (mark_crawled u (append_index (Entry e) s)))
           with (index_entries (append_index (Entry e) s));
    cbn [pages_crawled page_limit visited_urls mark_crawled append_index].
  - lia.
  - rewrite Happ, fmap_app, (ok_entries s I). simpl.
    replace (pages_crawled s + 1) with (S (pages_crawled s)) by lia.
    by rewrite seq_S, fmap_app.
  - rewrite Happ, fmap_app. simpl. apply NoDup_app. split_and!.
    + apply (ok_nodup s I).
    + intros x Hx Hu%list_elem_of_singleton. subst x. apply Hnew.
      rewrite (ok_visited s I). by apply elem_of_list_to_set.
    + apply NoDup_singleton.
  - rewrite Happ, fmap_app, list_to_set_app_L, (ok_visited s I). simpl.
    by rewrite (right_id_L ∅ (∪)).
Qed.
End ContentFacts.

Section ContentResume.
Context {U : UrlLib}.
Import FastSpider.

(** [save_content] touches the page files and the error log only. *)
Lemma save_content_frame (d : delivery) (c : content) (f : string) (s : state) :
  pages_crawled (save_content d c f s) = pages_crawled s /\
  page_limit (save_content d c f s) = page_limit s /\
  allowed_domain (save_content d c f s) = allowed_domain s /\
  visited_urls (save_content d c f s) = visited_urls s /\
  index_file (save_content d c f s) = index_file s.
Proof. unfold save_content. by destruct (save_error d). Qed.

Lemma save_content_inv (d : delivery) (c : content) (f : string) (s : state) :
  content_spider_inv s -> content_spider_inv (save_content d c f s).
Proof.
  intros I. unfold save_content. destruct (save_error d); split; apply I.
Qed.

Lemma content_resume_resumed (g : generator) (s s' : state)
    (o : outcome request generator) :
  content_spider_inv s -> resume g s = (s', o) -> content_resumed s s' o.
Proof.
  intros I E. destruct g as [d | rest]; simpl in E.
  - unfold parse in E.
    destruct (Z.leb_spec (page_limit s) (Z.of_nat (pages_crawled s))) as [Hfull | Hroom].
    { injection E as <- <-. by split. }
    case_bool_decide as Hseen.
    { injection E as <- <-. by split. }
    unfold extract_content in E. destruct (resp_page (resp d)) as [p | e].
    + set (c := {| url := resp_url (resp d); crawl_time := now d;
                   title := page_title p;
                   meta_description := page_meta_description p;
                   headings := group_headings (page_headings p);
                   paragraphs := filter (fun t => nonempty t) (page_paragraphs p);
                   links := extract_links (resp_url (resp d)) (page_anchors p) |}) in *.
      set (f := page_name (pages_crawled s + 1)) in *.
      destruct (save_content_frame d c f s) as (Hp & Hl & Hd & Hv & Hi).
      pose proof (save_content_inv d c f s I) as I2.
      set (s2 := save_content d c f s) in *.
      destruct (index_error d) as [e |].
      { injection E as <- <-.
        split; simpl; [by apply content_log_error_inv | done | done | lia | done]. }
      assert (content_spider_inv
                (mark_crawled (resp_url (resp d))
                   (append_index
                      (Entry {| entry_number := pages_crawled s2 + 1;
                                entry_title := title c;
                                entry_url := resp_url (resp d);
                                entry_file := f |}) s2))) as I4.
      { subst f. rewrite <- Hp.
        apply content_indexed_inv; [done | by rewrite Hv | lia]. }
      match type of E with
      | (if ?b then _ else _) = _ => destruct b
      end.
      * apply content_parse_loop in E as [-> O].
        split; simpl; [done | done | done | lia |].
        destruct o; [| done | done]. destruct O as (? & ? & _).
        simpl in *. by rewrite <- Hd.
      * injection E as <- <-. split; simpl; [done | done | done | lia | done].
    + injection E as <- <-. split; try done.
      by apply content_log_error_inv.
  - apply content_parse_loop in E as [-> O]. split; try done.
    destruct o; [| done | done]. by destruct O as (? & ? & _).
Qed.
End ContentResume.

Section ContentCrawlFacts.
Context {U : UrlLib}.
Import FastSpider.

Implicit Types (c : Engine.crawl state request generator).

Lemma content_resume_files (g : generator) (s s' : state)
    (o : outcome request generator) :
  content_spider_inv s -> files_ok s -> generator_disk_ok g ->
  resume g s = (s', o) ->
  files_ok s' /\
  match o with Yielded _ g' => generator_disk_ok g' | _ => True end.
Proof.
  intros I [Fd Fe] Hok E. destruct g as [d | rest]; simpl in E.
  - destruct Hok as [Hsave Hindex]. unfold parse in E.
    destruct (Z.leb_spec (page_limit s) (Z.of_nat (pages_crawled s))).
    { by injection E as <- <-. }
    case_bool_decide.
    { by injection E as <- <-. }
    unfold extract_content, save_content in E. rewrite Hsave, Hindex in E.
    destruct (resp_page (resp d)) as [p | e].
    + set (c := {| url := resp_url (resp d); crawl_time := now d;
                   title := page_title p;
                   meta_description := page_meta_description p;
                   headings := group_headings (page_headings p);
                   paragraphs := filter (fun t => nonempty t) (page_paragraphs p);
                   links := extract_links (resp_url (resp d)) (page_anchors p) |}) in *.
      set (f := page_name (pages_crawled s + 1)) in *.
      set (e := {| entry_number := pages_crawled (write_page f c s) + 1;
                   entry_title := title c; entry_url := resp_url (resp d);
                   entry_file := f |}) in *.
      set (s4 := mark_crawled (resp_url (resp d))
                   (append_index (Entry e) (write_page f c s))) in *.
      assert (files_ok s4) as F4.
      { split.
        - unfold s4. cbn [page_files pages_crawled mark_crawled append_index write_page].
          rewrite dom_insert_L, Fd.
          replace (pages_crawled s + 1) with (S (pages_crawled s)) by lia.
          rewrite seq_S, fmap_app, list_to_set_app_L. simpl.
          unfold f. replace (pages_crawled s + 1) with (S (pages_crawled s)) by lia.
          rewrite (right_id_L ∅ (∪)). apply (comm_L (∪)).
        - intros e'.
          change (index_entries s4) with (index_entries (append_index (Entry e) s)).
          unfold index_entries. cbn [index_file append_index].
          rewrite omap_app. simpl.
          intros [He' | ->%list_elem_of_singleton]%elem_of_app.
          + destruct (Fe e' He') as (c' & Hc' & Hu). exists c'. split; [| done].
            unfold s4. cbn [page_files mark_crawled append_index write_page].
            rewrite lookup_insert_ne; [done |].
            assert ((entry_number e', entry_file e')
                    ∈ (fun i => (i, page_name i)) <$> seq 1 (pages_crawled s)) as Hin.
            { rewrite <- (ok_entries s I).
              by apply (list_elem_of_fmap_2 (fun e => (entry_number e, entry_file e))). }
            apply list_elem_of_fmap in Hin as (i & [= _ ->] & Hi%elem_of_seq).
            unfold f. intros Hf%page_name_inj. lia.
          + exists c. unfold s4, e.
            cbn [page_files mark_crawled append_index write_page entry_file].
            by rewrite lookup_insert_eq. }
      match type of E with
      | (if ?b then _ else _) = _ => destruct b
      end.
      * apply content_parse_loop in E as [-> O]. split; [done |].
        destruct o; [| done | done]. by destruct O as (_ & _ & _ & ?).
      * by injection E as <- <-.
    + by injection E as <- <-.
  - apply content_parse_loop in E as [-> O]. split; [done |].
    destruct o; [| done | done]. by destruct O as (_ & _ & _ & ?).
Qed.

Lemma content_crawl_inv_start (url : string) (limit : Z) (task started : string) :
  content_crawl_inv url limit (crawl url limit task started).
Proof.
  split; simpl; try done.
  - apply content_init_inv.
  - by left.
  - by intros q ?%elem_of_nil.
Qed.

Lemma content_crawl_inv_exec (url : string) (limit : Z) e c c' :
  content_crawl_inv url limit c ->
  Engine.exec callback resume call_errback e c = Some c' ->
  content_crawl_inv url limit c'.
Proof.
  intros [I L D Rs Y] E. destruct e as [i r | i f | i | j]; simpl in E.
  - destruct (Engine.pending c !! i); simplify_eq/=. by split.
  - destruct (Engine.pending c !! i) as [q|]; simplify_eq/=.
    unfold call_errback. destruct (req_errback q); [| by split].
    split; simpl; try done. by apply content_log_error_inv.
  - destruct (Engine.close_reason c); [| done].
    destruct (Engine.pending c !! i); simplify_eq/=. by split.
  - destruct (Engine.running c !! j) as [g|]; simplify_eq/=.
    destruct (resume g (Engine.spider c)) as [s' o] eqn:Er.
    destruct (content_resume_resumed _ _ _ _ I Er) as [J Lm Dm Pg O].
    assert (Engine.close_reason c = None \/
            Engine.close_reason c = Some "Reached page limit" /\
            (page_limit (Engine.spider c) <= Z.of_nat (pages_crawled s'))%Z) as Rs'.
    { destruct Rs as [? | [? ?]]; [by left | right; split; [done | lia]]. }
    destruct o as [q g' | | reason]; simplify_eq/=.
    + split; simpl; [done | done | congruence | done |].
      intros q' [Hq' | ->%list_elem_of_singleton]%elem_of_app; [by apply Y |].
      destruct O as [O _]. by rewrite <- D.
    + split; simpl; [done | done | congruence | done | done].
    + destruct O as (-> & -> & Hfull). split; simpl; try done.
      right. destruct Rs as [-> | [-> _]]; by split.
Qed.

Lemma content_crawl_inv_run (url : string) (limit : Z) (task started : string)
    es c :
  run es (crawl url limit task started) = Some c ->
  content_crawl_inv url limit c.
Proof.
  intros E.
  eapply (run_invariant _ _ _ (content_crawl_inv url limit));
    [| apply content_crawl_inv_start | exact E].
  intros e c1 c2. apply content_crawl_inv_exec.
Qed.

Lemma content_files_inv_run (url : string) (limit : Z) (task started : string)
    es c :
  Forall event_disk_ok es ->
  run es (crawl url limit task started) = Some c ->
  content_files_inv c.
Proof.
  intros Hok E.
  cut (content_crawl_inv url limit c /\ content_files_inv c); [by intros [_ ?] |].
  eapply (run_invariant_on _ _ _ event_disk_ok
            (fun c => content_crawl_inv url limit c /\ content_files_inv c));
    [| exact Hok | | exact E].
  - clear. intros e c c' He [I [Ff Fg]] E.
    split; [by eapply content_crawl_inv_exec |].
    destruct e as [i r | i f | i | j]; simpl in E.
    + destruct (Engine.pending c !! i); simplify_eq/=. split; [done |].
      apply Forall_app. split; [done |]. by apply Forall_singleton.
    + destruct (Engine.pending c !! i) as [q|]; simplify_eq/=.
      split; [| done]. unfold call_errback. by destruct (req_errback q).
    + destruct (Engine.close_reason c); [| done].
      destruct (Engine.pending c !! i); by simplify_eq/=.
    + destruct (Engine.running c !! j) as [g|] eqn:Hg; simplify_eq/=.
      destruct (resume g (Engine.spider c)) as [s' o] eqn:Er.
      pose proof (Forall_lookup_1 _ _ _ _ Fg Hg) as Hgok.
      destruct (content_resume_files _ _ _ _ (cc_spider _ _ _ I) Ff Hgok Er)
        as [Ff' Ho].
      destruct o as [q g' | | reason]; simplify_eq/=; split; try done.
      * by apply Forall_insert.
      * by apply Forall_delete.
      * by apply Forall_delete.
  - split; [apply content_crawl_inv_start |]. split; [| constructor].
    split; [done |]. by intros e ?%elem_of_nil.
Qed.
End ContentCrawlFacts.

Section ContentClaims.
Context {U : UrlLib}.
Import FastSpider.

Implicit Types (c : Engine.crawl state request generator).

#[local] Instance page_name_Inj : Inj (=) (=) page_name.
Proof. intros a b. apply page_name_inj. Qed.

(** The close reason after an event: once set it stays, and it is set by
    an event that enters [parse] at the limit, and by no other. *)
Lemma close_reason_exec e c c' :
  Engine.exec callback resume call_errback e c = Some c' ->
  Engine.close_reason c'
  = match Engine.close_reason c with
    | Some r => Some r
    | None => if enters_at_limit e c then Some "Reached page limit" else None
    end.
Proof.
  intros E. destruct e as [i r | i f | i | j]; simpl in E.
  - destruct (Engine.pending c !! i); simplify_eq/=.
    by destruct (Engine.close_reason c).
  - destruct (Engine.pending c !! i); simplify_eq/=.
    by destruct (Engine.close_reason c).
  - destruct (Engine.close_reason c) eqn:R; [| done].
    destruct (Engine.pending c !! i); by simplify_eq/=.
  - cbn [enters_at_limit].
    destruct (Engine.running c !! j) as [g|]; simplify_eq/=.
    destruct (resume g (Engine.spider c)) as [s' o] eqn:Er.
    destruct g as [d | rest]; cbn [resume] in Er.
    + unfold parse in Er.
      destruct (page_limit (Engine.spider c)
                <=? Z.of_nat (pages_crawled (Engine.spider c)))%Z.
      { injection Er as <- <-. injection E as <-. simpl.
        by destruct (Engine.close_reason c). }
      assert (forall reason, o <> CloseSpider reason) as Hno.
      { intros reason ->. case_bool_decide; [done |].
        unfold extract_content in Er.
        destruct (resp_page (resp d)); [| done].
        destruct (index_error d); [done |].
        match type of Er with
        | (if ?b then _ else _) = _ => destruct b; [| done]
        end.
        by apply content_parse_loop in Er as [_ ?]. }
      destruct o as [q g' | | reason]; [| | by destruct (Hno reason)];
        injection E as <-; simpl; by destruct (Engine.close_reason c).
    + apply content_parse_loop in Er as [-> O].
      destruct o as [q g' | | reason]; [| | done];
        injection E as <-; simpl; by destruct (Engine.close_reason c).
Qed.

Lemma close_reason_run es c c' :
  run es c = Some c' ->
  Engine.close_reason c'
  = match Engine.close_reason c with
    | Some r => Some r
    | None => if hits_limit es c then Some "Reached page limit" else None
    end.
Proof.
  revert c. induction es as [|e es IH]; intros c E.
  - injection E as <-. by destruct (Engine.close_reason c).
  - unfold run in E. cbn [Engine.run] in E. cbn [hits_limit].
    destruct (Engine.exec callback resume call_errback e c) as [c1|] eqn:E1;
      [| done].
    cbn [mbind option_bind] in E. rewrite (IH c1 E).
    rewrite (close_reason_exec e c c1 E1).
    destruct (Engine.close_reason c); [done |].
    by destruct (enters_at_limit e c).
Qed.

(** C6, as the code has it.  Under a page limit that is not negative the
    page counter never exceeds it.  The close reason is ['Reached page
    limit'] exactly when some event of the crawl enters [parse] on a new
    response with the counter at the limit, and the counter equals the
    limit then; in every other crawl it is the engine's ['finished']. *)
Theorem content_page_limit (url : string) (limit : Z) (task started : string)
    es c :
  (0 <= limit)%Z ->
  run es (crawl url limit task started) = Some c ->
  (Z.of_nat (pages_crawled (Engine.spider c)) <= limit)%Z /\
  (Engine.reason c = "Reached page limit" <->
   hits_limit es (crawl url limit task started) = true) /\
  (Engine.reason c = "Reached page limit" ->
   Z.of_nat (pages_crawled (Engine.spider c)) = limit) /\
  (Engine.reason c = "Reached page limit" \/ Engine.reason c = "finished").
Proof.
  intros Hl E. pose proof (content_crawl_inv_run _ _ _ _ _ _ E) as I.
  pose proof (ok_bound _ (cc_spider _ _ _ I)) as Hb.
  rewrite (cc_limit _ _ _ I) in Hb.
  assert (Z.of_nat (pages_crawled (Engine.spider c)) <= limit)%Z as Hle by lia.
  pose proof (close_reason_run _ _ _ E) as Hr. cbn in Hr.
  unfold Engine.reason. rewrite Hr.
  destruct (hits_limit es (crawl url limit task started)) eqn:Hh; cbn.
  - destruct (cc_reason _ _ _ I) as [Hn | [_ Hfull]];
      [rewrite Hr in Hn; done |].
    split_and!; [done | done | intros _; lia | by left].
  - split_and!; [done | split; done | done | by right].
Qed.


(** C4, as the code has it.  When the generator of a response whose
    content cannot be extracted is run (below the page limit, for a URL
    not visited yet), the failure is written to the error log and nothing
    else changes: no page file, no index entry, the counter and the
    visited set as before, so the URL is still not visited; nothing is
    yielded and the crawl is not asked to close. *)
Theorem content_extraction_failure c (j : nat) (d : delivery) (e : string) :
  Engine.running c !! j = Some (Fresh d) ->
  resp_page (resp d) = inr e ->
  (Z.of_nat (pages_crawled (Engine.spider c)) < page_limit (Engine.spider c))%Z ->
  resp_url (resp d) ∉ visited_urls (Engine.spider c) ->
  exists c',
    Engine.exec callback resume call_errback (Engine.Resume j) c = Some c' /\
    error_file (Engine.spider c')
    = error_file (Engine.spider c)
      ++ ["Content extraction error on " +:+ resp_url (resp d) +:+ ": " +:+ e] /\
    page_files (Engine.spider c') = page_files (Engine.spider c) /\
    index_file (Engine.spider c') = index_file (Engine.spider c) /\
    pages_crawled (Engine.spider c') = pages_crawled (Engine.spider c) /\
    visited_urls (Engine.spider c') = visited_urls (Engine.spider c) /\
    (resp_url (resp d) ∉ visited_urls (Engine.spider c')) /\
    Engine.pending c' = Engine.pending c /\
    Engine.close_reason c' = Engine.close_reason c.
Proof.
  intros Hg He Hroom Hnew. simpl. rewrite Hg. simpl. unfold parse.
  destruct (Z.leb_spec (page_limit (Engine.spider c))
              (Z.of_nat (pages_crawled (Engine.spider c)))); [lia |].
  rewrite bool_decide_eq_false_2 by done.
  unfold extract_content. rewrite He.
  eexists. split; [reflexivity |]. by simpl.
Qed.
End ContentClaims.

(** ** Content mode: worked crawls *)
Section ContentWorked.
Import FastSpider WorkedContent WorkedLimit.
Existing Instance SimpleUrl.lib.

(** With a limit of two pages the start page and the first linked page
    fill it; the response of the second linked page then enters [parse] at
    the limit. *)
Lemma content_page_limit_witness :
  exists c,
    run (fork_schedule ++ [Engine.Resume 0]) (crawl home 2 "t1" "09:00")
    = Some c /\
    hits_limit (fork_schedule ++ [Engine.Resume 0]) (crawl home 2 "t1" "09:00")
    = true /\
    (Z.of_nat (pages_crawled (Engine.spider c)) <= 2)%Z /\
    (Engine.reason c = "Reached page limit" <->
     hits_limit (fork_schedule ++ [Engine.Resume 0])
                (crawl home 2 "t1" "09:00") = true) /\
    (Engine.reason c = "Reached page limit" ->
     Z.of_nat (pages_crawled (Engine.spider c)) = 2%Z) /\
    (Engine.reason c = "Reached page limit" \/ Engine.reason c = "finished").
Proof.
  eexists. split; [vm_compute; reflexivity |].
  split; [vm_compute; reflexivity |].
  apply (content_page_limit home 2 "t1" "09:00"
           (fork_schedule ++ [Engine.Resume 0]));
    [lia | vm_compute; reflexivity].
Defined.

(** C6, as stated, fails with a limit of one page: the start page is
    processed, the counter reaches the limit, nothing is yielded, and the
    crawl ends with the engine's reason ['finished']. *)
Lemma content_page_limit_counterexample :
  exists c,
    run only_page_schedule (crawl home 1 "t1" "09:00") = Some c /\
    Engine.idle c = true /\
    Z.of_nat (pages_crawled (Engine.spider c)) = page_limit (Engine.spider c) /\
    Engine.reason c = "finished" /\
    Engine.reason c <> "Reached page limit" /\
    last (index_file (close "09:01" None c)) = Some (Footer "09:01" 1 "finished").
Proof.
  eexists. split; [vm_compute; reflexivity |].
  split_and!; [reflexivity | reflexivity | reflexivity | discriminate | reflexivity].
Qed.

Lemma two_pages_disk_ok : Forall event_disk_ok two_pages_schedule.
Proof. repeat constructor. Defined.


Lemma content_extraction_failure_witness :
  exists c,
    run [Engine.Response 0 (deliver home (inr "Response content isn't text"))]
        (crawl home 1 "t1" "09:00") = Some c /\
    exists c',
      Engine.exec callback resume call_errback (Engine.Resume 0) c = Some c' /\
      error_file (Engine.spider c')
      = error_file (Engine.spider c)
        ++ ["Content extraction error on " +:+ home +:+ ": "
            +:+ "Response content isn't text"] /\
      page_files (Engine.spider c') = page_files (Engine.spider c) /\
      index_file (Engine.spider c') = index_file (Engine.spider c) /\
      pages_crawled (Engine.spider c') = pages_crawled (Engine.spider c) /\
      visited_urls (Engine.spider c') = visited_urls (Engine.spider c) /\
      (home ∉ visited_urls (Engine.spider c')) /\
      Engine.pending c' = Engine.pending c /\
      Engine.close_reason c' = Engine.close_reason c.
Proof.
  eexists. split; [vm_compute; reflexivity |].
  apply (content_extraction_failure _ 0
           (deliver home (inr "Response content isn't text"))
           "Response content isn't text");
    [reflexivity | reflexivity | reflexivity |].
  apply (bool_decide_unpack _). vm_compute. exact I.
Defined.

(** C4, as stated, fails on an unreadable start page: the failure is
    logged and the crawl runs dry without a page, but the page's URL is
    not in the visited set. *)
Lemma content_extraction_counterexample :
  exists c,
    run unreadable_schedule (crawl home 1 "t1" "09:00") = Some c /\
    Engine.idle c = true /\
    error_file (Engine.spider c)
    = ["Content extraction error on https://example.com: Response content isn't text"] /\
    page_files (Engine.spider c) = ∅ /\
    (home ∉ visited_urls (Engine.spider c)).
Proof.
  eexists. split; [vm_compute; reflexivity |].
  split_and!; [reflexivity | reflexivity | reflexivity |].
  apply (bool_decide_unpack _). vm_compute. exact I.
Qed.

(** C5, what the code does in content mode.  The start page of
    example.com links to https://notexample.com/, and the spider yields a
    request for that URL: line 176 tests whether the allowed domain occurs
    in the host, not whether it equals it. *)
Theorem content_host_lookalike :
  exists c q,
    run lookalike_schedule (crawl home 5 "t1" "09:00") = Some c /\
    q ∈ Engine.yielded c /\
    allowed_domain (Engine.spider c) = "example.com" /\
    req_url q = "https://notexample.com/" /\
    netloc (req_url q) = "notexample.com" /\
    str_in (allowed_domain (Engine.spider c)) (netloc (req_url q)) = true /\
    netloc (req_url q) <> allowed_domain (Engine.spider c).
Proof.
  eexists. exists {| req_url := "https://notexample.com/"; req_errback := true |}.
  split; [vm_compute; reflexivity |].
  split_and!; [constructor | reflexivity | reflexivity | reflexivity |
               reflexivity | discriminate].
Qed.
End ContentWorked.

(** * Further facts *)

(** ** Dicts and sorting *)
Section MoreDictFacts.
Context {K V : Type} `{EqDecision K}.
Implicit Types (d : dict K V) (k : K) (v : V).

Lemma dict_get_set k k' v d :
  dict_get k' (dict_set k v d) = if decide (k' = k) then Some v else dict_get k' d.
Proof.
  induction d as [|[k0 v0] d IH]; simpl; [done |].
  destruct (decide (k = k0)) as [-> | Hk]; simpl.
  - destruct (decide (k' = k0)); [done | done].
  - rewrite IH. destruct (decide (k' = k0)) as [-> | ?]; [| done].
    by rewrite decide_False by congruence.
Qed.

Lemma dict_keys_set k v d :
  dict_keys (dict_set k v d)
  = if decide (k ∈ dict_keys d) then dict_keys d else dict_keys d ++ [k].
Proof.
  unfold dict_keys. induction d as [|[k0 v0] d IH].
  - rewrite decide_False by apply not_elem_of_nil. done.
  - cbn [dict_set]. destruct (decide (k = k0)) as [-> | Hk]; csimpl.
    + rewrite decide_True; [done | left].
    + rewrite IH. destruct (decide (k ∈ d.*1)) as [Hin | Hout].
      * rewrite decide_True; [done | by right].
      * rewrite decide_False; [done |].
        intros [? | ?]%elem_of_cons; congruence.
Qed.

Lemma dict_set_values_Forall (P : V -> Prop) k v d :
  P v -> Forall P (dict_values d) -> Forall P (dict_values (dict_set k v d)).
Proof.
  unfold dict_values. intros Hv. induction d as [|[k0 v0] d IH]; csimpl.
  - intros _. by repeat constructor.
  - intros [H0 Hd]%Forall_cons. case_decide; csimpl; constructor; auto.
Qed.
End MoreDictFacts.

Lemma filter_ext_elem {A} (P Q : A -> Prop) `{!forall x, Decision (P x)}
    `{!forall x, Decision (Q x)} (l : list A) :
  (forall x, x ∈ l -> P x <-> Q x) -> filter P l = filter Q l.
Proof.
  induction l as [|x l IH]; intros E; [done |].
  rewrite !filter_cons. rewrite IH by (intros y Hy; apply E; by right).
  destruct (decide (P x)) as [HP | HP], (decide (Q x)) as [HQ | HQ]; try done.
  - exfalso. apply HQ, E; [left | done].
  - exfalso. apply HP, E; [left | done].
Qed.

(** [d[k] += 1] adds one to the count read under [k] and leaves the other
    counts as they are. *)
Lemma dict_get0_incr {K} `{EqDecision K} (k k' : K) (d : dict K nat) :
  dict_get0 k' (dict_incr k d)
  = dict_get0 k' d + (if decide (k' = k) then 1 else 0).
Proof.
  unfold dict_get0, dict_incr. rewrite dict_get_set.
  destruct (decide (k' = k)) as [-> | ?]; simpl; lia.
Qed.

(** ** Census mode: the counters *)
Section CensusBookFacts.
Context {U : UrlLib}.
Import CountSpider.

Implicit Types (c : Engine.crawl state request generator).

Lemma record_url_path (u : string) (level : nat) (s : state) :
  spider_inv s -> path_inv s -> u ∉ found_urls s ->
  path_inv (record_url u level s).
Proof.
  intros I B Hnew.
  assert (u ∉ dict_keys (url_index s)) as Hkey.
  { rewrite (inv_found s I) in Hnew. by rewrite elem_of_list_to_set in Hnew. }
  split; cbn [url_counter found_urls url_index record_url].
  - rewrite dict_incr_sum, (bk_paths s B).
    rewrite size_union by (by apply disjoint_singleton_r).
    rewrite size_singleton. lia.
  - unfold dict_incr. rewrite dict_keys_set.
    case_decide; [apply (bk_path_keys s B) |].
    apply NoDup_app. split_and!; [apply (bk_path_keys s B) | | apply NoDup_singleton].
    by intros k Hk ->%list_elem_of_singleton.
  - intros p. rewrite dict_get0_incr, (bk_path_counts s B p). unfold urls_at_path.
    cbn [url_index record_url].
    rewrite (dict_set_fresh u (current_index s)) by done. unfold dict_keys.
    rewrite fmap_app, filter_app, length_app. csimpl.
    rewrite filter_cons, filter_nil.
    destruct (decide (p = url_path u)) as [-> | Hne].
    + by rewrite decide_True by done.
    + by rewrite decide_False by congruence.
Qed.

(** The levels of the URLs recorded before are not touched. *)
Lemma record_url_levels (u : string) (level : nat) (s : state) (k : string) :
  spider_inv s -> u ∉ found_urls s -> k ∈ dict_keys (url_index s) ->
  dict_get0 k (dict_set u level (url_levels s)) = dict_get0 k (url_levels s).
Proof.
  intros I Hnew Hk. unfold dict_get0. rewrite dict_get_set.
  rewrite decide_False; [done |]. intros ->. apply Hnew.
  rewrite (inv_found s I). by apply elem_of_list_to_set.
Qed.

Lemma record_url_book (u : string) (level : nat) (s : state) :
  spider_inv s -> book_inv s -> u ∉ found_urls s ->
  level <= S (max_level_found s) ->
  book_inv (record_url u level s).
Proof.
  intros I B Hnew Hlevel.
  assert (u ∉ dict_keys (url_index s)) as Hkey.
  { rewrite (inv_found s I) in Hnew. by rewrite elem_of_list_to_set in Hnew. }
  split; cbn [level_counts max_level_found url_index url_levels record_url].
  - unfold dict_incr. rewrite dict_keys_set, (bk_keys s B).
    destruct (decide (level <= max_level_found s)) as [Hle | Hgt].
    + rewrite decide_True by (apply elem_of_seq; lia).
      by rewrite Nat.max_l by lia.
    + rewrite decide_False by (rewrite elem_of_seq; lia).
      assert (level = S (max_level_found s)) as -> by lia.
      rewrite Nat.max_r by lia. by rewrite (seq_S (S _)).
  - apply dict_set_values_Forall; [lia | apply (bk_positive s B)].
  - intros k. rewrite (dict_set_fresh u (current_index s)) by done.
    unfold dict_keys.
    rewrite fmap_app. csimpl.
    intros [Hk | ->%list_elem_of_singleton]%elem_of_app.
    + rewrite (record_url_levels u level s k I Hnew Hk).
      pose proof (bk_levels s B k Hk). lia.
    + unfold dict_get0. rewrite dict_get_set, decide_True by done. simpl. lia.
Qed.

Lemma record_url_counted (base : nat -> nat) (u : string) (level : nat)
    (s : state) :
  spider_inv s -> counted base s -> u ∉ found_urls s ->
  counted base (record_url u level s).
Proof.
  intros I B Hnew L.
  assert (u ∉ dict_keys (url_index s)) as Hkey.
  { rewrite (inv_found s I) in Hnew. by rewrite elem_of_list_to_set in Hnew. }
  unfold urls_at_level. cbn [level_counts url_index url_levels record_url].
  rewrite dict_get0_incr.
  rewrite (dict_set_fresh u (current_index s)) by done. unfold dict_keys.
  rewrite fmap_app, filter_app, length_app. csimpl.
  rewrite (filter_ext_elem _ (fun k => dict_get0 k (url_levels s) = L))
    by (intros k Hk; by rewrite (record_url_levels u level s k I Hnew Hk)).
  pose proof (B L) as HL. unfold urls_at_level, dict_keys in HL.
  rewrite filter_cons, filter_nil.
  assert (dict_get0 u (dict_set u level (url_levels s)) = level) as ->.
  { unfold dict_get0. rewrite dict_get_set. by rewrite decide_True. }
  destruct (decide (L = level)) as [-> | Hne].
  - rewrite decide_True by done. simpl. lia.
  - rewrite decide_False by congruence. simpl. lia.
Qed.

Lemma log_error_book (m : string) (s : state) :
  book_inv s -> book_inv (log_error m s).
Proof. intros B. split; apply B. Qed.

Lemma set_stopped_book (m : string) (s : state) :
  book_inv s -> book_inv (set_stopped_reason m s).
Proof. intros B. split; apply B. Qed.
End CensusBookFacts.

Section CensusLevelFacts.
Context {U : UrlLib}.
Import CountSpider.

Implicit Types (c : Engine.crawl state request generator).

Lemma parse_loop_book (r : response) (next_level : nat) (hrefs : list string)
    (s s' : state) (o : outcome request generator) :
  spider_inv s -> book_inv s -> next_level <= S (max_level_found s) ->
  parse_loop r next_level hrefs s = (s', o) -> book_resumed s s' o.
Proof.
  revert s. induction hrefs as [|href rest IH]; intros s I B Hl E; simpl in E.
  - injection E as <- <-. by split_and!.
  - set (url := urljoin (resp_url r) href) in *.
    destruct (bool_decide (netloc url = allowed_domain s)
              && bool_decide (url ∉ found_urls s)
              && bool_decide (size (found_urls s) < MAX_PAGES)) eqn:Hc;
      [| by apply IH].
    apply andb_prop in Hc as [[Hd Hn]%andb_prop Hlt].
    apply bool_decide_eq_true in Hd, Hn, Hlt.
    pose proof (record_url_inv url next_level s I Hn Hlt) as I'.
    pose proof (record_url_book url next_level s I B Hn Hl) as B'.
    assert (max_level_found s <= max_level_found (record_url url next_level s)
            /\ next_level <= max_level_found (record_url url next_level s))
      as [Hm Hn'] by (cbn [max_level_found record_url]; lia).
    case_bool_decide.
    + injection E as <- <-. split_and!; try done.
    + destruct (IH _ I' B' ltac:(lia) E) as (B2 & Hm2 & O).
      split_and!; [done | lia | done].
Qed.

Lemma resume_book (g : generator) (s s' : state)
    (o : outcome request generator) :
  spider_inv s -> book_inv s -> generator_level g <= max_level_found s ->
  resume g s = (s', o) -> book_resumed s s' o.
Proof.
  intros I B Hg E.
  destruct g as [r level | r next_level rest]; cbn [generator_level resume] in *;
    [| apply (parse_loop_book r next_level rest s s' o I B); [lia | done]].
  unfold parse in E. case_bool_decide.
  - destruct (negb (truthy (stopped_reason s))); injection E as <- <-;
      split_and!; try done. by apply set_stopped_book.
  - remember (if bool_decide (resp_url r ∉ found_urls s)
              then record_url (resp_url r) level s else s) as s1 eqn:Es1.
    assert (spider_inv s1 /\ book_inv s1 /\
            max_level_found s1 = max_level_found s) as (I1 & B1 & M1).
    { rewrite Es1. clear E Es1. case_bool_decide; [| done].
      split_and!.
      - apply record_url_inv; [done | done | lia].
      - apply record_url_book; [done | done | done | lia].
      - cbn [max_level_found record_url]. lia. }
    clear Es1. case_bool_decide.
    + destruct (resp_hrefs r) as [hrefs | e].
      * assert (level + 1 <= S (max_level_found s1)) as Hnext by lia.
        destruct (parse_loop_book _ _ _ _ _ _ I1 B1 Hnext E) as (B2 & Hm2 & O).
        split_and!; [done | lia | done].
      * injection E as <- <-. split_and!; [by apply log_error_book | simpl; lia | done].
    + injection E as <- <-. split_and!; [done | lia | done].
Qed.

Lemma levels_inv_exec e c c' :
  spider_inv (Engine.spider c) -> levels_inv c ->
  Engine.exec callback resume call_errback e c = Some c' ->
  levels_inv c'.
Proof.
  intros Ic [B P R] E. destruct e as [i r | i f | i | j]; simpl in E.
  - destruct (Engine.pending c !! i) as [q|] eqn:Hq; simplify_eq/=.
    split; simpl; [done | by apply Forall_delete |].
    apply Forall_app. split; [done |]. apply Forall_singleton. simpl.
    by apply (Forall_lookup_1 _ _ _ _ P Hq).
  - destruct (Engine.pending c !! i) as [q|]; simplify_eq/=.
    assert (book_inv (call_errback q f (Engine.spider c)) /\
            max_level_found (call_errback q f (Engine.spider c))
            = max_level_found (Engine.spider c)) as [B' M'].
    { unfold call_errback. destruct (req_errback q); [| done].
      split; [by apply log_error_book | done]. }
    split; simpl; [done | rewrite M'; by apply Forall_delete | by rewrite M'].
  - destruct (Engine.close_reason c); [| done].
    destruct (Engine.pending c !! i); simplify_eq/=.
    split; simpl; [done | by apply Forall_delete | done].
  - destruct (Engine.running c !! j) as [g|] eqn:Hg; simplify_eq/=.
    destruct (resume g (Engine.spider c)) as [s' o] eqn:Er.
    pose proof (Forall_lookup_1 _ _ _ _ R Hg) as Hlevel. simpl in Hlevel.
    destruct (resume_book _ _ _ _ Ic B Hlevel Er) as (B' & Hm & O).
    assert (Forall (fun q => req_level q <= max_level_found s') (Engine.pending c)) as P'.
    { eapply Forall_impl; [exact P |]. simpl. intros q ?. lia. }
    assert (Forall (fun g => generator_level g <= max_level_found s') (Engine.running c)) as R'.
    { eapply Forall_impl; [exact R |]. simpl. intros g0 ?. lia. }
    destruct o as [q g' | | reason]; simplify_eq/=.
    + destruct O as [Hq Hg']. split; simpl; [done | | by apply Forall_insert].
      apply Forall_app. split; [done |]. by apply Forall_singleton.
    + split; simpl; [done | done | by apply Forall_delete].
    + split; simpl; [done | done | by apply Forall_delete].
Qed.

Lemma levels_inv_run es c c' :
  spider_inv (Engine.spider c) -> levels_inv c -> run es c = Some c' ->
  spider_inv (Engine.spider c') /\ levels_inv c'.
Proof.
  intros I L E.
  apply (run_invariant callback resume call_errback
           (fun c => spider_inv (Engine.spider c) /\ levels_inv c))
    with (es := es) (c := c); [| done | exact E].
  intros e c1 c2 [I1 L1] E1. split.
  - by apply (run_spider_inv [e] c1 c2 I1), census_run_cons with (c' := c2).
  - by eapply levels_inv_exec.
Qed.
End CensusLevelFacts.

(** ** Census mode: what is found stays as it is *)
Section CensusKeptFacts.
Context {U : UrlLib}.
Import CountSpider.

Implicit Types (c : Engine.crawl state request generator).

Lemma census_kept_refl (s : state) : census_kept s s.
Proof. by split_and!. Qed.

Lemma census_kept_trans (s1 s2 s3 : state) :
  census_kept s1 s2 -> census_kept s2 s3 -> census_kept s1 s3.
Proof.
  intros (F1 & P1 & L1) (F2 & P2 & L2). split_and!.
  - by transitivity (found_urls s2).
  - by transitivity (url_index s2).
  - intros u Hu. rewrite L2 by (by apply F1). by apply L1.
Qed.

Lemma record_url_kept (u : string) (level : nat) (s : state) :
  spider_inv s -> u ∉ found_urls s -> census_kept s (record_url u level s).
Proof.
  intros I Hnew.
  assert (u ∉ dict_keys (url_index s)) as Hkey.
  { rewrite (inv_found s I) in Hnew. by rewrite elem_of_list_to_set in Hnew. }
  split_and!; cbn [record_url found_urls url_index url_levels].
  - apply union_subseteq_l.
  - rewrite (dict_set_fresh u (current_index s)) by done. by apply prefix_app_r.
  - intros u' Hu'. unfold dict_get0. rewrite dict_get_set.
    destruct (decide (u' = u)) as [-> | _]; [done | reflexivity].
Qed.

Lemma exec_kept e c c' :
  spider_inv (Engine.spider c) ->
  Engine.exec callback resume call_errback e c = Some c' ->
  census_kept (Engine.spider c) (Engine.spider c').
Proof.
  intros I E. destruct (exec_spider e c c' E) as [-> | [[m ->] | (g & o & Er)]].
  - apply census_kept_refl.
  - by split_and!.
  - apply (resume_preserves (census_kept (Engine.spider c)))
      with (g := g) (s := Engine.spider c) (o := o);
      [| | | done | apply census_kept_refl | done].
    + intros u level s Is K Hnew _.
      apply (census_kept_trans _ _ _ K). by apply record_url_kept.
    + intros m s K. apply (census_kept_trans _ _ _ K). by split_and!.
    + intros m s K. apply (census_kept_trans _ _ _ K). by split_and!.
Qed.

Lemma run_kept es c c' :
  spider_inv (Engine.spider c) -> run es c = Some c' ->
  spider_inv (Engine.spider c') /\
  census_kept (Engine.spider c) (Engine.spider c').
Proof.
  intros I E.
  apply (run_preserves (census_kept (Engine.spider c)))
    with (es := es) (c := c); [| | | done | apply census_kept_refl | done].
  - intros u level s Is K Hnew _.
    apply (census_kept_trans _ _ _ K). by apply record_url_kept.
  - intros m s K. apply (census_kept_trans _ _ _ K). by split_and!.
  - intros m s K. apply (census_kept_trans _ _ _ K). by split_and!.
Qed.

(** With the indices in order, the list is already sorted. *)
Lemma ordered_unsorted (s : state) :
  spider_inv s ->
  ordered s
  = (fun '(url, idx) =>
       {| info_index := idx; info_url := url;
          info_level := dict_get0 url (url_levels s) |}) <$> url_index s.
Proof.
  intros I. unfold ordered.
  set (l := (fun '(url, idx) => (idx, url, dict_get0 url (url_levels s)))
            <$> url_index s).
  assert ((fun x : nat * string * nat => x.1.1) <$> l = dict_values (url_index s)) as K.
  { subst l. unfold dict_values. rewrite <- list_fmap_compose.
    apply list_fmap_ext. by intros _ [u i] _. }
  assert (length l = length (url_index s)) as L by (subst l; apply length_fmap).
  rewrite (sorted_by_seq _ l 1) by (rewrite K, L; apply (inv_index s I)).
  subst l. rewrite <- list_fmap_compose. apply list_fmap_ext. by intros _ [u i] _.
Qed.

Lemma ordered_kept (s s' : state) :
  spider_inv s -> spider_inv s' -> census_kept s s' ->
  ordered s `prefix_of` ordered s'.
Proof.
  intros I I' (_ & [k Hk] & L). rewrite !ordered_unsorted by done.
  rewrite Hk, fmap_app. 
  assert ((fun '(url, idx) =>
             {| info_index := idx; info_url := url;
                info_level := dict_get0 url (url_levels s') |}) <$> url_index s
          = (fun '(url, idx) =>
             {| info_index := idx; info_url := url;
                info_level := dict_get0 url (url_levels s) |}) <$> url_index s)
    as ->; [| by apply prefix_app_r].
  apply list_fmap_ext. intros _ [u i] Hin%list_elem_of_lookup_2.
  rewrite L; [done |]. rewrite (inv_found s I), elem_of_list_to_set.
  unfold dict_keys. by apply (list_elem_of_fmap_2 fst) in Hin.
Qed.
End CensusKeptFacts.

Section CensusFrozenFacts.
Context {U : UrlLib}.
Import CountSpider.

Implicit Types (c : Engine.crawl state request generator).

Lemma census_frozen_refl (s : state) : census_frozen s s.
Proof. by split_and!. Qed.

Lemma parse_loop_frozen (r : response) (next_level : nat)
    (hrefs : list string) (s : state) :
  MAX_PAGES <= size (found_urls s) ->
  parse_loop r next_level hrefs s = (s, Exhausted).
Proof.
  intros Hfull. induction hrefs as [|href rest IH]; [done |].
  cbn [parse_loop].
  rewrite (bool_decide_eq_false_2 (size (found_urls s) < MAX_PAGES)) by lia.
  by rewrite andb_false_r.
Qed.

Lemma resume_frozen (g : generator) (s s' : state)
    (o : outcome request generator) :
  MAX_PAGES <= size (found_urls s) -> resume g s = (s', o) ->
  census_frozen s s' /\ (forall q g', o <> Yielded q g').
Proof.
  intros Hfull E. destruct g as [r level | r next_level rest]; cbn [resume] in E.
  - unfold parse in E. rewrite bool_decide_eq_true_2 in E by done.
    destruct (negb (truthy (stopped_reason s))); injection E as <- <-;
      split; try done; by split_and!.
  - rewrite parse_loop_frozen in E by done. injection E as <- <-.
    split; [apply census_frozen_refl | done].
Qed.

Lemma exec_frozen e c c' :
  MAX_PAGES <= size (found_urls (Engine.spider c)) ->
  Engine.exec callback resume call_errback e c = Some c' ->
  census_frozen (Engine.spider c) (Engine.spider c') /\
  Engine.yielded c' = Engine.yielded c.
Proof.
  intros Hfull E. destruct e as [i r | i f | i | j]; simpl in E.
  - destruct (Engine.pending c !! i); simplify_eq/=. by split_and!.
  - destruct (Engine.pending c !! i) as [q|]; simplify_eq/=.
    unfold call_errback. destruct (req_errback q); by split_and!.
  - destruct (Engine.close_reason c); [| done].
    destruct (Engine.pending c !! i); simplify_eq/=. by split_and!.
  - destruct (Engine.running c !! j) as [g|]; simplify_eq/=.
    destruct (resume g (Engine.spider c)) as [s' o] eqn:Er.
    destruct (resume_frozen _ _ _ _ Hfull Er) as [K N].
    destruct o as [q g' | | reason]; simplify_eq/=; [by destruct (N q g') | |];
      by split.
Qed.
End CensusFrozenFacts.

Section CensusTopFacts.
Context {U : UrlLib}.
Import CountSpider.

Implicit Types (c : Engine.crawl state request generator).

(** A request yielded by this event is for a URL found, listed under the
    level the request carries. *)
Lemma exec_yield_level e c c' q :
  Engine.exec callback resume call_errback e c = Some c' ->
  q ∈ Engine.yielded c' ->
  q ∈ Engine.yielded c \/
  (req_url q ∈ found_urls (Engine.spider c') /\
   dict_get0 (req_url q) (url_levels (Engine.spider c')) = req_level q).
Proof.
  intros E. destruct e as [i r | i f | i | j]; simpl in E.
  - destruct (Engine.pending c !! i); simplify_eq/=. by left.
  - destruct (Engine.pending c !! i); simplify_eq/=. by left.
  - destruct (Engine.close_reason c); [| done].
    destruct (Engine.pending c !! i); simplify_eq/=. by left.
  - destruct (Engine.running c !! j) as [g|]; simplify_eq/=.
    destruct (resume g (Engine.spider c)) as [s' o] eqn:Er.
    destruct (resume_resumed _ _ _ _ Er) as [_ _ _ O].
    destruct o as [q' g' | | reason]; simplify_eq/=; [| by left | by left].
    intros [Hq | ->%list_elem_of_singleton]%elem_of_app; [by left | right].
    destruct O as (_ & _ & _ & s0 & _ & _ & ->).
    cbn [url_levels found_urls record_url]. split; [set_solver |].
    unfold dict_get0. by rewrite dict_get_set, decide_True.
Qed.
End CensusTopFacts.

(** ** Census mode: further properties *)
Section CensusExtras.
Context {U : UrlLib}.
Import CountSpider.

Implicit Types (c : Engine.crawl state request generator).

(** X1. The level counter stays contiguous.  For a spider whose counter
    lists the levels 0, 1, ..., [max_level_found] in this order, each with a
    positive count, whose recorded URLs have no higher level, and whose
    pending requests and running callbacks are for no higher level either,
    this is still so after any events: a level is never skipped. *)
Theorem census_levels_contiguous c0 es c :
  spider_inv (Engine.spider c0) -> levels_inv c0 -> run es c0 = Some c ->
  dict_keys (level_counts (Engine.spider c))
  = seq 0 (S (max_level_found (Engine.spider c))) /\
  Forall (fun n => 0 < n) (dict_values (level_counts (Engine.spider c))) /\
  (forall u, u ∈ found_urls (Engine.spider c) ->
             dict_get0 u (url_levels (Engine.spider c))
             <= max_level_found (Engine.spider c)).
Proof.
  intros I L E. destruct (levels_inv_run es c0 c I L E) as [I' [[K P M] _ _]].
  split_and!; [done | done |].
  intros u Hu. apply M.
  by rewrite (inv_found _ I'), elem_of_list_to_set in Hu.
Qed.

(** X2. [level_counts] counts the recorded URLs level by level.  When the
    count of each level [L] is the number of recorded URLs of level [L] plus
    some [base L], it is so after any events, with the same [base]: every
    recording adds one to the count of the level recorded, and nothing else
    writes the counter. *)
Theorem census_level_counts (base : nat -> nat) c0 es c :
  spider_inv (Engine.spider c0) ->
  (forall L, dict_get0 L (level_counts (Engine.spider c0))
             = urls_at_level (Engine.spider c0) L + base L) ->
  run es c0 = Some c ->
  forall L, dict_get0 L (level_counts (Engine.spider c))
            = urls_at_level (Engine.spider c) L + base L.
Proof.
  intros I B E.
  apply (run_preserves (counted base)) with (es := es) (c := c0);
    [| | | done | done | done].
  - intros u level s Is K Hnew _. by apply record_url_counted.
  - intros m s K. exact K.
  - intros m s K. exact K.
Qed.

(** X3. [url_counter] counts the recorded URLs path by path.  When it has
    each path once, with the number of recorded URLs of that path, and its
    counts add up to the number of found URLs, it is so after any events. *)
Theorem census_path_counts c0 es c :
  spider_inv (Engine.spider c0) -> path_inv (Engine.spider c0) ->
  run es c0 = Some c ->
  NoDup (dict_keys (url_counter (Engine.spider c))) /\
  (forall p, dict_get0 p (url_counter (Engine.spider c))
             = urls_at_path (Engine.spider c) p) /\
  sum_list (dict_values (url_counter (Engine.spider c)))
  = size (found_urls (Engine.spider c)).
Proof.
  intros I B E.
  destruct (run_preserves path_inv) with (es := es) (c := c0) (c' := c)
    as [_ [S N C]]; [| | | done | done | done |].
  - intros u level s Is K Hnew _. by apply record_url_path.
  - intros m s K. split; apply K.
  - intros m s K. split; apply K.
  - by split_and!.
Qed.

(** X5. [spider_closed] acts once: whatever the first call did, a second
    call changes nothing and publishes nothing. *)
Theorem spider_closed_once (reason reason' : string) (s : state) :
  spider_closed reason' (spider_closed reason s).1
  = ((spider_closed reason s).1, AlreadyClosed).
Proof.
  unfold spider_closed at 2 3. destruct (finished s) eqn:F; simpl.
  - unfold spider_closed. by rewrite F.
  - reflexivity.
Qed.

(** X6. The ordered list of URLs only grows at its end: whatever happens
    later in a crawl, the entries listed so far keep their index, URL and
    level, and new entries come after them. *)
Theorem census_ordered_grows c0 es c :
  spider_inv (Engine.spider c0) -> run es c0 = Some c ->
  ordered (Engine.spider c0) `prefix_of` ordered (Engine.spider c).
Proof.
  intros I E. destruct (run_kept es c0 c I E) as [I' K].
  by apply ordered_kept.
Qed.

(** X7. Once [MAX_PAGES] URLs are found the census is closed: no later
    event changes the found URLs, their indices and levels or any counter,
    and no callback yields a request any more. *)
Theorem census_frozen_at_limit es c c' :
  MAX_PAGES <= size (found_urls (Engine.spider c)) ->
  run es c = Some c' ->
  census_frozen (Engine.spider c) (Engine.spider c') /\
  Engine.yielded c' = Engine.yielded c.
Proof.
  intros Hfull E.
  apply (run_invariant callback resume call_errback
           (fun c' => census_frozen (Engine.spider c) (Engine.spider c') /\
                      Engine.yielded c' = Engine.yielded c))
    with (es := es) (c := c); [| | exact E].
  - intros e c1 c2 [K1 Y1] E1.
    destruct K1 as (F & K1).
    destruct (exec_frozen e c1 c2) as [(F2 & K2) Y2]; [by rewrite F | done |].
    split; [| by rewrite Y2].
    destruct K1 as (? & ? & ? & ? & ? & ?), K2 as (? & ? & ? & ? & ? & ?).
    split_and!; congruence.
  - split; [apply census_frozen_refl | done].
Qed.

(** X9. The requests carry the level their URL is listed under.  When this
    holds of the requests yielded so far, all for found URLs, every request
    yielded after any further events is for a URL listed under the level
    the request carries. *)
Theorem census_request_levels c0 es c :
  spider_inv (Engine.spider c0) ->
  (forall q, q ∈ Engine.yielded c0 ->
             req_url q ∈ found_urls (Engine.spider c0) /\
             dict_get0 (req_url q) (url_levels (Engine.spider c0))
             = req_level q) ->
  run es c0 = Some c ->
  forall q, q ∈ Engine.yielded c ->
            dict_get0 (req_url q) (url_levels (Engine.spider c)) = req_level q.
Proof.
  intros I Y E q Hq. revert q Hq.
  cut (spider_inv (Engine.spider c) /\
       forall q, q ∈ Engine.yielded c ->
         req_url q ∈ found_urls (Engine.spider c) /\
         dict_get0 (req_url q) (url_levels (Engine.spider c)) = req_level q).
  { intros [_ H] q Hq. by apply H. }
  apply (run_invariant callback resume call_errback
           (fun c => spider_inv (Engine.spider c) /\
                     forall q, q ∈ Engine.yielded c ->
                       req_url q ∈ found_urls (Engine.spider c) /\
                       dict_get0 (req_url q) (url_levels (Engine.spider c))
                       = req_level q))
    with (es := es) (c := c0); [| done | exact E].
  intros e c1 c2 [I1 L1] E1. split.
  - by apply (run_spider_inv [e] c1 c2 I1), census_run_cons with (c' := c2).
  - intros q Hq.
    destruct (exec_yield_level e c1 c2 q E1 Hq) as [Hold | Hnew]; [| done].
    destruct (exec_kept e c1 c2 I1 E1) as (F & _ & K).
    destruct (L1 q Hold) as [Hf Hl]. split; [by apply F |].
    by rewrite K.
Qed.

(** X25. The census spider stays on its site: [allowed_domain] never
    changes, and every request yielded is for a URL whose host equals it
    (the test of line 87 is an equality). *)
Theorem census_request_hosts c0 es c :
  (forall q, q ∈ Engine.yielded c0 ->
             netloc (req_url q) = allowed_domain (Engine.spider c0)) ->
  run es c0 = Some c ->
  allowed_domain (Engine.spider c) = allowed_domain (Engine.spider c0) /\
  forall q, q ∈ Engine.yielded c ->
            netloc (req_url q) = allowed_domain (Engine.spider c0).
Proof.
  intros Y E.
  apply (run_invariant callback resume call_errback
           (fun c => allowed_domain (Engine.spider c)
                     = allowed_domain (Engine.spider c0) /\
                     forall q, q ∈ Engine.yielded c ->
                       netloc (req_url q) = allowed_domain (Engine.spider c0)))
    with (es := es) (c := c0); [| done | exact E].
  intros e c1 c2 [D1 Y1] E1. destruct e as [i r | i f | i | j]; simpl in E1.
  - destruct (Engine.pending c1 !! i); by simplify_eq/=.
  - destruct (Engine.pending c1 !! i) as [q|]; simplify_eq/=.
    unfold call_errback. by destruct (req_errback q).
  - destruct (Engine.close_reason c1); [| done].
    destruct (Engine.pending c1 !! i); by simplify_eq/=.
  - destruct (Engine.running c1 !! j) as [g|]; simplify_eq/=.
    destruct (resume g (Engine.spider c1)) as [s' o] eqn:Er.
    destruct (resume_resumed _ _ _ _ Er) as [_ D _ O].
    destruct o as [q g' | | reason]; simplify_eq/=;
      (split; [congruence |]); [| done | done].
    intros q' [Hq' | ->%list_elem_of_singleton]%elem_of_app; [by apply Y1 |].
    destruct O as (_ & Hd & _). congruence.
Qed.
End CensusExtras.

(** ** Content mode: what is written stays *)
Section ContentGrownFacts.
Context {U : UrlLib}.
Import FastSpider.

Implicit Types (c : Engine.crawl state request generator).

Lemma content_grown_refl (s : state) : content_grown s s.
Proof. by split_and!. Qed.

Lemma content_grown_trans (s1 s2 s3 : state) :
  content_grown s1 s2 -> content_grown s2 s3 -> content_grown s1 s3.
Proof.
  intros (I1 & E1 & P1 & V1 & F1 & L1 & D1 & O1)
         (I2 & E2 & P2 & V2 & F2 & L2 & D2 & O2).
  split_and!; try congruence; try lia.
  - by transitivity (index_file s2).
  - by transitivity (error_file s2).
  - by transitivity (visited_urls s2).
  - by transitivity (dom (page_files s2)).
Qed.

Lemma log_error_grown (m : string) (s : state) : content_grown s (log_error m s).
Proof.
  split_and!; try done. cbn [error_file log_error]. by apply prefix_app_r.
Qed.

Lemma save_content_grown (d : delivery) (c : content) (f : string) (s : state) :
  content_grown s (save_content d c f s).
Proof.
  unfold save_content. destruct (save_error d); [apply log_error_grown |].
  split_and!; try done. cbn [page_files write_page]. rewrite dom_insert_L.
  apply union_subseteq_r.
Qed.

Lemma resume_grown (g : generator) (s s' : state)
    (o : outcome request generator) :
  resume g s = (s', o) -> content_grown s s'.
Proof.
  intros E. destruct g as [d | rest]; cbn [resume] in E.
  - unfold parse in E.
    destruct (page_limit s <=? Z.of_nat (pages_crawled s))%Z;
      [injection E as <- _; apply content_grown_refl |].
    case_bool_decide; [injection E as <- _; apply content_grown_refl |].
    unfold extract_content in E. destruct (resp_page (resp d)) as [p | e];
      [| injection E as <- _; apply log_error_grown].
    set (c := {| url := resp_url (resp d); crawl_time := now d;
                 title := page_title p;
                 meta_description := page_meta_description p;
                 headings := group_headings (page_headings p);
                 paragraphs := filter (fun t => nonempty t) (page_paragraphs p);
                 links := extract_links (resp_url (resp d)) (page_anchors p) |}) in *.
    set (f := page_name (pages_crawled s + 1)) in *.
    pose proof (save_content_grown d c f s) as G2.
    set (s2 := save_content d c f s) in *.
    destruct (index_error d) as [e |].
    { injection E as <- _. apply (content_grown_trans _ _ _ G2), log_error_grown. }
    set (s4 := mark_crawled _ _) in E.
    assert (content_grown s2 s4) as G4.
    { unfold s4. split_and!; try done;
        cbn [index_file pages_crawled visited_urls mark_crawled append_index].
      - by apply prefix_app_r.
      - lia.
      - apply union_subseteq_l. }
    apply (content_grown_trans _ _ _ G2), (content_grown_trans _ _ _ G4).
    destruct (Z.of_nat (pages_crawled s4) <? page_limit s4)%Z.
    + apply content_parse_loop in E as [-> _]. apply content_grown_refl.
    + injection E as <- _. apply content_grown_refl.
  - apply content_parse_loop in E as [-> _]. apply content_grown_refl.
Qed.

Lemma exec_grown e c c' :
  Engine.exec callback resume call_errback e c = Some c' ->
  content_grown (Engine.spider c) (Engine.spider c').
Proof.
  intros E. destruct e as [i r | i f | i | j]; simpl in E.
  - destruct (Engine.pending c !! i); simplify_eq/=. apply content_grown_refl.
  - destruct (Engine.pending c !! i) as [q|]; simplify_eq/=.
    unfold call_errback. destruct (req_errback q);
      [apply log_error_grown | apply content_grown_refl].
  - destruct (Engine.close_reason c); [| done].
    destruct (Engine.pending c !! i); simplify_eq/=. apply content_grown_refl.
  - destruct (Engine.running c !! j) as [g|]; simplify_eq/=.
    destruct (resume g (Engine.spider c)) as [s' o] eqn:Er.
    pose proof (resume_grown _ _ _ _ Er) as G.
    destruct o; simplify_eq/=; exact G.
Qed.

(** *** Once the limit is reached *)

Lemma content_frozen_refl (s : state) : content_frozen s s.
Proof. by split_and!. Qed.

Lemma resume_frozen_content (g : generator) (s s' : state)
    (o : outcome request generator) :
  (page_limit s <= Z.of_nat (pages_crawled s))%Z ->
  resume g s = (s', o) ->
  s' = s /\ (is_fresh g -> forall q g', o <> Yielded q g').
Proof.
  intros Hfull E. destruct g as [d | rest]; cbn [resume] in E.
  - unfold parse in E.
    rewrite (proj2 (Z.leb_le _ _) Hfull) in E. injection E as <- <-. by split.
  - apply content_parse_loop in E as [-> _]. split; [done | by intros []].
Qed.

Lemma exec_frozen_content e c c' :
  (page_limit (Engine.spider c) <= Z.of_nat (pages_crawled (Engine.spider c)))%Z ->
  Engine.exec callback resume call_errback e c = Some c' ->
  content_frozen (Engine.spider c) (Engine.spider c') /\
  (Forall is_fresh (Engine.running c) ->
   Forall is_fresh (Engine.running c') /\ Engine.yielded c' = Engine.yielded c).
Proof.
  intros Hfull E. destruct e as [i r | i f | i | j]; simpl in E.
  - destruct (Engine.pending c !! i); simplify_eq/=.
    split; [apply content_frozen_refl |]. intros Hf. split; [| done].
    apply Forall_app. split; [done | by repeat constructor].
  - destruct (Engine.pending c !! i) as [q|]; simplify_eq/=.
    unfold call_errback. destruct (req_errback q); by split.
  - destruct (Engine.close_reason c); [| done].
    destruct (Engine.pending c !! i); simplify_eq/=. by split.
  - destruct (Engine.running c !! j) as [g|] eqn:Hg; simplify_eq/=.
    destruct (resume g (Engine.spider c)) as [s' o] eqn:Er.
    destruct (resume_frozen_content _ _ _ _ Hfull Er) as [-> N].
    destruct o as [q g' | | reason]; simplify_eq/=;
      (split; [apply content_frozen_refl |]); intros Hf.
    + exfalso. apply (N (proj1 (Forall_lookup _ _) Hf j g Hg) q g'). done.
    + split; [by apply Forall_delete | done].
    + split; [by apply Forall_delete | done].
Qed.

Lemma run_frozen_content es c c' :
  (page_limit (Engine.spider c) <= Z.of_nat (pages_crawled (Engine.spider c)))%Z ->
  run es c = Some c' ->
  content_frozen (Engine.spider c) (Engine.spider c') /\
  (Forall is_fresh (Engine.running c) ->
   Forall is_fresh (Engine.running c') /\ Engine.yielded c' = Engine.yielded c).
Proof.
  intros Hfull E.
  apply (run_invariant callback resume call_errback
           (fun c' => content_frozen (Engine.spider c) (Engine.spider c') /\
                      (Forall is_fresh (Engine.running c) ->
                       Forall is_fresh (Engine.running c') /\
                       Engine.yielded c' = Engine.yielded c)))
    with (es := es) (c := c); [| | exact E].
  - intros e c1 c2 [K1 Y1] E1.
    destruct K1 as (F1 & I1 & P1 & V1 & L1).
    destruct (exec_frozen_content e c1 c2) as [(F2 & I2 & P2 & V2 & L2) Y2];
      [by rewrite L1, P1 | done |].
    split; [split_and!; congruence |].
    intros Hf. destruct (Y1 Hf) as [Hf1 Hy1]. destruct (Y2 Hf1) as [Hf2 Hy2].
    split; [done | congruence].
  - split; [apply content_frozen_refl | done].
Qed.

(** *** The names of the page files *)

Lemma files_named_step (s : state) (n : nat) :
  files_named s -> pages_crawled s <= n ->
  dom (page_files s) ⊆ list_to_set (page_name <$> seq 1 (S n)).
Proof.
  unfold files_named. intros F Hn x Hx. apply F in Hx.
  apply elem_of_list_to_set, list_elem_of_fmap in Hx as (i & -> & Hi%elem_of_seq).
  apply elem_of_list_to_set, list_elem_of_fmap. exists i. split; [done |].
  apply elem_of_seq. lia.
Qed.

Lemma save_content_named (d : delivery) (c : content) (s : state) :
  files_named s ->
  files_named (save_content d c (page_name (pages_crawled s + 1)) s).
Proof.
  unfold save_content. destruct (save_error d); [done |].
  unfold files_named. cbn [page_files pages_crawled write_page].
  intros F. rewrite dom_insert_L. apply union_subseteq. split; [| done].
  apply singleton_subseteq_l, elem_of_list_to_set, list_elem_of_fmap.
  exists (pages_crawled s + 1). split; [done |]. apply elem_of_seq. lia.
Qed.

Lemma resume_named (g : generator) (s s' : state)
    (o : outcome request generator) :
  files_named s -> resume g s = (s', o) -> files_named s'.
Proof.
  intros F E. destruct g as [d | rest]; cbn [resume] in E;
    [| by apply content_parse_loop in E as [-> _]].
  unfold parse in E.
  destruct (page_limit s <=? Z.of_nat (pages_crawled s))%Z;
    [by injection E as <- _ |].
  case_bool_decide; [by injection E as <- _ |].
  unfold extract_content in E. destruct (resp_page (resp d)) as [p | e];
    [| by injection E as <- _].
  set (c := {| url := resp_url (resp d); crawl_time := now d;
               title := page_title p;
               meta_description := page_meta_description p;
               headings := group_headings (page_headings p);
               paragraphs := filter (fun t => nonempty t) (page_paragraphs p);
               links := extract_links (resp_url (resp d)) (page_anchors p) |}) in *.
  pose proof (save_content_named d c s F) as F2.
  destruct (save_content_frame d c (page_name (pages_crawled s + 1)) s)
    as (Hp & _).
  set (s2 := save_content d c (page_name (pages_crawled s + 1)) s) in *.
  destruct (index_error d) as [e |]; [by injection E as <- _ |].
  set (s4 := mark_crawled _ _) in E.
  assert (files_named s4) as F4.
  { unfold files_named, s4.
    cbn [page_files pages_crawled mark_crawled append_index].
    apply files_named_step; [done | lia]. }
  destruct (Z.of_nat (pages_crawled s4) <? page_limit s4)%Z.
  - by apply content_parse_loop in E as [-> _].
  - by injection E as <- _.
Qed.

Lemma exec_named e c c' :
  files_named (Engine.spider c) ->
  Engine.exec callback resume call_errback e c = Some c' ->
  files_named (Engine.spider c').
Proof.
  intros F E. destruct e as [i r | i f | i | j]; simpl in E.
  - destruct (Engine.pending c !! i); by simplify_eq/=.
  - destruct (Engine.pending c !! i) as [q|]; simplify_eq/=.
    unfold call_errback. by destruct (req_errback q).
  - destruct (Engine.close_reason c); [| done].
    destruct (Engine.pending c !! i); by simplify_eq/=.
  - destruct (Engine.running c !! j) as [g|]; simplify_eq/=.
    destruct (resume g (Engine.spider c)) as [s' o] eqn:Er.
    pose proof (resume_named _ _ _ _ F Er) as F'.
    destruct o; simplify_eq/=; exact F'.
Qed.

(** *** The layout of the index *)

Lemma index_entries_app (s : state) (e : index_entry) :
  index_entries (append_index (Entry e) s) = index_entries s ++ [e].
Proof. unfold index_entries. cbn [index_file append_index]. by rewrite omap_app. Qed.

Lemma resume_layout (started url : string) (limit : Z) (g : generator)
    (s s' : state) (o : outcome request generator) :
  index_layout started url limit s -> resume g s = (s', o) ->
  index_layout started url limit s'.
Proof.
  intros F E. destruct g as [d | rest]; cbn [resume] in E;
    [| by apply content_parse_loop in E as [-> _]].
  unfold parse in E.
  destruct (page_limit s <=? Z.of_nat (pages_crawled s))%Z;
    [by injection E as <- _ |].
  case_bool_decide; [by injection E as <- _ |].
  unfold extract_content in E. destruct (resp_page (resp d)) as [p | e];
    [| by injection E as <- _].
  set (c := {| url := resp_url (resp d); crawl_time := now d;
               title := page_title p;
               meta_description := page_meta_description p;
               headings := group_headings (page_headings p);
               paragraphs := filter (fun t => nonempty t) (page_paragraphs p);
               links := extract_links (resp_url (resp d)) (page_anchors p) |}) in *.
  destruct (save_content_frame d c (page_name (pages_crawled s + 1)) s)
    as (_ & _ & _ & _ & Hi).
  set (s2 := save_content d c (page_name (pages_crawled s + 1)) s) in *.
  assert (index_layout started url limit s2) as F2.
  { unfold index_layout, index_entries in *. by rewrite Hi. }
  destruct (index_error d) as [e |]; [by injection E as <- _ |].
  set (s4 := mark_crawled _ _) in E.
  assert (index_layout started url limit s4) as F4.
  { unfold index_layout, s4, index_entries in *.
    cbn [index_file mark_crawled append_index].
    rewrite omap_app, fmap_app, F2 at 1. simpl. done. }
  destruct (Z.of_nat (pages_crawled s4) <? page_limit s4)%Z.
  - by apply content_parse_loop in E as [-> _].
  - by injection E as <- _.
Qed.

Lemma exec_layout (started url : string) (limit : Z) e c c' :
  index_layout started url limit (Engine.spider c) ->
  Engine.exec callback resume call_errback e c = Some c' ->
  index_layout started url limit (Engine.spider c').
Proof.
  intros F E. destruct e as [i r | i f | i | j]; simpl in E.
  - destruct (Engine.pending c !! i); by simplify_eq/=.
  - destruct (Engine.pending c !! i) as [q|]; simplify_eq/=.
    unfold call_errback. by destruct (req_errback q).
  - destruct (Engine.close_reason c); [| done].
    destruct (Engine.pending c !! i); by simplify_eq/=.
  - destruct (Engine.running c !! j) as [g|]; simplify_eq/=.
    destruct (resume g (Engine.spider c)) as [s' o] eqn:Er.
    pose proof (resume_layout _ _ _ _ _ _ _ F Er) as F'.
    destruct o; simplify_eq/=; exact F'.
Qed.
End ContentGrownFacts.

(** ** Content mode: headings and links *)
Section ContentExtractFacts.
Context {U : UrlLib}.
Import FastSpider.

Implicit Types (c : Engine.crawl state request generator).

Lemma group_headings_snoc (hs : list (string * string)) (tag text : string) :
  group_headings (hs ++ [(tag, text)])
  = dict_set tag (default [] (dict_get tag (group_headings hs)) ++ [text])
             (group_headings hs).
Proof. unfold group_headings. by rewrite foldl_app. Qed.

Lemma nonempty_true (t : string) : nonempty t = true <-> t <> "".
Proof.
  unfold nonempty. by destruct (String.eqb_spec t "").
Qed.

Lemma extract_links_anchored (d : delivery) (p : page) (ds : list delivery) :
  d ∈ ds -> resp_page (resp d) = inl p ->
  Forall (fun l => anchored ds l.1 l.2)
         (extract_links (resp_url (resp d)) (page_anchors p)).
Proof.
  intros Hd Hp. apply Forall_forall. intros [text href] Hin.
  unfold extract_links in Hin. apply list_elem_of_omap in Hin as ([h t] & Ha & Hl).
  destruct h as [h |]; [| done].
  destruct (nonempty h && nonempty t) eqn:Hne; [| done].
  apply andb_prop in Hne as [Hh%nonempty_true Ht%nonempty_true].
  injection Hl as <- <-. by exists d, p, h.
Qed.

(** A request yielded by the link loop is for one of the remaining links,
    and the loop goes on with links that come after it. *)
Lemma parse_loop_anchored (ds : list delivery) (ls : list (string * string))
    (s s' : state) (q : request) (g : generator) :
  Forall (fun l => anchored ds l.1 l.2) ls ->
  parse_loop ls s = (s', Yielded q g) ->
  (exists text, anchored ds text (req_url q)) /\ generator_anchored ds g.
Proof.
  induction ls as [|[text href] rest IH]; cbn [parse_loop]; [done |].
  intros [Hl Hrest]%Forall_cons.
  destruct (bool_decide (href ∉ visited_urls s)
            && str_in (allowed_domain s) (netloc href)); [| by apply IH].
  intros [= <- <- <-]. split; [by exists text | done].
Qed.

Lemma resume_anchored (ds : list delivery) (g : generator) (s s' : state)
    (q : request) (g' : generator) :
  generator_anchored ds g -> resume g s = (s', Yielded q g') ->
  (exists text, anchored ds text (req_url q)) /\ generator_anchored ds g'.
Proof.
  intros G E. destruct g as [d | rest]; cbn [resume] in E;
    [| by eapply parse_loop_anchored].
  unfold parse in E.
  destruct (page_limit s <=? Z.of_nat (pages_crawled s))%Z; [done |].
  case_bool_decide; [done |].
  unfold extract_content in E. destruct (resp_page (resp d)) as [p | e] eqn:Hp;
    [| done].
  destruct (index_error d) as [e |]; [done |].
  match type of E with
  | (if ?b then _ else _) = _ => destruct b; [| done]
  end.
  cbn [links] in E. eapply parse_loop_anchored; [| exact E].
  by apply extract_links_anchored.
Qed.

Lemma exec_anchored (ds : list delivery) e c c' :
  match e with Engine.Response _ d => d ∈ ds | _ => True end ->
  (forall q, q ∈ Engine.yielded c -> exists text, anchored ds text (req_url q)) ->
  Forall (generator_anchored ds) (Engine.running c) ->
  Engine.exec callback resume call_errback e c = Some c' ->
  (forall q, q ∈ Engine.yielded c' -> exists text, anchored ds text (req_url q)) /\
  Forall (generator_anchored ds) (Engine.running c').
Proof.
  intros He Y G E. destruct e as [i d | i f | i | j]; simpl in E.
  - destruct (Engine.pending c !! i); simplify_eq/=. split; [done |].
    apply Forall_app. split; [done | by repeat constructor].
  - destruct (Engine.pending c !! i) as [q|]; by simplify_eq/=.
  - destruct (Engine.close_reason c); [| done].
    destruct (Engine.pending c !! i); by simplify_eq/=.
  - destruct (Engine.running c !! j) as [g|] eqn:Hg; simplify_eq/=.
    destruct (resume g (Engine.spider c)) as [s' o] eqn:Er.
    pose proof (proj1 (Forall_lookup _ _) G j g Hg) as Gg.
    destruct o as [q g' | | reason]; simplify_eq/=.
    + destruct (resume_anchored ds _ _ _ _ _ Gg Er) as [Hq Hg'].
      split; [| by apply Forall_insert].
      intros q' [? | ->%list_elem_of_singleton]%elem_of_app; [by apply Y | done].
    + split; [done | by apply Forall_delete].
    + split; [done | by apply Forall_delete].
Qed.

Lemma deliveries_ok (es : list (Engine.event delivery)) :
  Forall (fun e => match e with
                   | Engine.Response _ d => d ∈ deliveries es
                   | _ => True
                   end) es.
Proof.
  apply Forall_forall. intros [i d | i f | i | j] Hin; try done.
  unfold deliveries. apply list_elem_of_omap. by exists (Engine.Response i d).
Qed.
End ContentExtractFacts.

Section ContentExtras.
Context {U : UrlLib}.
Import FastSpider.

Implicit Types (c : Engine.crawl state request generator).

(** X11. Nothing written is taken back: whatever events follow, the index
    and the error log only grow at their end, the page counter and the
    visited set only grow, no page file disappears, and the page limit,
    the allowed domain and the output directory stay as they are. *)
Theorem content_append_only es c c' :
  run es c = Some c' ->
  (index_file (Engine.spider c) `prefix_of` index_file (Engine.spider c')) /\
  (error_file (Engine.spider c) `prefix_of` error_file (Engine.spider c')) /\
  pages_crawled (Engine.spider c) <= pages_crawled (Engine.spider c') /\
  (visited_urls (Engine.spider c) ⊆ visited_urls (Engine.spider c')) /\
  (dom (page_files (Engine.spider c)) ⊆ dom (page_files (Engine.spider c'))) /\
  page_limit (Engine.spider c') = page_limit (Engine.spider c) /\
  allowed_domain (Engine.spider c') = allowed_domain (Engine.spider c) /\
  output_dir (Engine.spider c') = output_dir (Engine.spider c).
Proof.
  intros E.
  apply (run_invariant callback resume call_errback
           (fun c' => content_grown (Engine.spider c) (Engine.spider c')))
    with (es := es) (c := c); [| apply content_grown_refl | exact E].
  intros e c1 c2 G1 E1. apply (content_grown_trans _ _ _ G1).
  by eapply exec_grown.
Qed.

(** X12. Once the page counter has reached the limit, no later event
    changes the page files, the index, the counter or the visited set.
    Generators started from then on yield nothing; only a generator that
    was suspended in its link loop before can still yield requests. *)
Theorem content_frozen_at_limit es c c' :
  (page_limit (Engine.spider c) <= Z.of_nat (pages_crawled (Engine.spider c)))%Z ->
  run es c = Some c' ->
  page_files (Engine.spider c') = page_files (Engine.spider c) /\
  index_file (Engine.spider c') = index_file (Engine.spider c) /\
  pages_crawled (Engine.spider c') = pages_crawled (Engine.spider c) /\
  visited_urls (Engine.spider c') = visited_urls (Engine.spider c) /\
  (Forall is_fresh (Engine.running c) ->
   Engine.yielded c' = Engine.yielded c).
Proof.
  intros Hfull E.
  destruct (run_frozen_content es c c' Hfull E) as [(F & I & P & V & _) Y].
  split_and!; try done. intros Hf. by destruct (Y Hf).
Qed.

(** X13. Under a page limit of 0 or less nothing is ever crawled: no page
    file, no index entry, no visited URL and no request beyond the start
    request, whatever is delivered. *)
Theorem content_no_room (url : string) (limit : Z) (task started : string)
    es c :
  (limit <= 0)%Z ->
  run es (crawl url limit task started) = Some c ->
  pages_crawled (Engine.spider c) = 0 /\
  page_files (Engine.spider c) = ∅ /\
  index_file (Engine.spider c) = [Header started url limit] /\
  visited_urls (Engine.spider c) = ∅ /\
  Engine.yielded c = [].
Proof.
  intros Hl E.
  destruct (run_frozen_content es (crawl url limit task started) c Hl E)
    as [(F & I & P & V & _) Y].
  split_and!; try done. by destruct (Y (Forall_nil_2 _)).
Qed.

(** X14. Whatever fails on the way, the page files have names among
    page_1.txt .. page_(N+1).txt, where N is the page counter; so there is
    at most one file more than pages counted. *)
Theorem content_file_names (url : string) (limit : Z) (task started : string)
    es c :
  run es (crawl url limit task started) = Some c ->
  (dom (page_files (Engine.spider c))
   ⊆ list_to_set (page_name <$> seq 1 (S (pages_crawled (Engine.spider c))))) /\
  size (page_files (Engine.spider c)) <= S (pages_crawled (Engine.spider c)).
Proof.
  intros E.
  assert (files_named (Engine.spider c)) as F.
  { apply (run_invariant callback resume call_errback
             (fun c => files_named (Engine.spider c)))
      with (es := es) (c := crawl url limit task started); [| | exact E].
    - intros e c1 c2. apply exec_named.
    - unfold files_named. cbn. by rewrite dom_empty_L. }
  split; [exact F |].
  rewrite <- size_dom. etrans; [apply (subseteq_size _ _ F) |].
  rewrite size_list_to_set.
  - by rewrite length_fmap, length_seq.
  - apply NoDup_fmap_2; [| apply NoDup_seq]. intros a b. apply page_name_inj.
Qed.

(** X15. The index is the header written by [setup_logging] followed by
    one entry per page counted, and nothing else; [closed] adds the footer
    with the page count and the engine's reason, or leaves the index as it
    is when that write fails. *)
Theorem content_index_layout (url : string) (limit : Z)
    (task started finished_at : string) (e : string) es c :
  run es (crawl url limit task started) = Some c ->
  index_file (Engine.spider c)
  = Header started url limit :: (Entry <$> index_entries (Engine.spider c)) /\
  index_file (close finished_at None c)
  = Header started url limit :: (Entry <$> index_entries (Engine.spider c))
    ++ [Footer finished_at (length (index_entries (Engine.spider c)))
               (Engine.reason c)] /\
  index_file (close finished_at (Some e) c) = index_file (Engine.spider c).
Proof.
  intros E.
  assert (index_layout started url limit (Engine.spider c)) as F.
  { apply (run_invariant callback resume call_errback
             (fun c => index_layout started url limit (Engine.spider c)))
      with (es := es) (c := crawl url limit task started); [| done | exact E].
    intros e1 c1 c2. apply exec_layout. }
  pose proof (cc_spider _ _ _ (content_crawl_inv_run _ _ _ _ _ _ E)) as I.
  pose proof (f_equal length (ok_entries _ I)) as L.
  rewrite !length_fmap, length_seq in L.
  split_and!; [exact F | | done].
  unfold close, closed. cbn [index_file append_index]. by rewrite F at 1; rewrite L.
Qed.

(** X16. Content mode follows only links that have a text: every request
    the spider yields is for the resolved target of an anchor with a
    non-empty text and a non-empty [href], on a delivered page whose
    content could be extracted. *)
Theorem content_requests_anchored (url : string) (limit : Z)
    (task started : string) es c q :
  run es (crawl url limit task started) = Some c ->
  q ∈ Engine.yielded c ->
  exists d p h text,
    d ∈ deliveries es /\ resp_page (resp d) = inl p /\
    (Some h, text) ∈ page_anchors p /\ h <> "" /\ text <> "" /\
    req_url q = urljoin (resp_url (resp d)) h.
Proof.
  intros E Hq.
  assert ((forall q, q ∈ Engine.yielded c ->
             exists text, anchored (deliveries es) text (req_url q)) /\
          Forall (generator_anchored (deliveries es)) (Engine.running c))
    as [Y _].
  { apply (run_invariant_on callback resume call_errback
             (fun e => match e with
                       | Engine.Response _ d => d ∈ deliveries es
                       | _ => True
                       end)
             (fun c => (forall q, q ∈ Engine.yielded c ->
                          exists text, anchored (deliveries es) text (req_url q)) /\
                       Forall (generator_anchored (deliveries es))
                              (Engine.running c)))
      with (es := es) (c := crawl url limit task started);
      [| apply deliveries_ok | | exact E].
    - intros e c1 c2 He [Y1 G1]. by apply exec_anchored.
    - split; [by intros q' ?%elem_of_nil | constructor]. }
  destruct (Y q Hq) as (text & d & p & h & ?). by exists d, p, h, text.
Qed.

(** X17. The headings of a page are grouped by tag without loss: each tag
    occurs once among the keys, the keys are the tags that occur on the
    page, and under a tag stand the texts of its headings in document
    order. *)
Theorem group_headings_spec (hs : list (string * string)) :
  NoDup (dict_keys (group_headings hs)) /\
  (forall tag, tag ∈ dict_keys (group_headings hs) <-> tag ∈ hs.*1) /\
  (forall tag, default [] (dict_get tag (group_headings hs))
               = (filter (fun h => h.1 = tag) hs).*2).
Proof.
  induction hs as [|[tag text] hs (Hn & Hk & Hg)] using rev_ind.
  - split_and!; [constructor | done | done].
  - rewrite group_headings_snoc. split_and!.
    + rewrite dict_keys_set. case_decide; [done |].
      apply NoDup_app. split_and!; [done | | apply NoDup_singleton].
      by intros k Hin ->%list_elem_of_singleton.
    + intros k. rewrite dict_keys_set, fmap_app, elem_of_app. csimpl.
      rewrite list_elem_of_singleton, <- (Hk k).
      case_decide as Hin; [| by rewrite elem_of_app, list_elem_of_singleton].
      split; [by left | intros [? | ->]; done].
    + intros k. rewrite dict_get_set, filter_app, fmap_app, filter_cons, filter_nil.
      cbn [fst]. destruct (decide (k = tag)) as [-> | Hne].
      * rewrite decide_True by done. cbn [default]. by rewrite Hg.
      * rewrite decide_False by congruence. csimpl. by rewrite app_nil_r.
Qed.
End ContentExtras.

Section ContentFailureExtras.
Context {U : UrlLib}.
Import FastSpider.

(** X18. When the page file cannot be written, [save_content] only logs
    the error and [parse] goes on: the page is indexed under the file name
    it would have had, counted and marked as visited, although no file was
    written for it. *)
Theorem content_save_failure (d : delivery) (p : page) (e : string) (s : state) :
  resp_page (resp d) = inl p ->
  save_error d = Some e -> index_error d = None ->
  (Z.of_nat (pages_crawled s) < page_limit s)%Z ->
  resp_url (resp d) ∉ visited_urls s ->
  exists s' o,
    parse d s = (s', o) /\
    page_files s' = page_files s /\
    index_file s'
    = index_file s
      ++ [Entry {| entry_number := pages_crawled s + 1;
                   entry_title := page_title p;
                   entry_url := resp_url (resp d);
                   entry_file := page_name (pages_crawled s + 1) |}] /\
    pages_crawled s' = pages_crawled s + 1 /\
    visited_urls s' = visited_urls s ∪ {[ resp_url (resp d) ]} /\
    error_file s'
    = error_file s
      ++ ["Error saving content to " +:+ page_name (pages_crawled s + 1)
          +:+ ": " +:+ e].
Proof.
  intros Hp Hs Hi Hroom Hnew. unfold parse.
  destruct (Z.leb_spec (page_limit s) (Z.of_nat (pages_crawled s))); [lia |].
  rewrite bool_decide_eq_false_2 by done.
  unfold extract_content, save_content. rewrite Hp, Hs, Hi.
  match goal with
  | |- context [if ?b then parse_loop ?ls ?s4 else _] =>
      destruct b; [destruct (parse_loop ls s4) as [s' o] eqn:E;
                   apply content_parse_loop in E as [-> _] |];
      eexists; eexists; (split; [reflexivity |]); split_and!; done
  end.
Qed.

(** X19. When the index cannot be appended to, the page file has already
    been written but the page is neither indexed nor counted nor marked as
    visited, and none of its links is followed: the next page that is saved
    gets the same file name, and the same URL would be processed again. *)
Theorem content_index_failure (d : delivery) (p : page) (e : string) (s : state) :
  resp_page (resp d) = inl p ->
  save_error d = None -> index_error d = Some e ->
  (Z.of_nat (pages_crawled s) < page_limit s)%Z ->
  resp_url (resp d) ∉ visited_urls s ->
  exists s' c,
    parse d s = (s', Exhausted) /\
    url c = resp_url (resp d) /\
    page_files s' = <[page_name (pages_crawled s + 1) := c]> (page_files s) /\
    index_file s' = index_file s /\
    pages_crawled s' = pages_crawled s /\
    visited_urls s' = visited_urls s /\
    error_file s'
    = error_file s
      ++ ["Error processing " +:+ resp_url (resp d) +:+ ": " +:+ e].
Proof.
  intros Hp Hs Hi Hroom Hnew. unfold parse.
  destruct (Z.leb_spec (page_limit s) (Z.of_nat (pages_crawled s))); [lia |].
  rewrite bool_decide_eq_false_2 by done.
  unfold extract_content, save_content. rewrite Hp, Hs, Hi.
  eexists. eexists. split; [reflexivity |].
  split_and!; [| reflexivity | done ..]. reflexivity.
Qed.
End ContentFailureExtras.

(** ** The content API *)
Section ApiFacts.
Import Api.

Lemma upload_files_filter (base_path : string) (files : list string)
    (ue : string -> option string) :
  upload_files base_path files ue
  = (fun f => base_path +:+ "/" +:+ f) <$> filter (fun f => ue f = None) files.
Proof.
  induction files as [|f files IH]; [done |]. cbn [upload_files].
  rewrite filter_cons. destruct (ue f) as [e|] eqn:Ef.
  - by rewrite decide_False by done.
  - rewrite decide_True by done. csimpl. by rewrite IH.
Qed.

Lemma upload_to_gcs_some (files : list string) (ue : string -> option string)
    (task_id : string) :
  Exists (fun f => ue f = None) files ->
  upload_to_gcs files ue task_id
  = inl ("gs://ai-demo-421403-knowledge-base-agents/test/" +:+ task_id).
Proof.
  intros Hex. unfold upload_to_gcs. rewrite upload_files_filter.
  destruct (filter (fun f => ue f = None) files) as [|f l] eqn:Ef; [| done].
  apply Exists_exists in Hex as (f & Hin & Hf).
  assert (f ∈ filter (fun f => ue f = None) files) as Hin'
    by (by apply list_elem_of_filter).
  rewrite Ef in Hin'. by apply elem_of_nil in Hin'.
Qed.

Lemma upload_to_gcs_none (files : list string) (ue : string -> option string)
    (task_id : string) :
  Forall (fun f => ue f <> None) files ->
  upload_to_gcs files ue task_id
  = inr "Error uploading to GCS: No files were uploaded successfully".
Proof.
  intros Hall. unfold upload_to_gcs. rewrite upload_files_filter.
  destruct (filter (fun f => ue f = None) files) as [|f l] eqn:Ef; [done |].
  assert (f ∈ filter (fun f => ue f = None) files) as [Hf Hin]%list_elem_of_filter
    by (rewrite Ef; left).
  by destruct (proj1 (Forall_forall _ _) Hall f Hin).
Qed.

Lemma upload_decide (files : list string) (ue : string -> option string) :
  Exists (fun f => ue f = None) files \/ Forall (fun f => ue f <> None) files.
Proof.
  induction files as [|f files [IH | IH]].
  - right. constructor.
  - left. by right.
  - destruct (ue f) eqn:Ef; [right | left; by left].
    constructor; [by rewrite Ef | done].
Qed.
End ApiFacts.

Section ApiExtras.
Import Api.

(** X20. [upload_to_gcs] returns the bucket path of the task as soon as
    one file is uploaded, whatever happens to the others; when no file is
    uploaded, an empty directory included, it raises. *)
Theorem upload_to_gcs_result (files : list string)
    (ue : string -> option string) (task_id : string) :
  (Exists (fun f => ue f = None) files ->
   upload_to_gcs files ue task_id
   = inl ("gs://ai-demo-421403-knowledge-base-agents/test/" +:+ task_id)) /\
  (Forall (fun f => ue f <> None) files ->
   upload_to_gcs files ue task_id
   = inr "Error uploading to GCS: No files were uploaded successfully") /\
  upload_to_gcs [] ue task_id
  = inr "Error uploading to GCS: No files were uploaded successfully".
Proof.
  split_and!; [apply upload_to_gcs_some | apply upload_to_gcs_none | done].
Qed.



(** X23. The task id is the time of the request to the second: a second
    request within the same second gets the same id and replaces the
    record of the first. *)
Theorem start_crawl_same_second (stamp now1 now2 : string)
    (r1 r2 : crawl_request) (crawl_tasks : gmap string task) :
  let first := start_crawl stamp now1 r1 crawl_tasks in
  let second := start_crawl stamp now2 r2 first.1 in
  resp_task_id second.2 = resp_task_id first.2 /\
  second.1 = (start_crawl stamp now2 r2 crawl_tasks).1 /\
  size second.1 = size first.1.
Proof.
  intros first second. unfold second, first, start_crawl. cbn [fst snd].
  split_and!; [done | apply insert_insert_eq |].
  rewrite insert_insert_eq.
  destruct (crawl_tasks !! ("task_" +:+ stamp)) as [t |] eqn:Ht.
  - rewrite <- !(insert_delete_eq crawl_tasks).
    rewrite !map_size_insert_None by apply lookup_delete_eq. done.
  - by rewrite !map_size_insert_None.
Qed.
End ApiExtras.

(** ** Census mode: more worked crawls *)
Section CensusMoreWorked.
Import CountSpider Worked.
Existing Instance SimpleUrl.lib.

Lemma midway_book : book_inv midway.
Proof.
  split; [reflexivity | by repeat constructor |].
  intros u Hu. cbn in Hu.
  repeat (apply elem_of_cons in Hu as [-> | Hu]);
    [vm_compute; lia | vm_compute; lia | by apply elem_of_nil in Hu].
Qed.

Lemma midway_levels : levels_inv midway_crawl.
Proof.
  split; [apply midway_book | |]; cbn; by repeat constructor.
Qed.

Lemma midway_counted (L : nat) :
  dict_get0 L (level_counts midway) = urls_at_level midway L + 0.
Proof. by destruct L as [|[|L]]. Qed.

Lemma midway_paths : path_inv midway.
Proof.
  split.
  - vm_compute. reflexivity.
  - apply (bool_decide_unpack _). vm_compute. exact I.
  - intros p. unfold urls_at_path, dict_get0. cbn [url_counter url_index midway].
    unfold dict_keys. cbn [fmap list_fmap fst dict_get].
    rewrite !filter_cons, filter_nil.
    change (url_path home) with "".
    change (url_path "https://example.com/a") with "/a".
    destruct (decide (p = "")) as [-> | H1].
    + by rewrite decide_True by done.
    + rewrite (decide_False (P := "" = p)) by congruence.
      destruct (decide (p = "/a")) as [-> | H2].
      * by rewrite decide_True by done.
      * by rewrite (decide_False (P := "/a" = p)) by congruence.
Qed.

Lemma midway_request_levels (q : request) :
  q ∈ Engine.yielded midway_crawl ->
  req_url q ∈ found_urls (Engine.spider midway_crawl) /\
  dict_get0 (req_url q) (url_levels (Engine.spider midway_crawl)) = req_level q.
Proof.
  intros ->%list_elem_of_singleton. split; [| reflexivity].
  apply (bool_decide_unpack _). vm_compute. exact I.
Qed.

(** The spider at the cap: the request fails and the response is parsed. *)
Lemma full_run :
  run [Engine.Failure 0 "timeout"; Engine.Resume 0] full_crawl
  = Some {| Engine.spider :=
              set_stopped_reason limit_message
                (log_error "Request failed: timeout" full);
            Engine.pending := [];
            Engine.running := [];
            Engine.close_reason := Some limit_message;
            Engine.yielded := [] |}.
Proof.
  rewrite (census_run_cons _ _ full_crawl
             {| Engine.spider := log_error "Request failed: timeout" full;
                Engine.pending := [];
                Engine.running := [Fresh hub_page 1];
                Engine.close_reason := None;
                Engine.yielded := [] |}) by reflexivity.
  erewrite census_run_cons; [reflexivity |].
  rewrite (exec_resume_at_cap _ 0 hub_page 1); [reflexivity | reflexivity | | reflexivity].
  cbn [Engine.spider found_urls log_error]. rewrite full_size. unfold MAX_PAGES. lia.
Qed.

Lemma census_levels_contiguous_witness :
  exists c,
    run midway_schedule midway_crawl = Some c /\
    dict_keys (level_counts (Engine.spider c))
    = seq 0 (S (max_level_found (Engine.spider c))) /\
    Forall (fun n => 0 < n) (dict_values (level_counts (Engine.spider c))) /\
    (forall u, u ∈ found_urls (Engine.spider c) ->
               dict_get0 u (url_levels (Engine.spider c))
               <= max_level_found (Engine.spider c)).
Proof.
  eexists. split; [vm_compute; reflexivity |].
  apply (census_levels_contiguous midway_crawl midway_schedule);
    [apply midway_inv | apply midway_levels | vm_compute; reflexivity].
Defined.

Lemma census_level_counts_witness :
  exists c,
    run midway_schedule midway_crawl = Some c /\
    forall L, dict_get0 L (level_counts (Engine.spider c))
              = urls_at_level (Engine.spider c) L + 0.
Proof.
  eexists. split; [vm_compute; reflexivity |].
  apply (census_level_counts (fun _ => 0) midway_crawl midway_schedule);
    [apply midway_inv | apply midway_counted | vm_compute; reflexivity].
Defined.

Lemma census_path_counts_witness :
  exists c,
    run midway_schedule midway_crawl = Some c /\
    NoDup (dict_keys (url_counter (Engine.spider c))) /\
    (forall p, dict_get0 p (url_counter (Engine.spider c))
               = urls_at_path (Engine.spider c) p) /\
    sum_list (dict_values (url_counter (Engine.spider c)))
    = size (found_urls (Engine.spider c)).
Proof.
  eexists. split; [vm_compute; reflexivity |].
  apply (census_path_counts midway_crawl midway_schedule);
    [apply midway_inv | apply midway_paths | vm_compute; reflexivity].
Defined.

Lemma census_ordered_grows_witness :
  exists c,
    run midway_schedule midway_crawl = Some c /\
    ordered midway `prefix_of` ordered (Engine.spider c).
Proof.
  eexists. split; [vm_compute; reflexivity |].
  apply (census_ordered_grows midway_crawl midway_schedule);
    [apply midway_inv | vm_compute; reflexivity].
Defined.

(** At the cap the page's link to a URL not found yet is not followed, and
    nothing of the census changes. *)
Lemma census_frozen_at_limit_witness :
  exists c',
    run [Engine.Failure 0 "timeout"; Engine.Resume 0] full_crawl = Some c' /\
    census_frozen full (Engine.spider c') /\
    Engine.yielded c' = [].
Proof.
  eexists. split; [apply full_run |].
  apply (census_frozen_at_limit
           [Engine.Failure 0 "timeout"; Engine.Resume 0] full_crawl);
    [| apply full_run].
  cbn [Engine.spider full_crawl]. rewrite full_size. unfold MAX_PAGES. lia.
Defined.

Lemma census_request_levels_witness :
  exists c,
    run midway_schedule midway_crawl = Some c /\
    forall q, q ∈ Engine.yielded c ->
              dict_get0 (req_url q) (url_levels (Engine.spider c))
              = req_level q.
Proof.
  eexists. split; [vm_compute; reflexivity |].
  apply (census_request_levels midway_crawl midway_schedule);
    [apply midway_inv | apply midway_request_levels | vm_compute; reflexivity].
Defined.

(** The front page also links to another site; that link is skipped. *)
Lemma census_request_hosts_witness :
  exists c,
    run midway_schedule midway_crawl = Some c /\
    allowed_domain (Engine.spider c) = "example.com" /\
    forall q, q ∈ Engine.yielded c -> netloc (req_url q) = "example.com".
Proof.
  eexists. split; [vm_compute; reflexivity |].
  apply (census_request_hosts midway_crawl midway_schedule);
    [| vm_compute; reflexivity].
  by intros q ->%list_elem_of_singleton.
Defined.
End CensusMoreWorked.

(** ** Content mode: more worked crawls *)
Section ContentMoreWorked.
Import FastSpider WorkedContent WorkedLimit.
Existing Instance SimpleUrl.lib.

Lemma content_append_only_witness :
  exists c c',
    run [Engine.Response 0 (deliver home (inl plain_page)); Engine.Resume 0]
        (crawl home 5 "t1" "09:00") = Some c /\
    run [Engine.Resume 0;
         Engine.Response 0 (deliver "https://example.com/more" (inl more_page));
         Engine.Resume 0] c = Some c' /\
    (index_file (Engine.spider c) `prefix_of` index_file (Engine.spider c')) /\
    (error_file (Engine.spider c) `prefix_of` error_file (Engine.spider c')) /\
    pages_crawled (Engine.spider c) <= pages_crawled (Engine.spider c') /\
    (visited_urls (Engine.spider c) ⊆ visited_urls (Engine.spider c')) /\
    (dom (page_files (Engine.spider c)) ⊆ dom (page_files (Engine.spider c'))) /\
    page_limit (Engine.spider c') = page_limit (Engine.spider c) /\
    allowed_domain (Engine.spider c') = allowed_domain (Engine.spider c) /\
    output_dir (Engine.spider c') = output_dir (Engine.spider c).
Proof.
  eexists. eexists. split; [vm_compute; reflexivity |].
  split; [vm_compute; reflexivity |].
  apply (content_append_only
           [Engine.Resume 0;
            Engine.Response 0 (deliver "https://example.com/more" (inl more_page));
            Engine.Resume 0]).
  vm_compute; reflexivity.
Defined.

(** With a limit of two pages, the start page and the first linked page
    fill it; the generator of the second linked page changes nothing. *)
Lemma content_frozen_at_limit_witness :
  exists c c',
    run fork_schedule (crawl home 2 "t1" "09:00") = Some c /\
    (page_limit (Engine.spider c)
     <= Z.of_nat (pages_crawled (Engine.spider c)))%Z /\
    run [Engine.Resume 0] c = Some c' /\
    page_files (Engine.spider c') = page_files (Engine.spider c) /\
    index_file (Engine.spider c') = index_file (Engine.spider c) /\
    pages_crawled (Engine.spider c') = pages_crawled (Engine.spider c) /\
    visited_urls (Engine.spider c') = visited_urls (Engine.spider c) /\
    (Forall is_fresh (Engine.running c) ->
     Engine.yielded c' = Engine.yielded c).
Proof.
  eexists. eexists. split; [vm_compute; reflexivity |].
  split; [vm_compute; discriminate |].
  split; [vm_compute; reflexivity |].
  apply (content_frozen_at_limit [Engine.Resume 0]);
    [vm_compute; discriminate | vm_compute; reflexivity].
Defined.

Lemma content_no_room_witness :
  exists c,
    run only_page_schedule (crawl home 0 "t1" "09:00") = Some c /\
    pages_crawled (Engine.spider c) = 0 /\
    page_files (Engine.spider c) = ∅ /\
    index_file (Engine.spider c) = [Header "09:00" home 0] /\
    visited_urls (Engine.spider c) = ∅ /\
    Engine.yielded c = [].
Proof.
  eexists. split; [vm_compute; reflexivity |].
  apply (content_no_room home 0 "t1" "09:00" only_page_schedule);
    [vm_compute; discriminate | vm_compute; reflexivity].
Defined.

Lemma content_file_names_witness :
  exists c,
    run two_pages_schedule (crawl home 5 "t1" "09:00") = Some c /\
    (dom (page_files (Engine.spider c))
     ⊆ list_to_set (page_name <$> seq 1 (S (pages_crawled (Engine.spider c))))) /\
    size (page_files (Engine.spider c)) <= S (pages_crawled (Engine.spider c)).
Proof.
  eexists. split; [vm_compute; reflexivity |].
  apply (content_file_names home 5 "t1" "09:00" two_pages_schedule).
  vm_compute; reflexivity.
Defined.

Lemma content_index_layout_witness :
  exists c,
    run two_pages_schedule (crawl home 5 "t1" "09:00") = Some c /\
    index_file (Engine.spider c)
    = Header "09:00" home 5 :: (Entry <$> index_entries (Engine.spider c)) /\
    index_file (close "10:00" None c)
    = Header "09:00" home 5 :: (Entry <$> index_entries (Engine.spider c))
      ++ [Footer "10:00" (length (index_entries (Engine.spider c)))
                 (Engine.reason c)] /\
    index_file (close "10:00" (Some "No space left on device") c)
    = index_file (Engine.spider c).
Proof.
  eexists. split; [vm_compute; reflexivity |].
  apply (content_index_layout home 5 "t1" "09:00" "10:00"
           "No space left on device" two_pages_schedule).
  vm_compute; reflexivity.
Defined.

Lemma content_requests_anchored_witness :
  exists c,
    run two_pages_schedule (crawl home 5 "t1" "09:00") = Some c /\
    {| req_url := "https://example.com/more"; req_errback := true |}
    ∈ Engine.yielded c /\
    exists d p h text,
      d ∈ deliveries two_pages_schedule /\ resp_page (resp d) = inl p /\
      (Some h, text) ∈ page_anchors p /\ h <> "" /\ text <> "" /\
      "https://example.com/more" = urljoin (resp_url (resp d)) h.
Proof.
  eexists. split; [vm_compute; reflexivity |].
  assert ({| req_url := "https://example.com/more"; req_errback := true |}
          ∈ [ {| req_url := "https://example.com/more"; req_errback := true |} ])
    as Hin by apply list_elem_of_here.
  split; [exact Hin |].
  eapply (content_requests_anchored home 5 "t1" "09:00" two_pages_schedule _
            {| req_url := "https://example.com/more"; req_errback := true |});
    [vm_compute; reflexivity | exact Hin].
Defined.

Lemma content_save_failure_witness :
  resp_page (resp unsaved) = inl plain_page /\
  save_error unsaved = Some "No space left on device" /\
  index_error unsaved = None /\
  (home ∉ visited_urls (init home 5 "t1" "09:00")) /\
  exists s' o,
    parse unsaved (init home 5 "t1" "09:00") = (s', o) /\
    page_files s' = ∅ /\
    index_file s'
    = [Header "09:00" home 5;
       Entry {| entry_number := 1; entry_title := "Example Domain";
                entry_url := home; entry_file := page_name 1 |}] /\
    pages_crawled s' = 1 /\
    visited_urls s' = ∅ ∪ {[ home ]} /\
    error_file s'
    = ["Error saving content to " +:+ page_name 1 +:+ ": "
       +:+ "No space left on device"].
Proof.
  assert (home ∉ visited_urls (init home 5 "t1" "09:00")) as Hnew
    by apply not_elem_of_empty.
  split_and!; [reflexivity | reflexivity | reflexivity | exact Hnew |].
  apply (content_save_failure unsaved plain_page "No space left on device"
           (init home 5 "t1" "09:00"));
    [reflexivity | reflexivity | reflexivity | reflexivity | exact Hnew].
Defined.

Lemma content_index_failure_witness :
  resp_page (resp unindexed) = inl plain_page /\
  save_error unindexed = None /\
  index_error unindexed = Some "No space left on device" /\
  (home ∉ visited_urls (init home 5 "t1" "09:00")) /\
  exists s' c,
    parse unindexed (init home 5 "t1" "09:00") = (s', Exhausted) /\
    FastSpider.url c = home /\
    page_files s' = <[page_name 1 := c]> ∅ /\
    index_file s' = [Header "09:00" home 5] /\
    pages_crawled s' = 0 /\
    visited_urls s' = ∅ /\
    error_file s'
    = ["Error processing " +:+ home +:+ ": " +:+ "No space left on device"].
Proof.
  assert (home ∉ visited_urls (init home 5 "t1" "09:00")) as Hnew
    by apply not_elem_of_empty.
  split_and!; [reflexivity | reflexivity | reflexivity | exact Hnew |].
  apply (content_index_failure unindexed plain_page "No space left on device"
           (init home 5 "t1" "09:00"));
    [reflexivity | reflexivity | reflexivity | reflexivity | exact Hnew].
Defined.
End ContentMoreWorked.

(** ** The content API: worked calls *)
Section ApiWorked.
Import Api WorkedApi.

End ApiWorked.

